(** * Session managers of the anima conversational client

    A shallow embedding of [services/BaseSessionManager.ts], its two
    subclasses [TextSessionManager] and [CallSessionManager], the
    [InteractionManager] orchestrator and the [SummarizationService].

    The JavaScript event loop is modelled explicitly.  Every [async]
    function is cut at its [await]s: the code before the first [await] is a
    total function on the machine state, and what remains to be done once
    the awaited promise settles is recorded as a first-order continuation
    (a pending connect call or a pending timer).  An [Action] is one
    macrotask: an API call, a conduit callback, a timer firing or the
    settlement of [client.live.connect].  Dynamic dispatch on the subclass
    is a [match] on the class tag [cls]. *)

From Stdlib Require Import ZArith Lia Ascii.
From stdpp Require Import base tactics option list strings gmap pretty.

Open Scope Z_scope.

(** ** Data model *)

(** A JavaScript [Error], observed through its [message]. *)
Record Error := mkError { message : string }.

(** [SessionState] (BaseSessionManager.ts, lines 20-26). *)
Record SessionState := mkSessionState {
  sessionId : string;
  resumptionToken : option string;
  currentModel : string;
  isActive : bool;
  connectionAttempts : nat
}.

(** [SessionConfig] (lines 31-36); an absent optional field is [None]. *)
Record SessionConfig := mkSessionConfig {
  model : string;
  cfg_context : option string;
  enableResumption : option bool;
  maxReconnectAttempts : option nat
}.

(** [Message] (lines 10-15). *)
Record Message := mkMessage {
  msg_id : string;
  sender : string;
  msg_text : string;
  timestamp : Z
}.

(** [SessionEvent] (lines 41-49).  The token of [session-resumed] is typed
    [string] in the source but is read from a nullable field. *)
Inductive SessionEvent :=
| session_started (sid : string)
| session_ended (sid : string)
| session_resumed (sid : string) (token : option string)
| go_away (timeLeft : Z)
| rate_limit_error (error : Error)
| network_error (error : Error) (willRetry : bool)
| reconnecting (attempt : nat)
| message_received (m : Message).

(** Entries of [TextSessionManager.messages] and of
    [CallSessionManager.callTranscript]. *)
Record ChatTurn := mkChatTurn { role : string; parts : list string }.
Record Turn := mkTurn { speaker : string; turn_text : string }.

(** The conduit handle returned by [client.live.connect]. *)
Definition Session := positive.

(** The two concrete subclasses of [BaseSessionManager]. *)
Inductive Class := TextSessionManager | CallSessionManager.

(** JavaScript truthiness of a string and of a nullable string. *)
Definition truthy (s : string) : bool := negb (String.eqb s "").
Definition truthy_opt (o : option string) : bool :=
  match o with Some s => truthy s | None => false end.
Definition truthy_flag (o : option bool) : bool :=
  match o with Some b => b | None => false end.

(** ** Collaborators that are not part of the sources *)

(** Modelled from the spec: [EnergyBarService] (imported from
    [./EnergyBarService], absent from the sources).  One level per mode,
    bounded by a mode-specific maximum (text 2, audio 3);
    [currentModel(mode)] is [modelFor(mode, level[mode])], a pure lookup that
    may find no model; enhanced (affective) dialog is enabled only at the
    maximum audio level. *)
Inductive EnergyMode := tts | sts.

Record Ledger := mkLedger {
  level : EnergyMode -> nat;
  modelFor : EnergyMode -> nat -> option string
}.

Definition maxLevel (m : EnergyMode) : nat :=
  match m with tts => 2%nat | sts => 3%nat end.

Definition getCurrentModel (l : Ledger) (m : EnergyMode) : option string :=
  modelFor l m (level l m).

Definition isAffectiveDialogEnabled (l : Ledger) : bool :=
  Nat.eqb (level l sts) (maxLevel sts).

(** ** The event loop: timers, pending connects, promises *)

(** What a pending [setTimeout] does when it fires: resume
    [attemptReconnection] after its fixed delay (line 232), or run the
    callback installed by [scheduleReconnection] (line 268). *)
Inductive TimerAction := ReconnectDelay | ScheduledReconnect.

Record Timer := mkTimer {
  action : TimerAction;
  delay : Z;
  due : Z
}.

(** Who awaits [startSession]. *)
Inductive Caller :=
| FromSendMessage (text : string) (p : positive)
| FromSendAudio (chunk : list Byte.byte) (p : positive)
| FromApi (p : positive).

(** Who awaits [createNewSession]: [startSession] (directly or through
    [resumeSession], whose body ends with that await), or
    [reconnectSession] awaited by [attemptReconnection]. *)
Inductive ConnectCont :=
| KStartSession (caller : Caller)
| KReconnect.

Record ConnectCall := mkConnectCall {
  call_config : SessionConfig;
  call_cont : ConnectCont
}.

Inductive ConnectOutcome :=
| ConnOk (c : Session)
| ConnFail (e : Error).

(** The object passed as [config] to [client.live.connect] ([getConfig]).
    The constant parts (audio response modality, sliding-window
    compression, voice [Kore]) are left out. *)
Record LiveConfig := mkLiveConfig {
  systemInstruction : string;
  transcription : bool;
  enableAffectiveDialog : bool
}.

Inductive Settlement :=
| Resolved (v : string)
| ResolvedVoid
| Rejected (e : Error).

(** Observable effects, in the order they happen. *)
Inductive Effect :=
| Emitted (ev : SessionEvent)
| ConnectCalled (id : positive) (m : string) (c : LiveConfig)
| SentClientContent (c : Session) (turns : list ChatTurn)
| SentRealtimeInput (c : Session) (chunk : list Byte.byte)
| Closed (c : Session)
| UpdateTranscript (text : string)
| UpdateCallTranscript (text : string) (who : string)
| Settled (p : positive) (r : Settlement).

Inductive Level := info | warn | error | debug.

Inductive Detail :=
| DNone
| DConfig (c : SessionConfig)
| DToken (t : string)
| DSessionId (sid : string)
| DTimeLeft (t : Z)
| DError (e : Error)
| DNetwork (msg : string) (attempt : nat) (willRetry : bool)
| DReconnectIn (t : Z)
| DText (t : string).

Record LogEntry := mkLog { lvl : Level; log_text : string; detail : Detail }.

(** ** Machine state

    One session manager object ([this]), the static token store, the
    event-loop state and the collaborators it reads. *)
Record Sys := mkSys {
  (* this: BaseSessionManager *)
  cls : Class;
  sessionState : option SessionState;
  reconnectTimer : option positive;
  (* this: subclass fields *)
  session : option Session;
  messages : list ChatTurn;
  _currentResolver : option positive;
  _currentRejecter : option positive;
  _responseText : option string;
  callTranscript : list Turn;
  (* static BaseSessionManager.resumptionTokenStore *)
  resumptionTokenStore : gmap string (string * Z);
  (* event loop *)
  clock : Z;
  timers : gmap positive Timer;
  nextTimerId : positive;
  connects : gmap positive ConnectCall;
  nextConnectId : positive;
  nextPromise : positive;
  (* collaborators *)
  energy : Ledger;
  systemPrompt : string;
  closeThrows : Session -> option Error;
  sendThrows : Session -> option Error;
  (* observations *)
  trace : list Effect;
  logs : list LogEntry
}.

Definition set_sessionState v (s : Sys) : Sys :=
  mkSys (cls s) v (reconnectTimer s) (session s) (messages s)
    (_currentResolver s) (_currentRejecter s) (_responseText s)
    (callTranscript s) (resumptionTokenStore s) (clock s) (timers s)
    (nextTimerId s) (connects s) (nextConnectId s) (nextPromise s)
    (energy s) (systemPrompt s) (closeThrows s) (sendThrows s)
    (trace s) (logs s).

Definition set_reconnectTimer v (s : Sys) : Sys :=
  mkSys (cls s) (sessionState s) v (session s) (messages s)
    (_currentResolver s) (_currentRejecter s) (_responseText s)
    (callTranscript s) (resumptionTokenStore s) (clock s) (timers s)
    (nextTimerId s) (connects s) (nextConnectId s) (nextPromise s)
    (energy s) (systemPrompt s) (closeThrows s) (sendThrows s)
    (trace s) (logs s).

Definition set_session v (s : Sys) : Sys :=
  mkSys (cls s) (sessionState s) (reconnectTimer s) v (messages s)
    (_currentResolver s) (_currentRejecter s) (_responseText s)
    (callTranscript s) (resumptionTokenStore s) (clock s) (timers s)
    (nextTimerId s) (connects s) (nextConnectId s) (nextPromise s)
    (energy s) (systemPrompt s) (closeThrows s) (sendThrows s)
    (trace s) (logs s).

Definition set_messages v (s : Sys) : Sys :=
  mkSys (cls s) (sessionState s) (reconnectTimer s) (session s) v
    (_currentResolver s) (_currentRejecter s) (_responseText s)
    (callTranscript s) (resumptionTokenStore s) (clock s) (timers s)
    (nextTimerId s) (connects s) (nextConnectId s) (nextPromise s)
    (energy s) (systemPrompt s) (closeThrows s) (sendThrows s)
    (trace s) (logs s).

(** The three dynamically attached properties of the text adapter are
    always set or deleted together. *)
Definition set_stash (resolver rejecter : option positive)
    (text : option string) (s : Sys) : Sys :=
  mkSys (cls s) (sessionState s) (reconnectTimer s) (session s) (messages s)
    resolver rejecter text
    (callTranscript s) (resumptionTokenStore s) (clock s) (timers s)
    (nextTimerId s) (connects s) (nextConnectId s) (nextPromise s)
    (energy s) (systemPrompt s) (closeThrows s) (sendThrows s)
    (trace s) (logs s).

Definition set_responseText v (s : Sys) : Sys :=
  set_stash (_currentResolver s) (_currentRejecter s) v s.

Definition set_callTranscript v (s : Sys) : Sys :=
  mkSys (cls s) (sessionState s) (reconnectTimer s) (session s) (messages s)
    (_currentResolver s) (_currentRejecter s) (_responseText s)
    v (resumptionTokenStore s) (clock s) (timers s)
    (nextTimerId s) (connects s) (nextConnectId s) (nextPromise s)
    (energy s) (systemPrompt s) (closeThrows s) (sendThrows s)
    (trace s) (logs s).

Definition set_resumptionTokenStore v (s : Sys) : Sys :=
  mkSys (cls s) (sessionState s) (reconnectTimer s) (session s) (messages s)
    (_currentResolver s) (_currentRejecter s) (_responseText s)
    (callTranscript s) v (clock s) (timers s)
    (nextTimerId s) (connects s) (nextConnectId s) (nextPromise s)
    (energy s) (systemPrompt s) (closeThrows s) (sendThrows s)
    (trace s) (logs s).

Definition set_clock v (s : Sys) : Sys :=
  mkSys (cls s) (sessionState s) (reconnectTimer s) (session s) (messages s)
    (_currentResolver s) (_currentRejecter s) (_responseText s)
    (callTranscript s) (resumptionTokenStore s) v (timers s)
    (nextTimerId s) (connects s) (nextConnectId s) (nextPromise s)
    (energy s) (systemPrompt s) (closeThrows s) (sendThrows s)
    (trace s) (logs s).

Definition set_timers v n (s : Sys) : Sys :=
  mkSys (cls s) (sessionState s) (reconnectTimer s) (session s) (messages s)
    (_currentResolver s) (_currentRejecter s) (_responseText s)
    (callTranscript s) (resumptionTokenStore s) (clock s) v
    n (connects s) (nextConnectId s) (nextPromise s)
    (energy s) (systemPrompt s) (closeThrows s) (sendThrows s)
    (trace s) (logs s).

Definition set_connects v n (s : Sys) : Sys :=
  mkSys (cls s) (sessionState s) (reconnectTimer s) (session s) (messages s)
    (_currentResolver s) (_currentRejecter s) (_responseText s)
    (callTranscript s) (resumptionTokenStore s) (clock s) (timers s)
    (nextTimerId s) v n (nextPromise s)
    (energy s) (systemPrompt s) (closeThrows s) (sendThrows s)
    (trace s) (logs s).

Definition set_nextPromise v (s : Sys) : Sys :=
  mkSys (cls s) (sessionState s) (reconnectTimer s) (session s) (messages s)
    (_currentResolver s) (_currentRejecter s) (_responseText s)
    (callTranscript s) (resumptionTokenStore s) (clock s) (timers s)
    (nextTimerId s) (connects s) (nextConnectId s) v
    (energy s) (systemPrompt s) (closeThrows s) (sendThrows s)
    (trace s) (logs s).

Definition set_trace v (s : Sys) : Sys :=
  mkSys (cls s) (sessionState s) (reconnectTimer s) (session s) (messages s)
    (_currentResolver s) (_currentRejecter s) (_responseText s)
    (callTranscript s) (resumptionTokenStore s) (clock s) (timers s)
    (nextTimerId s) (connects s) (nextConnectId s) (nextPromise s)
    (energy s) (systemPrompt s) (closeThrows s) (sendThrows s)
    v (logs s).

Definition set_logs v (s : Sys) : Sys :=
  mkSys (cls s) (sessionState s) (reconnectTimer s) (session s) (messages s)
    (_currentResolver s) (_currentRejecter s) (_responseText s)
    (callTranscript s) (resumptionTokenStore s) (clock s) (timers s)
    (nextTimerId s) (connects s) (nextConnectId s) (nextPromise s)
    (energy s) (systemPrompt s) (closeThrows s) (sendThrows s)
    (trace s) v.

(** ** Primitives *)

(** [this.logger.info/warn/error/debug]. *)
Definition log (l : Level) (text : string) (d : Detail) (s : Sys) : Sys :=
  set_logs (logs s ++ [mkLog l text d]) s.

Definition effect (e : Effect) (s : Sys) : Sys :=
  set_trace (trace s ++ [e]) s.

(** [emitEvent] (lines 299-304): synchronous fan-out to the registered
    listeners, which are outside the machine; the emission is recorded. *)
Definition emitEvent (ev : SessionEvent) (s : Sys) : Sys :=
  effect (Emitted ev) s.

(** [setTimeout]: handles are positive and never reused. *)
Definition setTimeout (a : TimerAction) (d : Z) (s : Sys) : positive * Sys :=
  let id := nextTimerId s in
  (id, set_timers (<[id := mkTimer a d (clock s + Z.max 0 d)]> (timers s))
         (Pos.succ id) s).

Definition clearTimeout (id : positive) (s : Sys) : Sys :=
  set_timers (delete id (timers s)) (nextTimerId s) s.

(** A fresh promise handed to the caller of an [async] method. *)
Definition newPromise (s : Sys) : positive * Sys :=
  (nextPromise s, set_nextPromise (Pos.succ (nextPromise s)) s).

Definition settle (p : positive) (r : Settlement) (s : Sys) : Sys :=
  effect (Settled p r) s.

(** ** BaseSessionManager: configuration and token store *)

Definition MAX_RECONNECT_ATTEMPTS : nat := 3.
Definition RECONNECT_DELAY_MS : Z := 2000.
Definition RESUMPTION_TOKEN_EXPIRY_MS : Z := 2 * 60 * 60 * 1000.

(** The constructor argument passed by each subclass to [super]. *)
Definition componentName (s : Sys) : string :=
  match cls s with
  | TextSessionManager => "TextSessionManager"
  | CallSessionManager => "CallSessionManager"
  end.

(** [storeResumptionToken] (lines 329-334). *)
Definition storeResumptionToken (token : string) (s : Sys) : Sys :=
  set_resumptionTokenStore
    (<[componentName s := (token, clock s)]> (resumptionTokenStore s)) s.

(** [getValidResumptionToken] (lines 339-358). *)
Definition getValidResumptionToken (s : Sys) : option string * Sys :=
  match resumptionTokenStore s !! componentName s with
  | None => (None, s)
  | Some (token, stamp) =>
      let isExpired := RESUMPTION_TOKEN_EXPIRY_MS <? clock s - stamp in
      if isExpired then
        let s := log debug "Resumption token expired" DNone s in
        (None, set_resumptionTokenStore
                 (delete (componentName s) (resumptionTokenStore s)) s)
      else (Some token, s)
  end.

(** ** Subclass cleanup *)

(** [session.close()] inside [try]/[catch]: a throwing [close] is logged
    as a warning and otherwise ignored. *)
Definition closeSession (c : Session) (s : Sys) : Sys :=
  match closeThrows s c with
  | Some e => log warn "Error closing session" (DError e) s
  | None => effect (Closed c) s
  end.

(** [performSessionCleanup] (TextSessionManager lines 128-141,
    CallSessionManager lines 115-128). *)
Definition performSessionCleanup (s : Sys) : Sys :=
  match cls s with
  | TextSessionManager =>
      let s := log info "Cleaning up text session" DNone s in
      let s := match session s with
               | Some c => set_session None (closeSession c s)
               | None => s
               end in
      set_messages [] s
  | CallSessionManager =>
      let s := log info "Cleaning up STS session" DNone s in
      let s := match session s with
               | Some c => set_session None (closeSession c s)
               | None => s
               end in
      set_callTranscript [] s
  end.

(** ** BaseSessionManager: synchronous methods *)

(** [endSession] (lines 103-137). *)
Definition endSession (s : Sys) : Sys :=
  match sessionState s with
  | None => log warn "No active session to end" DNone s
  | Some st =>
      let s := log info "Ending session" (DSessionId (sessionId st)) s in
      let s := match reconnectTimer s with
               | Some id => set_reconnectTimer None (clearTimeout id s)
               | None => s
               end in
      let sid := sessionId st in
      let s := performSessionCleanup s in
      match sessionState s with
      | None => s (* unreachable: cleanup leaves sessionState alone *)
      | Some st' =>
          let token := resumptionToken st' in
          let s := set_sessionState None s in
          let s := match token with
                   | Some t => if truthy t then storeResumptionToken t s else s
                   | None => s
                   end in
          emitEvent (session_ended sid) s
      end
  end.

(** [setResumptionToken] (lines 142-151). *)
Definition setResumptionToken (token : string) (s : Sys) : Sys :=
  match sessionState s with
  | None => log warn "Cannot set resumption token without active session" DNone s
  | Some st =>
      let s := log debug "Updating resumption token" (DToken token) s in
      let s := set_sessionState
                 (Some (mkSessionState (sessionId st) (Some token)
                          (currentModel st) (isActive st)
                          (connectionAttempts st))) s in
      storeResumptionToken token s
  end.

(** [scheduleReconnection] (lines 258-271). *)
Definition scheduleReconnection (timeLeft : Z) (s : Sys) : Sys :=
  let s := match reconnectTimer s with
           | Some id => clearTimeout id s
           | None => s
           end in
  let reconnectIn := Z.max 0 (timeLeft - 500) in
  let s := log info "Scheduling reconnection" (DReconnectIn reconnectIn) s in
  let (id, s) := setTimeout ScheduledReconnect reconnectIn s in
  set_reconnectTimer (Some id) s.

(** [handleGoAwayMessage] (lines 156-168). *)
Definition handleGoAwayMessage (timeLeft : Z) (s : Sys) : Sys :=
  let s := log warn "Received GoAway message" (DTimeLeft timeLeft) s in
  let s := emitEvent (go_away timeLeft) s in
  match sessionState s with
  | Some st =>
      if truthy_opt (resumptionToken st) then scheduleReconnection timeLeft s
      else s
  | None => s
  end.

(** [handleRateLimitError] (lines 206-215). *)
Definition handleRateLimitError (e : Error) (s : Sys) : Sys :=
  let s := log error "Rate limit error" (DError e) s in
  emitEvent (rate_limit_error e) s.

(** [attemptReconnection] (lines 220-234), up to its first [await]: the
    fixed delay is a timer whose firing resumes the function. *)
Definition attemptReconnection (s : Sys) : Sys :=
  match sessionState s with
  | Some st =>
      if truthy_opt (resumptionToken st) then
        let s := emitEvent (reconnecting (connectionAttempts st)) s in
        snd (setTimeout ReconnectDelay RECONNECT_DELAY_MS s)
      else log warn "Cannot reconnect without resumption token" DNone s
  | None => log warn "Cannot reconnect without resumption token" DNone s
  end.

(** [handleNetworkError] (lines 173-201), up to the first [await] reached
    inside [attemptReconnection]; nothing follows that await. *)
Definition handleNetworkError (e : Error) (s : Sys) : Sys :=
  match sessionState s with
  | None => log error "Network error without active session" (DError e) s
  | Some st =>
      let attempts := S (connectionAttempts st) in
      let s := set_sessionState
                 (Some (mkSessionState (sessionId st) (resumptionToken st)
                          (currentModel st) (isActive st) attempts)) s in
      let willRetry :=
        (attempts <? MAX_RECONNECT_ATTEMPTS)%nat
        && truthy_opt (resumptionToken st) in
      let s := log error "Network error occurred"
                 (DNetwork (message e) attempts willRetry) s in
      let s := emitEvent (network_error e willRetry) s in
      if willRetry then attemptReconnection s else endSession s
  end.

(** ** Subclass methods *)

Definition modeOf (c : Class) : EnergyMode :=
  match c with TextSessionManager => tts | CallSessionManager => sts end.

(** [getModel] (TextSessionManager lines 146-152, CallSessionManager lines
    134-140): the model of the current ledger level, or a thrown error. *)
Definition getModel (s : Sys) : string + Error :=
  let exhausted :=
    match cls s with
    | TextSessionManager =>
        mkError "Energy exhausted: no model available for text session"
    | CallSessionManager =>
        mkError "Energy exhausted: no model available for STS session"
    end in
  match getCurrentModel (energy s) (modeOf (cls s)) with
  | Some m => if truthy m then inl m else inr exhausted
  | None => inr exhausted
  end.

(** [getConfig] (TextSessionManager lines 157-166, CallSessionManager lines
    145-160). *)
Definition getConfig (s : Sys) : LiveConfig :=
  match cls s with
  | TextSessionManager => mkLiveConfig (systemPrompt s) false false
  | CallSessionManager =>
      mkLiveConfig (systemPrompt s) true (isAffectiveDialogEnabled (energy s))
  end.

(** [createNewSession] (TextSessionManager lines 75-95, CallSessionManager
    lines 62-82), up to the [await] on [client.live.connect]. *)
Definition createNewSession (config : SessionConfig) (k : ConnectCont)
    (s : Sys) : Sys :=
  let s := match cls s with
           | TextSessionManager => log info "Creating new text session" DNone s
           | CallSessionManager => log info "Creating new STS session" DNone s
           end in
  let sessionConfig := getConfig s in
  let id := nextConnectId s in
  let s := set_connects (<[id := mkConnectCall config k]> (connects s))
             (Pos.succ id) s in
  effect (ConnectCalled id (model config) sessionConfig) s.

(** The rest of [createNewSession], once [connect] has resolved with a
    conduit: a conduit handle is an object, hence truthy. *)
Definition createNewSession_resolved (config : SessionConfig) (c : Session)
    (s : Sys) : Sys :=
  let s := set_session (Some c) s in
  let prefix := match cls s with
                | TextSessionManager => "text-session-"
                | CallSessionManager => "sts-session-"
                end in
  set_sessionState
    (Some (mkSessionState (prefix +:+ pretty (clock s)) None (model config)
             true 0%nat)) s.

(** [resumeSession] (TextSessionManager lines 100-109, CallSessionManager
    lines 87-96). *)
Definition resumeSession (config : SessionConfig) (token : string)
    (k : ConnectCont) (s : Sys) : Sys :=
  let s := match cls s with
           | TextSessionManager =>
               log info "Resuming text session" (DToken token) s
           | CallSessionManager =>
               log info "Resuming STS session" (DToken token) s
           end in
  createNewSession config k s.

(** [reconnectSession] (TextSessionManager lines 114-123,
    CallSessionManager lines 101-110); the flag tells whether the method
    is now awaiting a connect. *)
Definition reconnectSession (s : Sys) : Sys * bool :=
  let s := match cls s with
           | TextSessionManager => log info "Reconnecting text session" DNone s
           | CallSessionManager => log info "Reconnecting STS session" DNone s
           end in
  let s := performSessionCleanup s in
  match sessionState s with
  | Some st =>
      (createNewSession (mkSessionConfig (currentModel st) None None None)
         KReconnect s, true)
  | None => (s, false)
  end.

(** ** BaseSessionManager: [startSession] *)

(** [startSession] (lines 74-98), up to the [await] on the subclass. *)
Definition startSession (config : SessionConfig) (caller : Caller)
    (s : Sys) : Sys :=
  let s := log info "Starting session" (DConfig config) s in
  let (resumption, s) := getValidResumptionToken s in
  match resumption with
  | Some token =>
      if truthy token && truthy_flag (enableResumption config) then
        let s := log info "Attempting to resume session" (DToken token) s in
        resumeSession config token (KStartSession caller) s
      else createNewSession config (KStartSession caller) s
  | None => createNewSession config (KStartSession caller) s
  end.

(** The [TypeError] raised by a property access on [null]. *)
Definition typeError : Error :=
  mkError "TypeError: this.sessionState is null".

(** [TextSessionManager.sendMessage] (lines 43-69), after the lazy start:
    push the user turn, then run the promise executor. *)
Definition sendMessage_send (text : string) (p : positive) (s : Sys) : Sys :=
  let s := set_messages (messages s ++ [mkChatTurn "user" [text]]) s in
  match session s with
  | None => settle p (Rejected (mkError "No active session available")) s
  | Some c =>
      match sendThrows s c with
      | Some e => settle p (Rejected e) s
      | None =>
          let s := effect (SentClientContent c [mkChatTurn "user" [text]]) s in
          set_stash (Some p) (Some p) (Some "") s
      end
  end.

(** [CallSessionManager.sendAudio] (lines 46-56), after the lazy start. *)
Definition sendAudio_send (chunk : list Byte.byte) (p : positive)
    (s : Sys) : Sys :=
  match session s with
  | None => settle p (Rejected (mkError "No active session available")) s
  | Some c =>
      match sendThrows s c with
      | Some e =>
          let s := log error "Failed to send audio chunk" (DError e) s in
          settle p (Rejected e) s
      | None =>
          let s := effect (SentRealtimeInput c chunk) s in
          settle p ResolvedVoid s
      end
  end.

(** What the awaiting caller does when [startSession] resolves or rejects. *)
Definition resumeCaller (caller : Caller) (s : Sys) : Sys :=
  match caller with
  | FromSendMessage text p => sendMessage_send text p s
  | FromSendAudio chunk p => sendAudio_send chunk p s
  | FromApi p => settle p ResolvedVoid s
  end.

Definition rejectCaller (caller : Caller) (e : Error) (s : Sys) : Sys :=
  match caller with
  | FromSendMessage _ p | FromSendAudio _ p | FromApi p =>
      settle p (Rejected e) s
  end.

(** [startSession] (lines 90-97): the [catch] logs and rethrows. *)
Definition startSession_rejected (caller : Caller) (e : Error)
    (s : Sys) : Sys :=
  rejectCaller caller e (log error "Failed to start session" (DError e) s).

Definition startSession_resolved (caller : Caller) (s : Sys) : Sys :=
  match sessionState s with
  | Some st => resumeCaller caller (emitEvent (session_started (sessionId st)) s)
  | None => startSession_rejected caller typeError s
  end.

(** ** BaseSessionManager: the rest of [attemptReconnection] *)

(** The [catch] of [attemptReconnection] (lines 247-252). *)
Definition attemptReconnection_rejected (e : Error) (s : Sys) : Sys :=
  handleNetworkError e
    (log error "Reconnection failed" (DError e) s).

(** Lines 239-246, once [reconnectSession] has resolved. *)
Definition attemptReconnection_resolved (s : Sys) : Sys :=
  match sessionState s with
  | Some st =>
      let s := set_sessionState
                 (Some (mkSessionState (sessionId st) (resumptionToken st)
                          (currentModel st) (isActive st) 0%nat)) s in
      emitEvent (session_resumed (sessionId st) (resumptionToken st)) s
  | None => attemptReconnection_rejected typeError s
  end.

(** Lines 236-237, when the delay timer fires. *)
Definition attemptReconnection_afterDelay (s : Sys) : Sys :=
  let (s, awaiting) := reconnectSession s in
  if awaiting then s else attemptReconnection_resolved s.

(** ** Settlement of [client.live.connect] *)

Definition connectSettled (id : positive) (o : ConnectOutcome)
    (s : Sys) : Sys :=
  match connects s !! id with
  | None => s
  | Some call =>
      let s := set_connects (delete id (connects s)) (nextConnectId s) s in
      match o, call_cont call with
      | ConnOk c, KStartSession caller =>
          startSession_resolved caller
            (createNewSession_resolved (call_config call) c s)
      | ConnOk c, KReconnect =>
          attemptReconnection_resolved
            (createNewSession_resolved (call_config call) c s)
      | ConnFail e, KStartSession caller => startSession_rejected caller e s
      | ConnFail e, KReconnect => attemptReconnection_rejected e s
      end
  end.

(** A pending timer fires; time has advanced at least to its due date. *)
Definition timerFired (id : positive) (s : Sys) : Sys :=
  match timers s !! id with
  | None => s
  | Some t =>
      let s := set_clock (Z.max (clock s) (due t)) (clearTimeout id s) in
      match action t with
      | ScheduledReconnect => attemptReconnection s
      | ReconnectDelay => attemptReconnection_afterDelay s
      end
  end.

(** ** Inbound messages and conduit callbacks *)

(** The fields of a [LiveServerMessage] read by [getCallbacks]; an absent
    (or falsy) object is [None].  [ga_timeLeft] is [Some] exactly when
    [typeof goAway.timeLeft === "number"]. *)
Record ResumptionUpdate := mkResumptionUpdate {
  resumable : bool;
  newHandle : option string
}.

Record GoAway := mkGoAway { ga_timeLeft : option Z }.

Record ServerContent := mkServerContent {
  sc_sessionResumptionUpdate : option ResumptionUpdate;
  sc_goAway : option GoAway;
  sc_error : option (option string);
  modelTurn : option (option (list (option string)));
  generationComplete : bool;
  outputTranscription : option string;
  inputTranscription : option string
}.

Record LiveServerMessage := mkLiveServerMessage {
  sessionResumptionUpdate : option ResumptionUpdate;
  goAway : option GoAway;
  serverContent : option ServerContent
}.

(** [a || b] on nullable objects and [x?.f] on a nullable [x]. *)
Definition orElse {A} (a b : option A) : option A :=
  match a with Some _ => a | None => b end.

(** [String.prototype.includes]. *)
Fixpoint includes (needle hay : string) : bool :=
  String.prefix needle hay ||
  match hay with
  | EmptyString => false
  | String _ rest => includes needle rest
  end.

(** The part of [onmessage] shared by both subclasses (TextSessionManager
    lines 174-193, CallSessionManager lines 168-187): resumption tokens,
    GoAway and the rate-limit indicator. *)
Definition onmessage_common (m : LiveServerMessage) (s : Sys) : Sys :=
  let resumptionUpdate :=
    orElse (sessionResumptionUpdate m)
           (serverContent m ≫= sc_sessionResumptionUpdate) in
  let s := match resumptionUpdate with
           | Some u =>
               match newHandle u with
               | Some h =>
                   if resumable u && truthy h then setResumptionToken h s
                   else s
               | None => s
               end
           | None => s
           end in
  let ga := orElse (goAway m) (serverContent m ≫= sc_goAway) in
  let s := match ga ≫= ga_timeLeft with
           | Some t => handleGoAwayMessage t s
           | None => s
           end in
  match serverContent m ≫= sc_error with
  | Some (Some text) =>
      if includes "rate limit" text then handleRateLimitError (mkError text) s
      else s
  | _ => s
  end.

(** The text of a nullable part, [""] when absent or falsy. *)
Definition firstPartText (m : LiveServerMessage) : option string :=
  match serverContent m ≫= modelTurn with
  | Some (Some (Some t :: _)) => if truthy t then Some t else None
  | _ => None
  end.

(** [TextSessionManager] [onmessage] (lines 173-236). *)
Definition text_onmessage (m : LiveServerMessage) (s : Sys) : Sys :=
  let s := onmessage_common m s in
  let s :=
    match serverContent m ≫= modelTurn with
    | Some turn =>
        match turn ≫= last with
        | Some (Some text) =>
            if truthy text then
              let s := effect (UpdateTranscript text) s in
              match _responseText s with
              | Some acc => set_responseText (Some (acc +:+ text)) s
              | None => s
              end
            else s
        | _ => s
        end
    | None => s
    end in
  let genComplete :=
    match serverContent m with
    | Some sc => generationComplete sc
    | None => false
    end in
  let s :=
    match _currentResolver s with
    | Some p =>
        if genComplete then
          let responseText := default "" (_responseText s) in
          let s := set_messages
                     (messages s ++ [mkChatTurn "model" [responseText]]) s in
          let s := settle p (Resolved responseText) s in
          set_stash None None None s
        else s
    | None => s
    end in
  emitEvent
    (message_received
       (mkMessage (pretty (clock s)) "model"
          (default "" (firstPartText m)) (clock s))) s.

(** [CallSessionManager] [onmessage] (lines 167-229). *)
Definition call_onmessage (m : LiveServerMessage) (s : Sys) : Sys :=
  let s := onmessage_common m s in
  let out := serverContent m ≫= outputTranscription in
  let s :=
    match out with
    | Some text =>
        if truthy text then
          let s := set_callTranscript
                     (callTranscript s ++ [mkTurn "model" text]) s in
          effect (UpdateCallTranscript text "model") s
        else s
    | None => s
    end in
  let s :=
    match serverContent m ≫= inputTranscription with
    | Some text =>
        if truthy text then
          let s := set_callTranscript
                     (callTranscript s ++ [mkTurn "user" text]) s in
          effect (UpdateCallTranscript text "user") s
        else s
    | None => s
    end in
  let text :=
    match firstPartText m with
    | Some t => t
    | None =>
        match out with
        | Some t => t  (* a falsy transcription is the empty string *)
        | None => ""
        end
    end in
  emitEvent
    (message_received (mkMessage (pretty (clock s)) "model" text (clock s))) s.

Definition onmessage (m : LiveServerMessage) (s : Sys) : Sys :=
  match cls s with
  | TextSessionManager => text_onmessage m s
  | CallSessionManager => call_onmessage m s
  end.

(** [onerror] (TextSessionManager lines 237-246, CallSessionManager lines
    230-232). *)
Definition onerror (e : Error) (s : Sys) : Sys :=
  let s := handleNetworkError e s in
  match cls s with
  | TextSessionManager =>
      match _currentRejecter s with
      | Some p => set_stash None None None (settle p (Rejected e) s)
      | None => s
      end
  | CallSessionManager => s
  end.

Definition setActive (b : bool) (s : Sys) : Sys :=
  match sessionState s with
  | Some st =>
      set_sessionState
        (Some (mkSessionState (sessionId st) (resumptionToken st)
                 (currentModel st) b (connectionAttempts st))) s
  | None => s
  end.

(** [onclose] and [onopen]. *)
Definition onclose (s : Sys) : Sys := setActive false s.
Definition onopen (s : Sys) : Sys := setActive true s.

(** ** Public [async] methods of the subclasses *)

(** [TextSessionManager.sendMessage] (lines 33-70). *)
Definition sendMessage (text : string) (s : Sys) : Sys :=
  let (p, s) := newPromise s in
  match session s with
  | None =>
      match getModel s with
      | inl m =>
          startSession (mkSessionConfig m None None None)
            (FromSendMessage text p) s
      | inr e => settle p (Rejected e) s
      end
  | Some _ => sendMessage_send text p s
  end.

(** [CallSessionManager.sendAudio] (lines 34-57). *)
Definition sendAudio (chunk : list Byte.byte) (s : Sys) : Sys :=
  let (p, s) := newPromise s in
  match session s with
  | None =>
      match getModel s with
      | inl m =>
          startSession (mkSessionConfig m None (Some false) None)
            (FromSendAudio chunk p) s
      | inr e => settle p (Rejected e) s
      end
  | Some _ => sendAudio_send chunk p s
  end.

(** Getters. *)
Definition getMessages (s : Sys) : list ChatTurn := messages s.
Definition getCallTranscript (s : Sys) : list Turn := callTranscript s.
Definition isSessionActive (s : Sys) : bool :=
  match sessionState s with Some st => isActive st | None => false end.

(** ** The transition system *)

Inductive Action :=
| ASendMessage (text : string)
| ASendAudio (chunk : list Byte.byte)
| AStartSession (config : SessionConfig)
| AEndSession
| ASetResumptionToken (token : string)
| AClearMessages
| AOnMessage (m : LiveServerMessage)
| AOnError (e : Error)
| AOnClose
| AOnOpen
| ATimerFired (id : positive)
| AConnectSettled (id : positive) (o : ConnectOutcome)
| ATick (dt : Z).

Definition step (a : Action) (s : Sys) : Sys :=
  match a with
  | ASendMessage text =>
      match cls s with
      | TextSessionManager => sendMessage text s
      | CallSessionManager => s
      end
  | ASendAudio chunk =>
      match cls s with
      | TextSessionManager => s
      | CallSessionManager => sendAudio chunk s
      end
  | AStartSession config =>
      let (p, s) := newPromise s in startSession config (FromApi p) s
  | AEndSession => endSession s
  | ASetResumptionToken token => setResumptionToken token s
  | AClearMessages =>
      match cls s with
      | TextSessionManager => set_messages [] s
      | CallSessionManager => s
      end
  | AOnMessage m => onmessage m s
  | AOnError e => onerror e s
  | AOnClose => onclose s
  | AOnOpen => onopen s
  | ATimerFired id => timerFired id s
  | AConnectSettled id o => connectSettled id o s
  | ATick dt => set_clock (clock s + Z.max 0 dt) s
  end.

Definition run (acts : list Action) (s : Sys) : Sys :=
  foldl (fun s a => step a s) s acts.

(** A freshly constructed manager in a given environment. *)
Definition newManager (c : Class) (now : Z)
    (store : gmap string (string * Z)) (l : Ledger) (prompt : string)
    (closeT sendT : Session -> option Error) : Sys :=
  mkSys c None None None [] None None None [] store now ∅ 1%positive
    ∅ 1%positive 1%positive l prompt closeT sendT [] [].

(** ** SummarizationService *)

Definition MODEL_NAME : string := "gemini-2.5-flash-lite".

Definition newline : string := String "010"%char EmptyString.

(** [createPrompt] (lines 31-41). *)
Definition createPrompt (transcript : list Message) : string :=
  let conversation :=
    String.concat newline
      (map (fun m => sender m +:+ ": " +:+ msg_text m) transcript) in
  "Please provide a concise summary of the following conversation. "
  +:+ newline
  +:+ "The summary should capture the main topics discussed and any conclusions reached."
  +:+ newline
  +:+ "Format the summary as a single paragraph."
  +:+ newline +:+ newline
  +:+ "Conversation:" +:+ newline +:+ conversation.

(** Settlement of [genAI.models.generateContent]: the text of the result,
    or a rejection. *)
Inductive GenOutcome :=
| GenOk (text : string)
| GenFail (e : Error).

(** ** InteractionManager *)

Inductive DomEvent :=
| call_summary (summary : string) (transcript : list Message).

(** The orchestrator, the [CallSessionManager] object injected into it
    (with the environment that object runs in) and what the orchestrator
    and the summarization service do to the outside.  The manager object
    outlives the reference held by the orchestrator. *)
Record App := mkApp {
  callObject : Sys;
  callSessionManager : bool;    (* the reference is not null *)
  summarizationService : bool;  (* the reference is not null *)
  summarizeCalls : list (list Message);
  generateCalls : list (string * string);
  dispatched : list DomEvent;
  console : list LogEntry;
  im_logs : list LogEntry
}.

Definition im_log (l : Level) (text : string) (d : Detail) (a : App) : App :=
  mkApp (callObject a) (callSessionManager a) (summarizationService a)
    (summarizeCalls a) (generateCalls a) (dispatched a) (console a)
    (im_logs a ++ [mkLog l text d]).

(** [SummarizationService.summarize] (lines 13-29); [gen] is how
    [generateContent] settles if it is called.  Every invocation is
    recorded in [summarizeCalls]. *)
Definition summarize (transcript : list Message) (gen : GenOutcome)
    (a : App) : App * Settlement :=
  let a := mkApp (callObject a) (callSessionManager a)
             (summarizationService a) (summarizeCalls a ++ [transcript])
             (generateCalls a) (dispatched a) (console a) (im_logs a) in
  match transcript with
  | [] => (a, Resolved "")
  | _ :: _ =>
      let prompt := createPrompt transcript in
      let a := mkApp (callObject a) (callSessionManager a)
                 (summarizationService a) (summarizeCalls a)
                 (generateCalls a ++ [(MODEL_NAME, prompt)])
                 (dispatched a) (console a) (im_logs a) in
      match gen with
      | GenOk text => (a, Resolved text)
      | GenFail e =>
          (mkApp (callObject a) (callSessionManager a)
             (summarizationService a) (summarizeCalls a)
             (generateCalls a) (dispatched a)
             (console a ++ [mkLog error "Error summarizing transcript:"
                              (DError e)])
             (im_logs a),
           Resolved "Summary unavailable")
      end
  end.

(** [endCallSession] (lines 170-177). *)
Definition endCallSession (a : App) : App :=
  let a := im_log info "Ending call session" DNone a in
  if callSessionManager a then
    mkApp (endSession (callObject a)) false (summarizationService a)
      (summarizeCalls a) (generateCalls a) (dispatched a) (console a)
      (im_logs a)
  else a.

(** [InteractionManager.getCallTranscript] (lines 268-273). *)
Definition im_getCallTranscript (a : App) : list Turn :=
  if callSessionManager a then getCallTranscript (callObject a) else [].

(** Lines 288-293: the transcript converted to [Message]s. *)
Definition toMessages (now : Z) (turns : list Turn) : list Message :=
  imap (fun index turn =>
          mkMessage ("turn-" +:+ pretty (Z.of_nat index)) (speaker turn)
            (turn_text turn) now) turns.

(** Lines 295-315: summarize a transcript if there is something to
    summarize, else return the empty string; the [catch] logs and
    rethrows. *)
Definition summarizeTranscript (transcript : list Message) (gen : GenOutcome)
    (a : App) : App * Settlement :=
  if summarizationService a && (0 <? length transcript)%nat then
    match summarize transcript gen a with
    | (a, Resolved summary) =>
        let a := im_log info "Summary generated" (DText summary) a in
        (mkApp (callObject a) (callSessionManager a) (summarizationService a)
           (summarizeCalls a) (generateCalls a)
           (dispatched a ++ [call_summary summary transcript])
           (console a) (im_logs a),
         Resolved summary)
    | (a, ResolvedVoid) => (a, ResolvedVoid)
    | (a, Rejected e) =>
        (im_log error "Failed to generate summary" (DError e) a, Rejected e)
    end
  else (a, Resolved "").

(** [endSessionAndSummarize] (lines 278-316). *)
Definition endSessionAndSummarize (gen : GenOutcome) (a : App)
    : App * Settlement :=
  let a := im_log info "Ending session and generating summary" DNone a in
  let a := endCallSession a in
  let callTranscript := im_getCallTranscript a in
  let transcript := toMessages (clock (callObject a)) callTranscript in
  summarizeTranscript transcript gen a.

(** ** Vocabulary of the statements *)

(** The mode-local history is empty, whichever the subclass. *)
Definition historyEmpty (s : Sys) : Prop :=
  match cls s with
  | TextSessionManager => getMessages s = []
  | CallSessionManager => getCallTranscript s = []
  end.

(** The [Closed] effect of cleanup, if a conduit is open and [close] does
    not throw. *)
Definition closeEffects (s : Sys) : list Effect :=
  match session s with
  | Some c => match closeThrows s c with Some _ => [] | None => [Closed c] end
  | None => []
  end.

(** Two steps of [endSession]: lines 113-117 and lines 128-131. *)
Definition cancelReconnect (s : Sys) : Sys :=
  match reconnectTimer s with
  | Some id => set_reconnectTimer None (clearTimeout id s)
  | None => s
  end.

Definition keepToken (token : option string) (s : Sys) : Sys :=
  match token with
  | Some t => if truthy t then storeResumptionToken t s else s
  | None => s
  end.

(** ** Sample environments for the examples

    Only the top audio model name is documented in the sources
    (requirements, story 2.1.2); the other entries are placeholders. *)
Definition sampleLedger (textLevel audioLevel : nat) : Ledger :=
  mkLedger
    (fun m => match m with tts => textLevel | sts => audioLevel end)
    (fun m l =>
       match m, l with
       | sts, 3%nat => Some "gemini-2.5-flash-exp-native-audio-thinking-dialog"
       | sts, 2%nat => Some "audio-tier-2"
       | sts, 1%nat => Some "audio-tier-1"
       | tts, 2%nat => Some "text-tier-2"
       | tts, 1%nat => Some "text-tier-1"
       | _, _ => None
       end).

Definition neverThrows : Session -> option Error := fun _ => None.

Definition freshText : Sys :=
  newManager TextSessionManager 1000 ∅ (sampleLedger 2 3) "persona"
    neverThrows neverThrows.

Definition freshCall (audioLevel : nat) : Sys :=
  newManager CallSessionManager 1000 ∅ (sampleLedger 2 audioLevel) "persona"
    neverThrows neverThrows.

(** A text session with one user turn and a resumption token, hit by a
    network error: the retry delay (timer 1) is pending. *)
Definition textRetrying : Sys :=
  run [ASendMessage "hi"; AConnectSettled 1 (ConnOk 7%positive);
       ASetResumptionToken "handle-1"; AOnError (mkError "socket closed")]
    freshText.

(** An orchestrator holding an audio manager whose session has a
    two-turn transcript. *)
Definition callWithTranscript : Sys :=
  run [ASendAudio []; AConnectSettled 1 (ConnOk 7%positive);
       AOnMessage (mkLiveServerMessage None None
                     (Some (mkServerContent None None None None false
                              (Some "hello there") (Some "hi"))))]
    (freshCall 3).

Definition sampleApp : App :=
  mkApp callWithTranscript true true [] [] [] [] [].

(** The audio manager of a new call: the ledger was downgraded to level 1
    during the previous call, whose resumption token is still stored. *)
Definition callAfterDowngrade : Sys :=
  newManager CallSessionManager 1000
    {["CallSessionManager" := ("previous-call-handle", 900)]}
    (sampleLedger 2 1) "persona" neverThrows neverThrows.

(** ** Vocabulary of the reconnection statements *)

#[global] Instance TimerAction_eq_dec : EqDecision TimerAction.
Proof. solve_decision. Defined.

(** The pending timers installed by [scheduleReconnection]. *)
Definition scheduledReconnections (s : Sys) : gmap positive Timer :=
  filter (fun kt => action kt.2 = ScheduledReconnect) (timers s).

(** The only pending scheduled reconnection, if any, is the one whose
    handle is in [reconnectTimer]. *)
Definition oneScheduled (s : Sys) : Prop :=
  forall id t, timers s !! id = Some t -> action t = ScheduledReconnect ->
    reconnectTimer s = Some id.

(** The session holds a (truthy) resumption token. *)
Definition holdsToken (s : Sys) : bool :=
  match sessionState s with
  | Some st => truthy_opt (resumptionToken st)
  | None => false
  end.

(** The [willRetry] flags of the [network-error] events of a trace. *)
Definition willRetryFlags (tr : list Effect) : list bool :=
  omap (fun e => match e with
                 | Emitted (network_error _ w) => Some w
                 | _ => None
                 end) tr.

(** The calls to [client.live.connect] of a trace. *)
Definition connectCalls (tr : list Effect) : list positive :=
  omap (fun e => match e with
                 | ConnectCalled id _ _ => Some id
                 | _ => None
                 end) tr.

(** Consecutive network errors.  The first reaches the manager through
    [onerror].  Each further one is the failure of the reconnection that
    the previous error started: the retry delay [tid] elapses and the
    connect issued by [reconnectSession] is rejected.  When the session has
    ended no reconnection is in progress. *)
Fixpoint retriesFail (errs : list Error) (tid : positive) (s : Sys) : Sys :=
  match errs with
  | [] => s
  | e :: rest =>
      match sessionState s with
      | None => s
      | Some _ =>
          let cid := nextConnectId s in
          let tid' := nextTimerId s in
          retriesFail rest tid'
            (run [ATimerFired tid; AConnectSettled cid (ConnFail e)] s)
      end
  end.

Definition consecutiveErrors (e : Error) (errs : list Error) (s : Sys) : Sys :=
  retriesFail errs (nextTimerId s) (step (AOnError e) s).

(** A text session holding a resumption token, no error so far. *)
Definition textWithToken : Sys :=
  run [ASendMessage "hi"; AConnectSettled 1 (ConnOk 7%positive);
       ASetResumptionToken "handle-1"]
    freshText.

(** The session state with its attempt counter set to [n]. *)
Definition withAttempts (n : nat) (st : SessionState) : SessionState :=
  mkSessionState (sessionId st) (resumptionToken st) (currentModel st)
    (isActive st) n.

(** The network errors that a session can still report: none once it has
    ended; otherwise what the ceiling leaves, and at least the one that
    ends it. *)
Definition errorBudget (s : Sys) : nat :=
  match sessionState s with
  | Some st => Nat.max 1 (MAX_RECONNECT_ATTEMPTS - connectionAttempts st)
  | None => 0
  end.

(** [s'] has reported the network errors of [s] and can report no more
    than [s] could. *)
Definition quiet (s s' : Sys) : Prop :=
  willRetryFlags (trace s') = willRetryFlags (trace s)
  /\ (errorBudget s' <= errorBudget s)%nat.

(** The network errors reported in [s'] beyond those of [s] are paid from
    the budget. *)
Definition withinBudget (s s' : Sys) : Prop :=
  (length (willRetryFlags (trace s')) + errorBudget s'
   <= length (willRetryFlags (trace s)) + errorBudget s)%nat.

(** The action is a connect that resolves with a conduit. *)
Definition connectSucceeds (a : Action) : bool :=
  match a with
  | AConnectSettled _ (ConnOk _) => true
  | _ => false
  end.

(** ** Vocabulary of the [sendMessage] statement *)

(** The text fragment that an inbound message streams: the text of the
    last part of its model turn, when there is one and it is truthy. *)
Definition fragment (m : LiveServerMessage) : string :=
  match serverContent m ≫= modelTurn with
  | Some turn =>
      match turn ≫= last with
      | Some (Some text) => if truthy text then text else ""
      | _ => ""
      end
  | None => ""
  end.

(** The message signals generation-complete. *)
Definition isComplete (m : LiveServerMessage) : bool :=
  match serverContent m with
  | Some sc => generationComplete sc
  | None => false
  end.

Definition concatenation (l : list string) : string :=
  foldr String.append "" l.

(** The promises settled in a trace. *)
Definition settlements (tr : list Effect) : list (positive * Settlement) :=
  omap (fun e => match e with
                 | Settled p r => Some (p, r)
                 | _ => None
                 end) tr.

(** A message whose model turn has one part. *)
Definition textPart (text : string) (complete : bool) : LiveServerMessage :=
  mkLiveServerMessage None None
    (Some (mkServerContent None None None (Some (Some [Some text])) complete
             None None)).

(** The reply in the specification's words: the streamed text fragments
    are the texts of all the parts of the model turns received, a part
    without text counting as empty. *)
Definition spec_fragments (m : LiveServerMessage) : list string :=
  match serverContent m ≫= modelTurn with
  | Some (Some parts) => map (default "") parts
  | _ => []
  end.

Definition spec_streamedText (msgs : list LiveServerMessage) : string :=
  concatenation (flat_map spec_fragments msgs).

(** The model turn of the message has at most one part. *)
Definition singlePart (m : LiveServerMessage) : Prop :=
  (length (spec_fragments m) <= 1)%nat.

(** A message whose model turn has two parts. *)
Definition twoParts (a b : string) (complete : bool) : LiveServerMessage :=
  mkLiveServerMessage None None
    (Some (mkServerContent None None None (Some (Some [Some a; Some b]))
             complete None None)).

(** ** Frames

    What a method leaves alone. *)

(** [s'] has the timers and the timer handle of [s]. *)
Definition sameTimers (s s' : Sys) : Prop :=
  timers s' = timers s /\ reconnectTimer s' = reconnectTimer s.

(** What the shared part of [onmessage] leaves alone. *)
Definition sameText (s s' : Sys) : Prop :=
  cls s' = cls s /\ messages s' = messages s
  /\ _currentResolver s' = _currentResolver s
  /\ _currentRejecter s' = _currentRejecter s
  /\ _responseText s' = _responseText s
  /\ clock s' = clock s
  /\ settlements (trace s') = settlements (trace s).

(** [s] and [s'] differ at most in their logs. *)
Definition sameButLogs (s s' : Sys) : Prop := set_logs [] s = set_logs [] s'.

(** * Further vocabulary *)

(** [s'] has the class of [s] and the tokens of the other components. *)
Definition otherTokensKept (s s' : Sys) : Prop :=
  cls s' = cls s
  /\ forall key, key <> componentName s ->
       resumptionTokenStore s' !! key = resumptionTokenStore s !! key.

(** The transcript turns that an inbound message carries for the audio
    adapter: the output transcription (the model speaking) first, then the
    input transcription (the user speaking), each when truthy. *)
Definition turnsOf (m : LiveServerMessage) : list Turn :=
  match serverContent m ≫= outputTranscription with
  | Some t => if truthy t then [mkTurn "model" t] else []
  | None => []
  end
  ++ match serverContent m ≫= inputTranscription with
     | Some t => if truthy t then [mkTurn "user" t] else []
     | None => []
     end.

(** The calls of the [updateCallTranscript] callback in a trace. *)
Definition transcriptUpdates (tr : list Effect) : list Turn :=
  omap (fun e => match e with
                 | UpdateCallTranscript text who => Some (mkTurn who text)
                 | _ => None
                 end) tr.

(** What the shared part of [onmessage] leaves alone, audio side. *)
Definition sameCall (s s' : Sys) : Prop :=
  cls s' = cls s /\ callTranscript s' = callTranscript s
  /\ transcriptUpdates (trace s') = transcriptUpdates (trace s).

(** The [session-ended] events of a trace. *)
Definition sessionEnds (tr : list Effect) : list string :=
  omap (fun e => match e with
                 | Emitted (session_ended sid) => Some sid
                 | _ => None
                 end) tr.

(** Two nullable session states that agree on everything but the
    resumption token. *)
Definition sameSessionState (a b : option SessionState) : Prop :=
  match a, b with
  | Some st, Some st' =>
      sessionId st' = sessionId st /\ currentModel st' = currentModel st
      /\ isActive st' = isActive st
      /\ connectionAttempts st' = connectionAttempts st
  | None, None => True
  | _, _ => False
  end.

(** [s'] has the conduit, the pending connects and, up to the token, the
    session state of [s], and no further [session-ended] event. *)
Definition sessionKept (s s' : Sys) : Prop :=
  session s' = session s /\ connects s' = connects s
  /\ sameSessionState (sessionState s) (sessionState s')
  /\ sessionEnds (trace s') = sessionEnds (trace s).

(** The first use of an adapter: [sendMessage] for the text adapter,
    [sendAudio] for the audio adapter. *)
Definition firstUse (c : Class) (text : string) (chunk : list Byte.byte)
    : Action :=
  match c with
  | TextSessionManager => ASendMessage text
  | CallSessionManager => ASendAudio chunk
  end.

(** The error thrown by [getModel] when the ledger has no model. *)
Definition exhausted (c : Class) : Error :=
  match c with
  | TextSessionManager =>
      mkError "Energy exhausted: no model available for text session"
  | CallSessionManager =>
      mkError "Energy exhausted: no model available for STS session"
  end.

(** The audio chunks sent on conduits, in order. *)
Definition chunksSent (tr : list Effect) : list (Session * list Byte.byte) :=
  omap (fun e => match e with
                 | SentRealtimeInput c chunk => Some (c, chunk)
                 | _ => None
                 end) tr.

(** The identifier a manager gives to the session it creates now. *)
Definition newSessionId (s : Sys) : string :=
  match cls s with
  | TextSessionManager => "text-session-"
  | CallSessionManager => "sts-session-"
  end +:+ pretty (clock s).

(** ** InteractionManager: the call session

    The methods that use the reference to the audio manager.  The text
    manager is not part of [App]: where a method reads it, what it reads
    is a parameter. *)

(** An event dispatched on [document] by [startCallSession]. *)
Inductive UiEvent :=
| call_session_ready.

(** Where the promise of [InteractionManager.sendAudio] stands when the
    method returns to the event loop: it awaits the manager's promise [p]
    (a rejection of [p] is logged and rethrown), or it has thrown. *)
Inductive AudioOutcome :=
| AwaitsManager (p : positive)
| RejectedNow (e : Error).

Definition set_callObject (o : Sys) (a : App) : App :=
  mkApp o (callSessionManager a) (summarizationService a) (summarizeCalls a)
    (generateCalls a) (dispatched a) (console a) (im_logs a).

(** [InteractionManager.sendAudio] (lines 183-194), up to its [await]. *)
Definition im_sendAudio (chunk : list Byte.byte) (a : App)
    : App * AudioOutcome :=
  if callSessionManager a then
    (set_callObject (sendAudio chunk (callObject a)) a,
     AwaitsManager (nextPromise (callObject a)))
  else (a, RejectedNow (mkError "No active call session")).

(** [startCallSession] (lines 144-165), with the events it dispatches;
    nothing in its [try] block throws. *)
Definition startCallSession (a : App) : App * list UiEvent :=
  let a := im_log info "Starting call session" DNone a in
  let a := if callSessionManager a then endCallSession a else a in
  let a := im_log info "Call session manager created" DNone a in
  (a, [call_session_ready]).

Definition modeName (mode : EnergyMode) : string :=
  match mode with tts => "tts" | sts => "sts" end.

(** [onRateLimitError] (lines 121-139); [textActive] is the value of
    [this.textSessionManager?.isSessionActive()]. *)
Definition onRateLimitError (mode : EnergyMode) (textActive : bool)
    (a : App) : App :=
  let a := im_log info "Handling rate limit error for mode"
             (DText (modeName mode)) a in
  let a :=
    match mode with
    | sts =>
        if callSessionManager a && isSessionActive (callObject a) then
          endCallSession
            (im_log info "Restarting STS session with lower tier model"
               DNone a)
        else a
    | tts => a
    end in
  match mode with
  | tts =>
      if textActive then
        im_log info "Will use lower tier model for next TTS message" DNone a
      else a
  | sts => a
  end.

(** An orchestrator whose audio manager has an open session. *)
Definition appInCall : App :=
  mkApp (run [ASendAudio []; AConnectSettled 1 (ConnOk 7%positive)]
           (freshCall 3))
    true true [] [] [] [] [].

(** [n] consecutive handles from [p] on. *)
Fixpoint idsFrom (p : positive) (n : nat) : list positive :=
  match n with
  | O => []
  | S n => p :: idsFrom (Pos.succ p) n
  end.

(** ** BaseSessionManager: the listener registry

    [eventListeners] is a [Map] from event types to [Set]s of listener
    functions.  A listener is known by its identity; a [Set] holds no
    element twice and iterates in insertion order, so it is a list
    without duplicates. *)

Definition Listener := positive.

(** The [type] field of an event. *)
Definition eventType (ev : SessionEvent) : string :=
  match ev with
  | session_started _ => "session-started"
  | session_ended _ => "session-ended"
  | session_resumed _ _ => "session-resumed"
  | go_away _ => "go-away"
  | rate_limit_error _ => "rate-limit-error"
  | network_error _ _ => "network-error"
  | reconnecting _ => "reconnecting"
  | message_received _ => "message-received"
  end.

(** [Set.prototype.add] and [Set.prototype.delete]. *)
Definition setAdd (l : Listener) (ls : list Listener) : list Listener :=
  if decide (l ∈ ls) then ls else ls ++ [l].

Definition setDelete (l : Listener) (ls : list Listener) : list Listener :=
  filter (fun l' => l' <> l) ls.

(** [addEventListener] (lines 276-284). *)
Definition addEventListener (ty : string) (l : Listener)
    (reg : gmap string (list Listener)) : gmap string (list Listener) :=
  let reg := match reg !! ty with
             | None => <[ty := []]> reg
             | Some _ => reg
             end in
  match reg !! ty with
  | Some ls => <[ty := setAdd l ls]> reg
  | None => reg (* unreachable: the entry was just created *)
  end.

(** [removeEventListener] (lines 289-294). *)
Definition removeEventListener (ty : string) (l : Listener)
    (reg : gmap string (list Listener)) : gmap string (list Listener) :=
  match reg !! ty with
  | Some ls => <[ty := setDelete l ls]> reg
  | None => reg
  end.

(** The calls made by [emitEvent] (lines 299-304), in order. *)
Definition deliveries (reg : gmap string (list Listener)) (ev : SessionEvent)
    : list (Listener * SessionEvent) :=
  match reg !! eventType ev with
  | Some ls => map (fun l => (l, ev)) ls
  | None => []
  end.

(** The listeners called for the events of type [ty]. *)
Definition listeners (ty : string) (reg : gmap string (list Listener))
    : list Listener :=
  default [] (reg !! ty).

(** The registry operations of a client. *)
Inductive RegistryOp :=
| Add (ty : string) (l : Listener)
| Remove (ty : string) (l : Listener).

Definition applyOp (reg : gmap string (list Listener)) (op : RegistryOp)
    : gmap string (list Listener) :=
  match op with
  | Add ty l => addEventListener ty l reg
  | Remove ty l => removeEventListener ty l reg
  end.

(** * Properties *)

(** ** What subclass cleanup leaves alone *)

Ltac cases := repeat case_match; simpl in *; simplify_eq; try congruence.

Lemma cleanup_sessionState s :
  sessionState (performSessionCleanup s) = sessionState s.
Proof. unfold performSessionCleanup, closeSession. cases; reflexivity. Qed.

Lemma cleanup_cls s : cls (performSessionCleanup s) = cls s.
Proof. unfold performSessionCleanup, closeSession. cases; reflexivity. Qed.

Lemma cleanup_store s :
  resumptionTokenStore (performSessionCleanup s) = resumptionTokenStore s.
Proof. unfold performSessionCleanup, closeSession. cases; reflexivity. Qed.

Lemma cleanup_clock s : clock (performSessionCleanup s) = clock s.
Proof. unfold performSessionCleanup, closeSession. cases; reflexivity. Qed.

Lemma cleanup_timers s :
  timers (performSessionCleanup s) = timers s
  /\ nextTimerId (performSessionCleanup s) = nextTimerId s
  /\ reconnectTimer (performSessionCleanup s) = reconnectTimer s.
Proof. unfold performSessionCleanup, closeSession. cases; auto. Qed.

Lemma cleanup_session s : session (performSessionCleanup s) = None.
Proof. unfold performSessionCleanup, closeSession. cases; reflexivity. Qed.

Lemma cleanup_history s : historyEmpty (performSessionCleanup s).
Proof.
  unfold historyEmpty, performSessionCleanup, closeSession.
  cases; reflexivity.
Qed.

Lemma cleanup_trace s :
  trace (performSessionCleanup s) = trace s ++ closeEffects s.
Proof.
  unfold performSessionCleanup, closeSession, closeEffects.
  cases; rewrite ?app_nil_r; try reflexivity.
Qed.


Lemma endSession_live s st :
  sessionState s = Some st ->
  endSession s =
    emitEvent (session_ended (sessionId st))
      (keepToken (resumptionToken st)
         (set_sessionState None
            (performSessionCleanup
               (cancelReconnect
                  (log info "Ending session" (DSessionId (sessionId st)) s))))).
Proof.
  intros Hst. unfold endSession. rewrite Hst.
  fold (cancelReconnect (log info "Ending session" (DSessionId (sessionId st)) s)).
  rewrite cleanup_sessionState.
  assert (sessionState (cancelReconnect (log info "Ending session"
            (DSessionId (sessionId st)) s)) = Some st) as ->.
  { unfold cancelReconnect. simpl. destruct (reconnectTimer s); simpl; done. }
  unfold keepToken. reflexivity.
Qed.

Lemma endSession_idle s :
  sessionState s = None ->
  endSession s = log warn "No active session to end" DNone s.
Proof. intros H. unfold endSession. by rewrite H. Qed.

Lemma endSession_sessionState s : sessionState (endSession s) = None.
Proof.
  destruct (sessionState s) as [st|] eqn:Hst.
  - rewrite (endSession_live _ _ Hst). unfold keepToken.
    cases; reflexivity.
  - rewrite (endSession_idle _ Hst). simpl. done.
Qed.
(** ** Session start and resumption *)

(** C7.  [startSession] looks up the token stored for this adapter.  If
    one is stored, is not older than two hours and is truthy, and the
    config requests resumption, [resumeSession] is called with that token;
    otherwise [createNewSession] is called; a token older than two hours
    is deleted from the store and treated as absent. *)
Theorem startSession_resumption (config : SessionConfig) (caller : Caller)
    (s : Sys) :
  let k := KStartSession caller in
  let s0 := log info "Starting session" (DConfig config) s in
  match resumptionTokenStore s !! componentName s with
  | Some (token, stamp) =>
      if decide (clock s - stamp <= RESUMPTION_TOKEN_EXPIRY_MS) then
        if truthy token && truthy_flag (enableResumption config) then
          startSession config caller s =
            resumeSession config token k
              (log info "Attempting to resume session" (DToken token) s0)
        else startSession config caller s = createNewSession config k s0
      else
        startSession config caller s =
          createNewSession config k
            (set_resumptionTokenStore
               (delete (componentName s) (resumptionTokenStore s))
               (log debug "Resumption token expired" DNone s0))
        /\ resumptionTokenStore (startSession config caller s)
             !! componentName s = None
  | None => startSession config caller s = createNewSession config k s0
  end.
Proof.
  cbv zeta. unfold startSession, getValidResumptionToken, componentName. simpl.
  destruct (resumptionTokenStore s !! _) as [[token stamp]|] eqn:Hst;
    [|reflexivity].
  destruct (decide _) as [Hle|Hgt].
  - assert ((RESUMPTION_TOKEN_EXPIRY_MS <? clock s - stamp) = false) as ->
      by (apply Z.ltb_ge; lia).
    destruct (truthy token && truthy_flag (enableResumption config)); reflexivity.
  - assert ((RESUMPTION_TOKEN_EXPIRY_MS <? clock s - stamp) = true) as ->
      by (apply Z.ltb_lt; lia).
    split; [reflexivity|].
    unfold createNewSession. cases; simpl; apply lookup_delete_eq.
Qed.

(** ** Reconnection discards the mode-local history *)

Lemma createNewSession_history config k s :
  messages (createNewSession config k s) = messages s
  /\ callTranscript (createNewSession config k s) = callTranscript s
  /\ cls (createNewSession config k s) = cls s
  /\ sessionState (createNewSession config k s) = sessionState s.
Proof. unfold createNewSession. cases; by repeat split. Qed.

Lemma historyEmpty_eq s s' :
  cls s' = cls s -> messages s' = messages s ->
  callTranscript s' = callTranscript s -> historyEmpty s -> historyEmpty s'.
Proof.
  unfold historyEmpty, getMessages, getCallTranscript.
  intros -> -> ->. done.
Qed.

Lemma reconnectSession_history s : historyEmpty (reconnectSession s).1.
Proof.
  unfold reconnectSession.
  set (s1 := performSessionCleanup _).
  assert (H1 : historyEmpty s1) by apply cleanup_history.
  destruct (sessionState s1); cbn [fst]; [|done].
  destruct (createNewSession_history
              (mkSessionConfig (currentModel s0) None None None) KReconnect s1)
    as (? & ? & ? & ?).
  by eapply historyEmpty_eq.
Qed.

Lemma reconnectSession_sessionState s :
  sessionState (reconnectSession s).1 = sessionState s.
Proof.
  unfold reconnectSession.
  set (s1 := performSessionCleanup _).
  assert (H1 : sessionState s1 = sessionState s).
  { unfold s1. rewrite cleanup_sessionState. by destruct (cls s). }
  destruct (sessionState s1) eqn:E; cbn [fst]; [|congruence].
  destruct (createNewSession_history
              (mkSessionConfig (currentModel s0) None None None) KReconnect s1)
    as (? & ? & ? & ?).
  congruence.
Qed.

Lemma endSession_history s : historyEmpty s -> historyEmpty (endSession s).
Proof.
  intros H. destruct (sessionState s) as [st|] eqn:Hst.
  - rewrite (endSession_live _ _ Hst).
    set (s1 := performSessionCleanup _).
    pose proof (cleanup_history s1).
    eapply (historyEmpty_eq s1); try apply cleanup_history;
      unfold keepToken, storeResumptionToken; cases; reflexivity.
  - rewrite (endSession_idle _ Hst). exact H.
Qed.

Lemma attemptReconnection_history s :
  historyEmpty s -> historyEmpty (attemptReconnection s).
Proof.
  intros H. eapply historyEmpty_eq; [..|exact H];
    unfold attemptReconnection; cases; reflexivity.
Qed.

Lemma handleNetworkError_history e s :
  historyEmpty s -> historyEmpty (handleNetworkError e s).
Proof.
  intros H. unfold handleNetworkError.
  destruct (sessionState s) as [st|]; [|exact H].
  destruct (_ && _).
  - apply attemptReconnection_history. exact H.
  - apply endSession_history. exact H.
Qed.

Lemma attemptReconnection_resolved_history s :
  historyEmpty s -> historyEmpty (attemptReconnection_resolved s).
Proof.
  intros H. unfold attemptReconnection_resolved, attemptReconnection_rejected.
  destruct (sessionState s); [exact H|].
  apply handleNetworkError_history. exact H.
Qed.

Lemma createNewSession_resolved_history config c s :
  historyEmpty s -> historyEmpty (createNewSession_resolved config c s).
Proof.
  intros H. eapply historyEmpty_eq; [..|exact H];
    unfold createNewSession_resolved; cases; reflexivity.
Qed.

Lemma reconnect_settled_history s cid call o :
  connects s !! cid = Some call -> call_cont call = KReconnect ->
  historyEmpty s -> historyEmpty (connectSettled cid o s).
Proof.
  intros Hc Hk H. unfold connectSettled. rewrite Hc, Hk.
  set (s1 := set_connects _ _ _).
  assert (H1 : historyEmpty s1) by exact H.
  destruct o as [c|e].
  - by apply attemptReconnection_resolved_history,
      createNewSession_resolved_history.
  - unfold attemptReconnection_rejected.
    by apply handleNetworkError_history.
Qed.

(** The two routes into the delayed reconnection. *)
Lemma attemptReconnection_delay s st :
  sessionState s = Some st -> truthy_opt (resumptionToken st) = true ->
  timers (attemptReconnection s) !! nextTimerId s
  = Some (mkTimer ReconnectDelay RECONNECT_DELAY_MS
            (clock s + RECONNECT_DELAY_MS)).
Proof.
  intros Hst Htok. unfold attemptReconnection. rewrite Hst, Htok. simpl.
  by rewrite lookup_insert_eq.
Qed.

Lemma scheduled_timer_reconnects s id t :
  timers s !! id = Some t -> action t = ScheduledReconnect ->
  timerFired id s
  = attemptReconnection (set_clock (Z.max (clock s) (due t)) (clearTimeout id s)).
Proof. intros Ht Ha. unfold timerFired. by rewrite Ht, Ha. Qed.

(** C9.  Every automatic reconnection empties the mode-local history:
    [reconnectSession] leaves the text adapter's message list, respectively
    the audio adapter's call transcript, empty while the session state is
    kept; so it is when the delay timer of [attemptReconnection] fires
    (the route of both the network-error retry and the GoAway timer), and
    so it stays when the awaited connect settles, either way. *)
Theorem reconnect_clears_history (s : Sys) :
  historyEmpty (reconnectSession s).1
  /\ sessionState (reconnectSession s).1 = sessionState s
  /\ (forall id t, timers s !! id = Some t -> action t = ReconnectDelay ->
        historyEmpty (timerFired id s))
  /\ (forall cid call o, connects s !! cid = Some call ->
        call_cont call = KReconnect -> historyEmpty s ->
        historyEmpty (connectSettled cid o s)).
Proof.
  split; [apply reconnectSession_history|].
  split; [apply reconnectSession_sessionState|].
  split; [|intros; by eapply reconnect_settled_history].
  intros id t Ht Ha. unfold timerFired. rewrite Ht, Ha.
  unfold attemptReconnection_afterDelay.
  set (s1 := set_clock _ _).
  pose proof (reconnectSession_history s1) as H.
  destruct (reconnectSession s1) as [s2 []]; simpl in H; [exact H|].
  by apply attemptReconnection_resolved_history.
Qed.

(** The witness of C9: a text session with one user turn whose retry delay
    fires. *)
Lemma reconnect_clears_history_witness :
  getMessages textRetrying <> [] /\ historyEmpty (timerFired 1 textRetrying).
Proof.
  split; [by vm_compute|].
  apply (proj1 (proj2 (proj2 (reconnect_clears_history textRetrying)))
           1%positive (mkTimer ReconnectDelay 2000 3000)); reflexivity.
Defined.

(** ** The orchestrator's summary of a call *)

Lemma toMessages_nil now : toMessages now [] = [].
Proof. reflexivity. Qed.

Lemma endSession_cls s : cls (endSession s) = cls s.
Proof.
  destruct (sessionState s) as [st|] eqn:Hst.
  - rewrite (endSession_live _ _ Hst).
    unfold keepToken, storeResumptionToken. cases; rewrite cleanup_cls;
      unfold cancelReconnect; cases; reflexivity.
  - by rewrite (endSession_idle _ Hst).
Qed.

Lemma endSession_live_history s st :
  sessionState s = Some st -> historyEmpty (endSession s).
Proof.
  intros Hst. rewrite (endSession_live _ _ Hst).
  set (s1 := performSessionCleanup _).
  eapply (historyEmpty_eq s1); try apply cleanup_history;
    unfold keepToken, storeResumptionToken; cases; reflexivity.
Qed.

(** C2.  [endSessionAndSummarize] always resolves to the empty string and
    never invokes [SummarizationService.summarize]: [endCallSession] runs
    first and drops the reference to the audio manager (whose cleanup has
    emptied the transcript if it had a session), so that the transcript
    read through [getCallTranscript] is empty. *)
Theorem endSessionAndSummarize_empty (gen : GenOutcome) (a : App) :
  cls (callObject a) = CallSessionManager ->
  let r := endSessionAndSummarize gen a in
  r.2 = Resolved ""
  /\ summarizeCalls r.1 = summarizeCalls a
  /\ generateCalls r.1 = generateCalls a
  /\ dispatched r.1 = dispatched a
  /\ callSessionManager r.1 = false
  /\ im_getCallTranscript r.1 = []
  /\ getCallTranscript (callObject r.1)
     = if callSessionManager a
          && bool_decide (is_Some (sessionState (callObject a)))
       then [] else getCallTranscript (callObject a).
Proof.
  intros Hcls. cbv zeta.
  unfold endSessionAndSummarize, endCallSession, im_getCallTranscript.
  simpl. destruct (callSessionManager a) eqn:Href; simpl.
  - unfold summarizeTranscript. simpl. rewrite andb_false_r. simpl.
    repeat split; try done.
    destruct (sessionState (callObject a)) as [st|] eqn:Hst.
    + rewrite bool_decide_eq_true_2 by eauto.
      pose proof (endSession_live_history _ _ Hst) as Hh.
      unfold historyEmpty in Hh. by rewrite endSession_cls, Hcls in Hh.
    + rewrite bool_decide_eq_false_2 by (intros [? ?]; done).
      by rewrite (endSession_idle _ Hst).
  - rewrite Href. unfold summarizeTranscript. simpl. rewrite andb_false_r.
    simpl. rewrite Href. by repeat split.
Qed.

(** The witness of C2: an orchestrator whose audio session holds a
    two-turn transcript. *)
Lemma endSessionAndSummarize_empty_witness :
  length (getCallTranscript callWithTranscript) = 2%nat
  /\ (endSessionAndSummarize (GenOk "a summary") sampleApp).2 = Resolved "".
Proof.
  split; [reflexivity|].
  exact (proj1 (endSessionAndSummarize_empty (GenOk "a summary") sampleApp
                  eq_refl)).
Defined.

(** C3 as stated fails: with a one-turn transcript and a failing
    text-generation call, the orchestrator's summarization step resolves
    to the placeholder instead of rejecting with the error. *)
Lemma summarization_failure_counterexample :
  let transcript := [mkMessage "turn-0" "user" "hello" 1000] in
  let e := mkError "503 Service Unavailable" in
  ~ (summarizeTranscript transcript (GenFail e) sampleApp).2 = Rejected e.
Proof. vm_compute. discriminate. Qed.

(** C3, amended.  When summarization is invoked on a non-empty transcript
    and the text-generation call fails, [summarize] logs the error to the
    console and resolves to the placeholder ["Summary unavailable"], which
    the orchestrator dispatches and returns as the summary; the
    orchestrator's own [catch] rethrows, but no rejection reaches it. *)
Theorem summarization_failure_placeholder (transcript : list Message)
    (e : Error) (a : App) :
  transcript <> [] -> summarizationService a = true ->
  let r := summarizeTranscript transcript (GenFail e) a in
  r.2 = Resolved "Summary unavailable"
  /\ summarizeCalls r.1 = summarizeCalls a ++ [transcript]
  /\ generateCalls r.1
     = generateCalls a ++ [(MODEL_NAME, createPrompt transcript)]
  /\ console r.1
     = console a ++ [mkLog error "Error summarizing transcript:" (DError e)]
  /\ dispatched r.1
     = dispatched a ++ [call_summary "Summary unavailable" transcript].
Proof.
  intros Hne Hsvc. cbv zeta. unfold summarizeTranscript. rewrite Hsvc.
  destruct transcript as [|m rest]; [done|]. simpl. by repeat split.
Qed.

Lemma summarization_failure_placeholder_witness :
  (summarizeTranscript [mkMessage "turn-0" "user" "hello" 1000]
     (GenFail (mkError "503 Service Unavailable")) sampleApp).2
  = Resolved "Summary unavailable".
Proof.
  refine (proj1 (summarization_failure_placeholder
                   [mkMessage "turn-0" "user" "hello" 1000]
                   (mkError "503 Service Unavailable") sampleApp _ eq_refl)).
  discriminate.
Defined.

(** ** The model of a new call *)

(** A lazily started audio session never resumes: whatever the token
    store holds, [sendAudio] goes through [createNewSession], and the
    conduit is opened with the model of the current audio level. *)
Lemma sendAudio_opens_current_level (chunk : list Byte.byte) (s : Sys)
    (m : string) :
  cls s = CallSessionManager -> session s = None ->
  getCurrentModel (energy s) sts = Some m -> truthy m = true ->
  let config := mkSessionConfig m None (Some false) None in
  let p := nextPromise s in
  let s0 := (getValidResumptionToken
               (log info "Starting session" (DConfig config)
                  (newPromise s).2)).2 in
  sendAudio chunk s
  = createNewSession config (KStartSession (FromSendAudio chunk p)) s0
  /\ trace (sendAudio chunk s)
     = trace s ++ [ConnectCalled (nextConnectId s) m (getConfig s)].
Proof.
  intros Hcls Hses Hm Ht. cbv zeta.
  unfold sendAudio, newPromise, getModel. simpl.
  rewrite Hses, Hcls. simpl. rewrite Hm, Ht.
  unfold startSession.
  destruct (getValidResumptionToken _) as [r s1] eqn:Hg. simpl.
  assert (Hs1 : trace s1 = trace s /\ nextConnectId s1 = nextConnectId s
                /\ getConfig s1 = getConfig s /\ cls s1 = cls s).
  { revert Hg. unfold getValidResumptionToken. simpl.
    destruct (resumptionTokenStore s !! _) as [[tok stamp]|];
      [destruct (_ <? _)|]; intros [= <- <-]; by repeat split. }
  destruct Hs1 as (Htr & Hn & Hc & Hcl).
  assert (Hcreate :
    trace (createNewSession
             (mkSessionConfig m None (Some false) None)
             (KStartSession (FromSendAudio chunk (nextPromise s))) s1)
    = trace s ++ [ConnectCalled (nextConnectId s) m (getConfig s)]).
  { unfold createNewSession. rewrite <- Hc, <- Htr, <- Hn.
    unfold getConfig. cases; reflexivity. }
  destruct r as [tok|]; [rewrite andb_false_r|]; by split.
Qed.


(** ** Scheduled reconnections *)

Lemma sameTimers_refl s : sameTimers s s.
Proof. by split. Qed.

Lemma sameTimers_trans s1 s2 s3 :
  sameTimers s1 s2 -> sameTimers s2 s3 -> sameTimers s1 s3.
Proof. intros [? ?] [? ?]. split; congruence. Qed.

Lemma oneScheduled_same s s' :
  sameTimers s s' -> oneScheduled s -> oneScheduled s'.
Proof. intros [Ht Hr] H id t. rewrite Ht, Hr. apply H. Qed.

Ltac same := unfold sameTimers; cases; by repeat split.

Lemma cleanup_sameTimers s : sameTimers s (performSessionCleanup s).
Proof. unfold performSessionCleanup, closeSession. same. Qed.

Lemma createNewSession_sameTimers config k s :
  sameTimers s (createNewSession config k s).
Proof. unfold createNewSession. same. Qed.

Lemma startSession_sameTimers config caller s :
  sameTimers s (startSession config caller s).
Proof.
  unfold startSession, getValidResumptionToken, resumeSession.
  cases; (eapply sameTimers_trans; [|apply createNewSession_sameTimers]);
    same.
Qed.

Lemma resumeCaller_sameTimers caller s : sameTimers s (resumeCaller caller s).
Proof. unfold resumeCaller, sendMessage_send, sendAudio_send. same. Qed.

Lemma startSession_rejected_sameTimers caller e s :
  sameTimers s (startSession_rejected caller e s).
Proof. unfold startSession_rejected, rejectCaller. same. Qed.

Lemma startSession_resolved_sameTimers caller s :
  sameTimers s (startSession_resolved caller s).
Proof.
  unfold startSession_resolved. destruct (sessionState s).
  - eapply sameTimers_trans; [|apply resumeCaller_sameTimers]. same.
  - apply startSession_rejected_sameTimers.
Qed.

Lemma setResumptionToken_sameTimers token s :
  sameTimers s (setResumptionToken token s).
Proof. unfold setResumptionToken, storeResumptionToken. same. Qed.

Lemma reconnectSession_sameTimers s : sameTimers s (reconnectSession s).1.
Proof.
  unfold reconnectSession.
  set (s1 := performSessionCleanup _).
  assert (H1 : sameTimers s s1).
  { eapply sameTimers_trans; [|apply cleanup_sameTimers]. same. }
  destruct (sessionState s1); cbn [fst]; [|done].
  eapply sameTimers_trans; [exact H1|apply createNewSession_sameTimers].
Qed.

(** The invariant through the methods that touch timers. *)
Lemma endSession_oneScheduled s : oneScheduled s -> oneScheduled (endSession s).
Proof.
  intros H. destruct (sessionState s) as [st|] eqn:Hst.
  - rewrite (endSession_live _ _ Hst).
    set (s1 := cancelReconnect _).
    assert (H1 : oneScheduled s1).
    { unfold s1, cancelReconnect. simpl.
      destruct (reconnectTimer s) as [id|] eqn:Hr; [|exact H].
      intros id' t. simpl. intros Hl Ha.
      apply lookup_delete_Some in Hl as [Hne Hl].
      specialize (H _ _ Hl Ha). congruence. }
    eapply oneScheduled_same; [|exact H1].
    eapply sameTimers_trans; [apply cleanup_sameTimers|].
    unfold keepToken, storeResumptionToken. same.
  - rewrite (endSession_idle _ Hst). exact H.
Qed.

Lemma attemptReconnection_oneScheduled s :
  oneScheduled s -> oneScheduled (attemptReconnection s).
Proof.
  intros H. unfold attemptReconnection.
  destruct (sessionState s) as [st|]; [|exact H].
  destruct (truthy_opt _); [|exact H].
  intros id t. simpl. intros Hl Ha.
  apply lookup_insert_Some in Hl as [[_ <-]|[_ Hl]]; [done|by eapply H].
Qed.

Lemma scheduleReconnection_oneScheduled timeLeft s :
  oneScheduled s -> oneScheduled (scheduleReconnection timeLeft s).
Proof.
  intros H. unfold scheduleReconnection. intros id t.
  destruct (reconnectTimer s) as [old|] eqn:Hr; simpl; rewrite ?Hr; simpl;
    intros Hl Ha.
  - apply lookup_insert_Some in Hl as [[<- _]|[_ Hl]]; [done|].
    apply lookup_delete_Some in Hl as [Hne Hl].
    specialize (H _ _ Hl Ha). congruence.
  - apply lookup_insert_Some in Hl as [[<- _]|[_ Hl]]; [done|].
    specialize (H _ _ Hl Ha). congruence.
Qed.

Lemma handleGoAwayMessage_oneScheduled timeLeft s :
  oneScheduled s -> oneScheduled (handleGoAwayMessage timeLeft s).
Proof.
  intros H. unfold handleGoAwayMessage. simpl.
  destruct (sessionState s) as [st|]; [|exact H].
  destruct (truthy_opt _); [|exact H].
  by apply scheduleReconnection_oneScheduled.
Qed.

Lemma handleNetworkError_oneScheduled e s :
  oneScheduled s -> oneScheduled (handleNetworkError e s).
Proof.
  intros H. unfold handleNetworkError.
  destruct (sessionState s) as [st|]; [|exact H].
  destruct (_ && _).
  - by apply attemptReconnection_oneScheduled.
  - by apply endSession_oneScheduled.
Qed.

Lemma attemptReconnection_resolved_oneScheduled s :
  oneScheduled s -> oneScheduled (attemptReconnection_resolved s).
Proof.
  intros H. unfold attemptReconnection_resolved, attemptReconnection_rejected.
  destruct (sessionState s); [exact H|].
  by apply handleNetworkError_oneScheduled.
Qed.

Lemma timerFired_oneScheduled id s :
  oneScheduled s -> oneScheduled (timerFired id s).
Proof.
  intros H. unfold timerFired.
  destruct (timers s !! id) as [t|] eqn:Ht; [|exact H].
  set (s1 := set_clock _ _).
  assert (H1 : oneScheduled s1).
  { intros id' t'. simpl. intros Hl Ha.
    apply lookup_delete_Some in Hl as [_ Hl]. by eapply H. }
  destruct (action t).
  - unfold attemptReconnection_afterDelay.
    pose proof (reconnectSession_sameTimers s1) as Hs.
    destruct (reconnectSession s1) as [s2 []]; cbn [fst] in Hs.
    + by eapply oneScheduled_same.
    + apply attemptReconnection_resolved_oneScheduled.
      by eapply oneScheduled_same.
  - by apply attemptReconnection_oneScheduled.
Qed.

Lemma connectSettled_oneScheduled id o s :
  oneScheduled s -> oneScheduled (connectSettled id o s).
Proof.
  intros H. unfold connectSettled.
  destruct (connects s !! id) as [call|]; [|exact H].
  set (s1 := set_connects _ _ _).
  assert (H1 : oneScheduled s1) by exact H.
  destruct o as [c|e], (call_cont call) as [caller|].
  - eapply oneScheduled_same; [|exact H1].
    eapply sameTimers_trans; [|apply startSession_resolved_sameTimers].
    unfold createNewSession_resolved. same.
  - apply attemptReconnection_resolved_oneScheduled.
    eapply oneScheduled_same; [|exact H1].
    unfold createNewSession_resolved. same.
  - eapply oneScheduled_same; [|exact H1].
    apply startSession_rejected_sameTimers.
  - unfold attemptReconnection_rejected.
    by apply handleNetworkError_oneScheduled.
Qed.

Lemma onmessage_common_oneScheduled m s :
  oneScheduled s -> oneScheduled (onmessage_common m s).
Proof.
  intros H. unfold onmessage_common.
  set (s1 := match orElse _ _ with Some _ => _ | None => s end).
  assert (H1 : oneScheduled s1).
  { unfold s1. cases; try exact H.
    eapply oneScheduled_same; [apply setResumptionToken_sameTimers|exact H]. }
  set (s2 := match _ ≫= ga_timeLeft with Some _ => _ | None => s1 end).
  assert (H2 : oneScheduled s2).
  { unfold s2. cases; try exact H1. by apply handleGoAwayMessage_oneScheduled. }
  cases; exact H2.
Qed.

Lemma onmessage_oneScheduled m s :
  oneScheduled s -> oneScheduled (onmessage m s).
Proof.
  intros H. pose proof (onmessage_common_oneScheduled m s H) as H1.
  unfold onmessage, text_onmessage, call_onmessage.
  destruct (cls s); (eapply oneScheduled_same; [|exact H1]); same.
Qed.

Lemma step_oneScheduled a s : oneScheduled s -> oneScheduled (step a s).
Proof.
  intros H. destruct a; simpl.
  - destruct (cls s); [|exact H]. unfold sendMessage, newPromise.
    eapply oneScheduled_same; [|exact H]. simpl.
    destruct (session s); [|destruct (getModel _)].
    + eapply sameTimers_trans;
        [|apply (resumeCaller_sameTimers (FromSendMessage text _))].
      same.
    + eapply sameTimers_trans; [|apply startSession_sameTimers]. same.
    + same.
  - destruct (cls s); [exact H|]. unfold sendAudio, newPromise.
    eapply oneScheduled_same; [|exact H]. simpl.
    destruct (session s); [|destruct (getModel _)].
    + eapply sameTimers_trans;
        [|apply (resumeCaller_sameTimers (FromSendAudio chunk _))].
      same.
    + eapply sameTimers_trans; [|apply startSession_sameTimers]. same.
    + same.
  - eapply oneScheduled_same; [|exact H].
    eapply sameTimers_trans; [|apply startSession_sameTimers]. same.
  - by apply endSession_oneScheduled.
  - eapply oneScheduled_same; [apply setResumptionToken_sameTimers|exact H].
  - eapply oneScheduled_same; [|exact H]. same.
  - by apply onmessage_oneScheduled.
  - unfold onerror.
    pose proof (handleNetworkError_oneScheduled e s H) as H1.
    eapply oneScheduled_same; [|exact H1]. same.
  - eapply oneScheduled_same; [|exact H]. unfold onclose, setActive. same.
  - eapply oneScheduled_same; [|exact H]. unfold onopen, setActive. same.
  - by apply timerFired_oneScheduled.
  - by apply connectSettled_oneScheduled.
  - exact H.
Qed.

Lemma run_oneScheduled acts s : oneScheduled s -> oneScheduled (run acts s).
Proof.
  revert s. induction acts as [|a acts IH]; intros s H; [exact H|].
  simpl. apply IH. by apply step_oneScheduled.
Qed.

Lemma scheduled_lookup s id t :
  scheduledReconnections s !! id = Some t
  <-> timers s !! id = Some t /\ action t = ScheduledReconnect.
Proof. unfold scheduledReconnections. by rewrite map_lookup_filter_Some. Qed.

Lemma oneScheduled_size s :
  oneScheduled s -> (size (scheduledReconnections s) <= 1)%nat.
Proof.
  intros H.
  destruct (map_choose_or_empty (scheduledReconnections s))
    as [(id & t & Hl)|Hempty].
  - assert (scheduledReconnections s = {[id := t]}) as ->.
    { apply map_eq. intros k.
      destruct (decide (k = id)) as [->|Hne].
      - by rewrite lookup_singleton_eq.
      - rewrite lookup_singleton_ne by done.
        destruct (scheduledReconnections s !! k) as [t'|] eqn:Hk; [|done].
        apply scheduled_lookup in Hl as [Hl Ha].
        apply scheduled_lookup in Hk as [Hk Hka].
        pose proof (H _ _ Hl Ha). pose proof (H _ _ Hk Hka). congruence. }
    by rewrite map_size_singleton.
  - rewrite Hempty, map_size_empty. lia.
Qed.

Lemma Zmax_0_idem z : Z.max 0 (Z.max 0 z) = Z.max 0 z.
Proof. lia. Qed.

(** C5.  A GoAway carrying [timeLeft] emits [go-away]; if the session
    holds a resumption token it leaves exactly one scheduled reconnection
    pending, set to fire after [max(0, timeLeft - 500)] milliseconds and
    kept in [reconnectTimer], the previously pending one being cancelled;
    without a token it schedules nothing.  From then on at most one
    scheduled reconnection is pending, whatever happens. *)
Theorem goAway_schedules_one_reconnection (timeLeft : Z) (s : Sys) :
  oneScheduled s ->
  let s' := handleGoAwayMessage timeLeft s in
  let reconnectIn := Z.max 0 (timeLeft - 500) in
  trace s' = trace s ++ [Emitted (go_away timeLeft)]
  /\ (if holdsToken s then
        scheduledReconnections s'
        = {[nextTimerId s :=
              mkTimer ScheduledReconnect reconnectIn (clock s + reconnectIn)]}
        /\ reconnectTimer s' = Some (nextTimerId s)
        /\ (forall old, reconnectTimer s = Some old ->
              old <> nextTimerId s -> timers s' !! old = None)
      else timers s' = timers s /\ reconnectTimer s' = reconnectTimer s)
  /\ forall acts, (size (scheduledReconnections (run acts s')) <= 1)%nat.
Proof.
  intros H. cbv zeta. split; [|split].
  - unfold handleGoAwayMessage, scheduleReconnection, setTimeout. simpl.
    cases; reflexivity.
  - unfold holdsToken, handleGoAwayMessage. simpl.
    destruct (sessionState s) as [st|]; [|by split].
    destruct (truthy_opt _); [|by split].
    unfold scheduleReconnection.
    set (s1 := match reconnectTimer _ with Some _ => _ | None => _ end).
    assert (Hs1 : nextTimerId s1 = nextTimerId s /\ clock s1 = clock s
                  /\ timers s1 = match reconnectTimer s with
                                 | Some old => delete old (timers s)
                                 | None => timers s
                                 end).
    { unfold s1. simpl. destruct (reconnectTimer s); by repeat split. }
    destruct Hs1 as (Hn & Hc & Ht).
    simpl. rewrite Hn, Hc, Ht, Zmax_0_idem.
    split; [|split; [done|]].
    + apply map_eq. intros k. unfold scheduledReconnections. simpl.
      destruct (decide (k = nextTimerId s)) as [->|Hne].
      * rewrite lookup_singleton_eq.
        apply map_lookup_filter_Some. split; [|done].
        by rewrite lookup_insert_eq.
      * rewrite lookup_singleton_ne by done.
        apply map_lookup_filter_None. right. intros t Hl Ha. simpl in Ha.
        rewrite lookup_insert_ne in Hl by done.
        destruct (reconnectTimer s) as [old|] eqn:Hr.
        -- apply lookup_delete_Some in Hl as [Hne' Hl].
           pose proof (H _ _ Hl Ha). congruence.
        -- pose proof (H _ _ Hl Ha). congruence.
    + intros old Hr Hne. rewrite Hr.
      rewrite lookup_insert_ne by done. apply lookup_delete_eq.
  - intros acts. apply oneScheduled_size, run_oneScheduled.
    by apply handleGoAwayMessage_oneScheduled.
Qed.

(** The witness of C5: a second GoAway replaces the reconnection
    scheduled by a first one. *)
Lemma goAway_schedules_one_reconnection_witness :
  let s1 := handleGoAwayMessage 1000 textWithToken in
  let s2 := handleGoAwayMessage 3000 s1 in
  scheduledReconnections s1
  = {[1%positive := mkTimer ScheduledReconnect 500 1500]}
  /\ scheduledReconnections s2
     = {[2%positive := mkTimer ScheduledReconnect 2500 3500]}.
Proof.
  assert (H0 : oneScheduled textWithToken).
  { intros id t Hl. vm_compute in Hl. discriminate. }
  pose proof (handleGoAwayMessage_oneScheduled 1000 _ H0) as H1.
  split.
  - exact (proj1 (proj1 (proj2
             (goAway_schedules_one_reconnection 1000 textWithToken H0)))).
  - exact (proj1 (proj1 (proj2
             (goAway_schedules_one_reconnection 3000 _ H1)))).
Defined.

(** ** Ending a session *)

(** C6.  Without session state [endSession] only logs a warning: no
    event is emitted.  With session state it cancels the pending scheduled
    reconnection, runs the subclass cleanup (conduit closed, history
    emptied), copies the resumption token, if present (truthy), into the
    process-wide store, clears the session state and emits
    [session-ended].  A second call in a row therefore changes nothing: it
    only logs the warning. *)
Theorem endSession_spec (s : Sys) :
  match sessionState s with
  | None =>
      endSession s = log warn "No active session to end" DNone s
      /\ trace (endSession s) = trace s
  | Some st =>
      let s' := endSession s in
      sessionState s' = None
      /\ reconnectTimer s' = None
      /\ timers s' = match reconnectTimer s with
                     | Some id => delete id (timers s)
                     | None => timers s
                     end
      /\ (oneScheduled s -> scheduledReconnections s' = ∅)
      /\ session s' = None
      /\ historyEmpty s'
      /\ resumptionTokenStore s' =
           match resumptionToken st with
           | Some t =>
               if truthy t
               then <[componentName s := (t, clock s)]> (resumptionTokenStore s)
               else resumptionTokenStore s
           | None => resumptionTokenStore s
           end
      /\ trace s' =
           trace s ++ closeEffects s ++ [Emitted (session_ended (sessionId st))]
  end
  /\ endSession (endSession s)
     = log warn "No active session to end" DNone (endSession s).
Proof.
  split.
  - destruct (sessionState s) as [st|] eqn:Hst.
    + rewrite (endSession_live _ _ Hst).
      set (s1 := cancelReconnect _).
      assert (Hs1 : session s1 = session s /\ closeThrows s1 = closeThrows s
                    /\ trace s1 = trace s /\ cls s1 = cls s
                    /\ resumptionTokenStore s1 = resumptionTokenStore s
                    /\ clock s1 = clock s).
      { unfold s1, cancelReconnect. simpl.
        destruct (reconnectTimer s); by repeat split. }
      destruct Hs1 as (Hses & Hcl & Htr & Hcls & Hsto & Hclk).
      assert (Hsched : oneScheduled s -> forall id t,
                timers s1 !! id = Some t -> action t <> ScheduledReconnect).
      { intros H id t. unfold s1, cancelReconnect. simpl.
        destruct (reconnectTimer s) as [old|] eqn:Hr; simpl; intros Hl Ha.
        - apply lookup_delete_Some in Hl as [Hne Hl].
          specialize (H _ _ Hl Ha). congruence.
        - specialize (H _ _ Hl Ha). congruence. }
      pose proof (cleanup_timers s1) as (Ht1 & _ & Ht3).
      pose proof (cleanup_session s1) as Hc1.
      pose proof (cleanup_history s1) as Hh.
      pose proof (cleanup_trace s1) as Hct.
      pose proof (cleanup_store s1) as Hcs.
      pose proof (cleanup_clock s1) as Hck.
      pose proof (cleanup_cls s1) as Hcc.
      assert (Hce : closeEffects s1 = closeEffects s).
      { unfold closeEffects. by rewrite Hses, Hcl. }
      cbv zeta.
      split; [|split; [|split; [|split]]].
      * unfold keepToken, storeResumptionToken. cases; reflexivity.
      * unfold keepToken, storeResumptionToken. cases; rewrite Ht3;
          unfold s1, cancelReconnect; cases; reflexivity.
      * unfold keepToken, storeResumptionToken. cases; rewrite Ht1;
          unfold s1, cancelReconnect; cases; reflexivity.
      * intros H. apply map_eq. intros id. rewrite lookup_empty.
        apply map_lookup_filter_None. right. intros t Hl Ha.
        assert (Hl' : timers s1 !! id = Some t).
        { rewrite <- Ht1. revert Hl. unfold keepToken, storeResumptionToken.
          cases; done. }
        by eapply Hsched.
      * unfold keepToken, storeResumptionToken, componentName, emitEvent,
          effect, historyEmpty in *.
        repeat split; cases.
        all: rewrite ?Ht1, ?Ht3, ?Hc1, ?Hct, ?Hcs, ?Hck, ?Hce, ?Htr, ?Hsto,
               ?Hclk, <- ?app_assoc; try done.
        all: try congruence.
    + split; [by apply endSession_idle|]. by rewrite (endSession_idle _ Hst).
  - apply endSession_idle, endSession_sessionState.
Qed.

(** The witness of C6, for its clause on scheduled reconnections: a
    session with a pending GoAway reconnection is ended, twice. *)
Lemma endSession_spec_witness :
  let s := handleGoAwayMessage 1000 textWithToken in
  size (scheduledReconnections s) = 1%nat
  /\ scheduledReconnections (endSession s) = ∅
  /\ endSession (endSession s)
     = log warn "No active session to end" DNone (endSession s).
Proof.
  cbv zeta. split; [by vm_compute|].
  assert (H0 : oneScheduled (handleGoAwayMessage 1000 textWithToken)).
  { apply handleGoAwayMessage_oneScheduled.
    intros id t Hl. vm_compute in Hl. discriminate. }
  assert (Hst : sessionState (handleGoAwayMessage 1000 textWithToken)
                = Some (mkSessionState "text-session-1000" (Some "handle-1")
                          "text-tier-2" true 0)) by (by vm_compute).
  revert H0 Hst. generalize (handleGoAwayMessage 1000 textWithToken).
  intros s H0 Hst.
  pose proof (endSession_spec s) as [H1 H2].
  rewrite Hst in H1. cbv zeta in H1.
  destruct H1 as (_ & _ & _ & H & _).
  split; [exact (H H0)|exact H2].
Defined.

(** ** Network errors and bounded retries *)

Lemma willRetryFlags_app l1 l2 :
  willRetryFlags (l1 ++ l2) = willRetryFlags l1 ++ willRetryFlags l2.
Proof. apply omap_app. Qed.

Lemma connectCalls_app l1 l2 :
  connectCalls (l1 ++ l2) = connectCalls l1 ++ connectCalls l2.
Proof. apply omap_app. Qed.

Lemma closeEffects_flags s :
  willRetryFlags (closeEffects s) = [] /\ connectCalls (closeEffects s) = [].
Proof. unfold closeEffects. cases; by split. Qed.

(** [endSession] on a live session: no network-error event, no connect. *)
Lemma endSession_view s st :
  sessionState s = Some st ->
  willRetryFlags (trace (endSession s)) = willRetryFlags (trace s)
  /\ connectCalls (trace (endSession s)) = connectCalls (trace s)
  /\ last (trace (endSession s)) = Some (Emitted (session_ended (sessionId st))).
Proof.
  intros Hst. rewrite (endSession_live _ _ Hst).
  set (s1 := cancelReconnect _).
  assert (H1 : trace s1 = trace s).
  { unfold s1, cancelReconnect. simpl. by destruct (reconnectTimer s). }
  assert (H2 : trace (emitEvent (session_ended (sessionId st))
                 (keepToken (resumptionToken st)
                    (set_sessionState None (performSessionCleanup s1))))
               = trace s ++ closeEffects s1
                   ++ [Emitted (session_ended (sessionId st))]).
  { unfold keepToken, storeResumptionToken.
    cases; rewrite cleanup_trace, H1, <- app_assoc; reflexivity. }
  rewrite H2. destruct (closeEffects_flags s1) as [Hf Hc].
  rewrite !willRetryFlags_app, !connectCalls_app, Hf, Hc. simpl.
  rewrite !app_nil_r. repeat split.
  by rewrite app_assoc, last_snoc.
Qed.

Lemma cleanup_logs s :
  exists more, logs (performSessionCleanup s) = logs s ++ more.
Proof.
  unfold performSessionCleanup, closeSession.
  cases; eexists; rewrite <- ?app_assoc; reflexivity.
Qed.

Lemma endSession_logs s : exists more, logs (endSession s) = logs s ++ more.
Proof.
  destruct (sessionState s) as [st|] eqn:Hst.
  - rewrite (endSession_live _ _ Hst).
    set (s1 := cancelReconnect _).
    assert (H1 : logs s1 = logs s ++ [mkLog info "Ending session"
                                        (DSessionId (sessionId st))]).
    { unfold s1, cancelReconnect. simpl. by destruct (reconnectTimer s). }
    destruct (cleanup_logs s1) as [more Hm].
    exists ([mkLog info "Ending session" (DSessionId (sessionId st))] ++ more).
    unfold keepToken, storeResumptionToken.
    cases; rewrite Hm, H1, <- app_assoc; reflexivity.
  - rewrite (endSession_idle _ Hst). by eexists.
Qed.

(** One network error on a live session: the attempt counter is
    incremented (and logged), [willRetry] is computed from it and from the
    token, and either the retry delay starts or the session ends. *)
Lemma handleNetworkError_view e s st :
  sessionState s = Some st ->
  let a := S (connectionAttempts st) in
  let w := (a <? MAX_RECONNECT_ATTEMPTS)%nat
           && truthy_opt (resumptionToken st) in
  let s' := handleNetworkError e s in
  willRetryFlags (trace s') = willRetryFlags (trace s) ++ [w]
  /\ connectCalls (trace s') = connectCalls (trace s)
  /\ logs s' !! length (logs s)
     = Some (mkLog error "Network error occurred" (DNetwork (message e) a w))
  /\ if w then
       sessionState s' = Some (withAttempts a st)
       /\ timers s' !! nextTimerId s
          = Some (mkTimer ReconnectDelay RECONNECT_DELAY_MS
                    (clock s + RECONNECT_DELAY_MS))
       /\ nextTimerId s' = Pos.succ (nextTimerId s)
       /\ nextConnectId s' = nextConnectId s
       /\ cls s' = cls s
     else
       sessionState s' = None
       /\ last (trace s') = Some (Emitted (session_ended (sessionId st))).
Proof.
  intros Hst. cbv zeta. unfold handleNetworkError. rewrite Hst.
  fold (withAttempts (S (connectionAttempts st)) st).
  set (a := S (connectionAttempts st)).
  destruct ((a <? MAX_RECONNECT_ATTEMPTS)%nat
            && truthy_opt (resumptionToken st)) eqn:Hw.
  - apply andb_true_iff in Hw as [_ Htok].
    unfold attemptReconnection. simpl. rewrite Htok. simpl.
    rewrite !willRetryFlags_app, !connectCalls_app. simpl.
    rewrite !app_nil_r, lookup_insert_eq.
    repeat split; try done.
    by rewrite lookup_app_r, Nat.sub_diag by done.
  - set (s1 := emitEvent _ _).
    assert (Hs1 : sessionState s1 = Some (withAttempts a st)) by done.
    destruct (endSession_view s1 _ Hs1) as (Hf & Hc & Hl).
    destruct (endSession_logs s1) as [more Hm].
    rewrite Hf, Hc, Hl, Hm, endSession_sessionState. unfold s1. simpl.
    rewrite !willRetryFlags_app, !connectCalls_app. simpl.
    rewrite !app_nil_r, <- app_assoc.
    repeat split; try done.
    by rewrite lookup_app_r, Nat.sub_diag by done.
Qed.

Lemma reconnectSession_live s st :
  sessionState s = Some st ->
  exists s1,
    reconnectSession s
    = (createNewSession (mkSessionConfig (currentModel st) None None None)
         KReconnect s1, true)
    /\ sessionState s1 = Some st
    /\ trace s1 = trace s ++ closeEffects s
    /\ nextConnectId s1 = nextConnectId s
    /\ nextTimerId s1 = nextTimerId s
    /\ cls s1 = cls s.
Proof.
  intros Hst. unfold reconnectSession.
  set (s0 := match cls s with
             | TextSessionManager => _
             | CallSessionManager => _
             end).
  assert (H0 : sessionState s0 = Some st /\ trace s0 = trace s
               /\ closeEffects s0 = closeEffects s
               /\ nextConnectId s0 = nextConnectId s
               /\ nextTimerId s0 = nextTimerId s /\ cls s0 = cls s).
  { unfold s0. destruct (cls s) eqn:Hc; by repeat split. }
  destruct H0 as (H1 & H2 & H3 & H4 & H5 & H6).
  exists (performSessionCleanup s0).
  rewrite cleanup_sessionState, H1, cleanup_trace, H2, H3, cleanup_cls, H6.
  repeat split; try done.
  - unfold performSessionCleanup, closeSession. cases.
  - unfold performSessionCleanup, closeSession. cases.
Qed.

(** A retry whose connect is rejected: the error is handled like any
    other network error, one connect call later. *)
Lemma retry_fails_view tid t e s st :
  sessionState s = Some st ->
  timers s !! tid = Some t -> action t = ReconnectDelay ->
  exists s2,
    run [ATimerFired tid; AConnectSettled (nextConnectId s) (ConnFail e)] s
    = handleNetworkError e s2
    /\ sessionState s2 = Some st
    /\ willRetryFlags (trace s2) = willRetryFlags (trace s)
    /\ connectCalls (trace s2) = connectCalls (trace s) ++ [nextConnectId s]
    /\ nextTimerId s2 = nextTimerId s
    /\ nextConnectId s2 = Pos.succ (nextConnectId s)
    /\ cls s2 = cls s.
Proof.
  intros Hst Ht Ha. simpl. unfold timerFired. rewrite Ht, Ha.
  unfold attemptReconnection_afterDelay.
  set (s0 := set_clock _ _).
  assert (H0 : sessionState s0 = Some st) by done.
  destruct (reconnectSession_live s0 st H0)
    as (s1 & -> & Hs1 & Htr & Hn & Hti & Hc).
  change (nextConnectId s0) with (nextConnectId s) in Hn.
  change (nextTimerId s0) with (nextTimerId s) in Hti.
  change (cls s0) with (cls s) in Hc.
  change (trace s0) with (trace s) in Htr.
  unfold connectSettled, createNewSession.
  set (s1' := match cls s1 with
              | TextSessionManager => _
              | CallSessionManager => _
              end).
  assert (H1 : sessionState s1' = Some st /\ trace s1' = trace s1
               /\ nextConnectId s1' = nextConnectId s
               /\ nextTimerId s1' = nextTimerId s /\ cls s1' = cls s).
  { unfold s1'. destruct (cls s1) eqn:E; simpl; repeat split; try done;
      congruence. }
  destruct H1 as (H1 & H2 & H3 & H4 & H5).
  simpl. rewrite H3. simpl. rewrite lookup_insert_eq. simpl.
  unfold attemptReconnection_rejected.
  eexists. split; [reflexivity|]. simpl.
  rewrite H1, H2, Htr, !willRetryFlags_app, !connectCalls_app.
  destruct (closeEffects_flags s0) as [-> ->]. simpl.
  rewrite !app_nil_r. by repeat split.
Qed.

(** [onerror] is [handleNetworkError], then for the text adapter the
    rejection of the pending [sendMessage]. *)
Lemma onerror_view e s :
  let s1 := handleNetworkError e s in
  let s' := onerror e s in
  sessionState s' = sessionState s1
  /\ timers s' = timers s1
  /\ nextTimerId s' = nextTimerId s1
  /\ nextConnectId s' = nextConnectId s1
  /\ cls s' = cls s1
  /\ willRetryFlags (trace s') = willRetryFlags (trace s1)
  /\ connectCalls (trace s') = connectCalls (trace s1).
Proof.
  cbv zeta. unfold onerror.
  destruct (cls (handleNetworkError e s)) eqn:Hc; [|rewrite ?Hc; by repeat split].
  destruct (_currentRejecter _); [|rewrite ?Hc; by repeat split]. simpl.
  rewrite ?Hc.
  rewrite !willRetryFlags_app, !connectCalls_app. simpl.
  rewrite !app_nil_r. by repeat split.
Qed.

Lemma retriesFail_ended errs tid s :
  sessionState s = None -> retriesFail errs tid s = s.
Proof. intros H. destruct errs; simpl; [done|by rewrite H]. Qed.

Lemma retriesFail_bound errs : forall tid t s st,
  sessionState s = Some st ->
  timers s !! tid = Some t -> action t = ReconnectDelay ->
  let sN := retriesFail errs tid s in
  let budget := Nat.max 1 (MAX_RECONNECT_ATTEMPTS - connectionAttempts st) in
  (length (willRetryFlags (trace sN))
   <= length (willRetryFlags (trace s)) + budget)%nat
  /\ (length (connectCalls (trace sN))
      <= length (connectCalls (trace s)) + budget)%nat.
Proof.
  induction errs as [|e rest IH]; intros tid t s st Hst Ht Ha; cbv zeta.
  { simpl. lia. }
  cbn [retriesFail]. rewrite Hst.
  destruct (retry_fails_view tid t e s st Hst Ht Ha)
    as (s2 & -> & Hs2 & Hf & Hc & Hn & _ & _).
  pose proof (handleNetworkError_view e s2 st Hs2) as Hv. cbv zeta in Hv.
  destruct Hv as (Hf' & Hc' & _ & Hw).
  set (a := connectionAttempts st) in *.
  destruct ((S a <? MAX_RECONNECT_ATTEMPTS)%nat
            && truthy_opt (resumptionToken st)) eqn:Ew.
  - destruct Hw as (Hs' & Ht' & _).
    apply andb_true_iff in Ew as [Ea _]. apply Nat.ltb_lt in Ea.
    rewrite Hn in Ht'.
    specialize (IH (nextTimerId s) _ _ _ Hs' Ht' eq_refl).
    cbv zeta in IH. destruct IH as [IH1 IH2].
    rewrite Hf', Hf, length_app in IH1. rewrite Hc', Hc, length_app in IH2.
    simpl in IH1, IH2. unfold MAX_RECONNECT_ATTEMPTS in *. lia.
  - destruct Hw as (Hs' & _). rewrite (retriesFail_ended _ _ _ Hs').
    rewrite Hf', Hc', Hf, Hc, !length_app. simpl. lia.
Qed.

Lemma handleNetworkError_idle e s :
  sessionState s = None ->
  handleNetworkError e s
  = log error "Network error without active session" (DError e) s.
Proof. intros H. unfold handleNetworkError. by rewrite H. Qed.

Lemma consecutiveErrors_bound e errs s st :
  sessionState s = Some st ->
  let sN := consecutiveErrors e errs s in
  (length (willRetryFlags (trace sN))
   <= length (willRetryFlags (trace s)) + 3)%nat
  /\ (length (connectCalls (trace sN))
      <= length (connectCalls (trace s)) + 2)%nat.
Proof.
  intros Hst. cbv zeta. unfold consecutiveErrors. cbn [step].
  pose proof (onerror_view e s) as Ho. cbv zeta in Ho.
  destruct Ho as (Hs & Ht & Hn & _ & _ & Hf & Hc).
  pose proof (handleNetworkError_view e s st Hst) as Hv. cbv zeta in Hv.
  destruct Hv as (Hf' & Hc' & _ & Hw).
  destruct ((S (connectionAttempts st) <? MAX_RECONNECT_ATTEMPTS)%nat
            && truthy_opt (resumptionToken st)) eqn:Ew.
  - destruct Hw as (Hs' & Ht' & _).
    rewrite <- Hs in Hs'. rewrite <- Ht in Ht'.
    pose proof (retriesFail_bound errs (nextTimerId s) _ _ _ Hs' Ht' eq_refl)
      as Hb.
    cbv zeta in Hb. destruct Hb as [Hb1 Hb2].
    rewrite Hf, Hf', length_app in Hb1. rewrite Hc, Hc' in Hb2.
    simpl in Hb1, Hb2. unfold MAX_RECONNECT_ATTEMPTS in *. lia.
  - destruct Hw as (Hs' & _). rewrite <- Hs in Hs'.
    rewrite (retriesFail_ended _ _ _ Hs'), Hf, Hc, Hf', Hc', length_app.
    simpl. lia.
Qed.

Lemma three_errors_exhaust e e2 e3 e4 s st :
  sessionState s = Some st ->
  connectionAttempts st = 0%nat -> truthy_opt (resumptionToken st) = true ->
  let s3 := consecutiveErrors e [e2; e3] s in
  let s4 := onerror e4 s3 in
  willRetryFlags (trace s3) = willRetryFlags (trace s) ++ [true; true; false]
  /\ sessionState s3 = None
  /\ last (trace s3) = Some (Emitted (session_ended (sessionId st)))
  /\ willRetryFlags (trace s4) = willRetryFlags (trace s3)
  /\ sessionState s4 = None.
Proof.
  intros Hst Ha Htok. cbv zeta. unfold consecutiveErrors. cbn [step].
  (* first error, through onerror *)
  pose proof (onerror_view e s) as Ho. cbv zeta in Ho.
  destruct Ho as (Hs & Ht & Hn & _ & _ & Hf & _).
  pose proof (handleNetworkError_view e s st Hst) as Hv. cbv zeta in Hv.
  rewrite Ha, Htok in Hv. simpl in Hv.
  destruct Hv as (Hf1 & _ & _ & Hs1 & Ht1 & Hn1 & _).
  rewrite <- Hs in Hs1. rewrite <- Ht in Ht1. rewrite <- Hn in Hn1.
  set (s1 := onerror e s) in *.
  (* second error: the first retry fails *)
  cbn [retriesFail]. rewrite Hs1.
  destruct (retry_fails_view (nextTimerId s) _ e2 s1 _ Hs1 Ht1 eq_refl)
    as (s2 & -> & Hs2 & Hf2 & _ & Hn2 & _).
  pose proof (handleNetworkError_view e2 s2 _ Hs2) as Hv. cbv zeta in Hv.
  simpl in Hv. rewrite Htok in Hv. simpl in Hv.
  destruct Hv as (Hf2' & _ & _ & Hs2' & Ht2' & _).
  rewrite Hn2 in Ht2'.
  set (s2' := handleNetworkError e2 s2) in *.
  (* third error: the second retry fails, and the session ends *)
  rewrite Hs2'.
  destruct (retry_fails_view (nextTimerId s1) _ e3 s2' _ Hs2' Ht2' eq_refl)
    as (s3 & -> & Hs3 & Hf3 & _).
  pose proof (handleNetworkError_view e3 s3 _ Hs3) as Hv. cbv zeta in Hv.
  simpl in Hv.
  destruct Hv as (Hf3' & _ & _ & Hs3' & Hl3).
  (* fourth error: nothing left to handle *)
  pose proof (onerror_view e4 (handleNetworkError e3 s3)) as Ho4.
  cbv zeta in Ho4. destruct Ho4 as (Hs4 & _ & _ & _ & _ & Hf4 & _).
  rewrite (handleNetworkError_idle e4 _ Hs3') in Hs4, Hf4.
  rewrite Hf4, Hs4, Hf3', Hf3, Hf2', Hf2, Hf, Hf1, <- !app_assoc.
  repeat split; simpl;
    rewrite ?Hf3', ?Hf3, ?Hf2', ?Hf2, ?Hf, ?Hf1, <- ?app_assoc; done.
Qed.

(** *** The budget of network errors *)

Lemma quiet_refl s : quiet s s.
Proof. by split. Qed.

Lemma quiet_trans s1 s2 s3 : quiet s1 s2 -> quiet s2 s3 -> quiet s1 s3.
Proof. intros [H1 H2] [H3 H4]. split; [congruence|lia]. Qed.

Lemma quiet_withinBudget s s' : quiet s s' -> withinBudget s s'.
Proof. intros [H1 H2]. unfold withinBudget. rewrite H1. lia. Qed.

Lemma withinBudget_refl s : withinBudget s s.
Proof. unfold withinBudget. lia. Qed.

Lemma withinBudget_trans s1 s2 s3 :
  withinBudget s1 s2 -> withinBudget s2 s3 -> withinBudget s1 s3.
Proof. unfold withinBudget. lia. Qed.

Ltac hush :=
  unfold quiet, errorBudget; cases;
  rewrite ?willRetryFlags_app; simpl; rewrite ?app_nil_r; split;
  (done || lia).

Lemma cleanup_quiet s : quiet s (performSessionCleanup s).
Proof. unfold performSessionCleanup, closeSession. hush. Qed.

Lemma createNewSession_quiet config k s :
  quiet s (createNewSession config k s).
Proof. unfold createNewSession. hush. Qed.

Lemma startSession_quiet config caller s :
  quiet s (startSession config caller s).
Proof.
  unfold startSession, getValidResumptionToken, resumeSession.
  cases; (eapply quiet_trans; [|apply createNewSession_quiet]); hush.
Qed.

Lemma resumeCaller_quiet caller s : quiet s (resumeCaller caller s).
Proof. unfold resumeCaller, sendMessage_send, sendAudio_send. hush. Qed.

Lemma startSession_rejected_quiet caller e s :
  quiet s (startSession_rejected caller e s).
Proof. unfold startSession_rejected, rejectCaller. hush. Qed.

Lemma setResumptionToken_quiet token s : quiet s (setResumptionToken token s).
Proof. unfold setResumptionToken, storeResumptionToken. hush. Qed.

Lemma attemptReconnection_quiet s : quiet s (attemptReconnection s).
Proof. unfold attemptReconnection, setTimeout. hush. Qed.

Lemma handleGoAwayMessage_quiet timeLeft s :
  quiet s (handleGoAwayMessage timeLeft s).
Proof.
  unfold handleGoAwayMessage, scheduleReconnection, setTimeout, clearTimeout.
  hush.
Qed.

Lemma handleRateLimitError_quiet e s : quiet s (handleRateLimitError e s).
Proof. unfold handleRateLimitError. hush. Qed.

Lemma endSession_quiet s : quiet s (endSession s).
Proof.
  split.
  - destruct (sessionState s) as [st|] eqn:Hst.
    + by destruct (endSession_view s st Hst) as (-> & _).
    + by rewrite (endSession_idle _ Hst).
  - unfold errorBudget at 1. rewrite endSession_sessionState. lia.
Qed.

Lemma reconnectSession_quiet s : quiet s (reconnectSession s).1.
Proof.
  unfold reconnectSession.
  set (s1 := performSessionCleanup _).
  assert (H1 : quiet s s1).
  { eapply quiet_trans; [|apply cleanup_quiet]. hush. }
  destruct (sessionState s1); cbn [fst]; [|done].
  eapply quiet_trans; [exact H1|apply createNewSession_quiet].
Qed.

(** Each network error is paid from the budget. *)
Lemma handleNetworkError_withinBudget e s :
  withinBudget s (handleNetworkError e s).
Proof.
  destruct (sessionState s) as [st|] eqn:Hst.
  - pose proof (handleNetworkError_view e s st Hst) as Hv. cbv zeta in Hv.
    destruct Hv as (Hf & _ & _ & Hw).
    unfold withinBudget, errorBudget. rewrite Hf, length_app, Hst. simpl.
    destruct ((S (connectionAttempts st) <? MAX_RECONNECT_ATTEMPTS)%nat
              && truthy_opt (resumptionToken st)) eqn:Ew.
    + destruct Hw as (-> & _). simpl.
      apply andb_true_iff in Ew as [Ea _]. apply Nat.ltb_lt in Ea.
      unfold MAX_RECONNECT_ATTEMPTS in *. lia.
    + destruct Hw as (-> & _). lia.
  - rewrite (handleNetworkError_idle _ _ Hst). apply quiet_withinBudget. hush.
Qed.

Lemma onmessage_common_quiet m s : quiet s (onmessage_common m s).
Proof.
  unfold onmessage_common.
  set (s1 := match orElse _ _ with Some _ => _ | None => s end).
  assert (H1 : quiet s s1).
  { unfold s1. cases; try apply quiet_refl. apply setResumptionToken_quiet. }
  set (s2 := match _ ≫= ga_timeLeft with Some _ => _ | None => s1 end).
  assert (H2 : quiet s s2).
  { unfold s2. cases; try exact H1.
    eapply quiet_trans; [exact H1|apply handleGoAwayMessage_quiet]. }
  cases; try exact H2.
  eapply quiet_trans; [exact H2|apply handleRateLimitError_quiet].
Qed.

Lemma onmessage_quiet m s : quiet s (onmessage m s).
Proof.
  pose proof (onmessage_common_quiet m s) as H1.
  unfold onmessage, text_onmessage, call_onmessage.
  destruct (cls s); (eapply quiet_trans; [exact H1|]); hush.
Qed.

Lemma timerFired_withinBudget id s : withinBudget s (timerFired id s).
Proof.
  unfold timerFired.
  destruct (timers s !! id) as [t|] eqn:Ht; [|apply withinBudget_refl].
  set (s1 := set_clock _ _).
  assert (H1 : quiet s s1) by (unfold s1, clearTimeout; hush).
  destruct (action t).
  - unfold attemptReconnection_afterDelay, reconnectSession.
    set (s2 := performSessionCleanup _).
    assert (H2 : quiet s s2).
    { eapply quiet_trans; [exact H1|].
      eapply quiet_trans; [|apply cleanup_quiet]. hush. }
    destruct (sessionState s2) as [st|] eqn:Hst; cbn [fst snd].
    + apply quiet_withinBudget.
      eapply quiet_trans; [exact H2|apply createNewSession_quiet].
    + unfold attemptReconnection_resolved, attemptReconnection_rejected.
      rewrite Hst.
      eapply withinBudget_trans; [|apply handleNetworkError_withinBudget].
      apply quiet_withinBudget. eapply quiet_trans; [exact H2|]. hush.
  - apply quiet_withinBudget.
    eapply quiet_trans; [exact H1|apply attemptReconnection_quiet].
Qed.

Lemma connectSettled_withinBudget id o s :
  connectSucceeds (AConnectSettled id o) = false ->
  withinBudget s (connectSettled id o s).
Proof.
  intros Ho. destruct o as [c|e]; [done|]. unfold connectSettled.
  destruct (connects s !! id) as [call|]; [|apply withinBudget_refl].
  set (s1 := set_connects _ _ _).
  assert (H1 : quiet s s1) by (unfold s1; hush).
  destruct (call_cont call) as [caller|].
  - apply quiet_withinBudget.
    eapply quiet_trans; [exact H1|apply startSession_rejected_quiet].
  - unfold attemptReconnection_rejected.
    eapply withinBudget_trans; [|apply handleNetworkError_withinBudget].
    apply quiet_withinBudget. eapply quiet_trans; [exact H1|]. hush.
Qed.

Lemma step_withinBudget a s :
  connectSucceeds a = false -> withinBudget s (step a s).
Proof.
  intros Ha. destruct a; cbn [step].
  - apply quiet_withinBudget.
    destruct (cls s); [|apply quiet_refl]. unfold sendMessage, newPromise.
    simpl. destruct (session s); [|destruct (getModel _)].
    + eapply quiet_trans;
        [|apply (resumeCaller_quiet (FromSendMessage text _))].
      hush.
    + eapply quiet_trans; [|apply startSession_quiet]. hush.
    + hush.
  - apply quiet_withinBudget.
    destruct (cls s); [apply quiet_refl|]. unfold sendAudio, newPromise.
    simpl. destruct (session s); [|destruct (getModel _)].
    + eapply quiet_trans;
        [|apply (resumeCaller_quiet (FromSendAudio chunk _))].
      hush.
    + eapply quiet_trans; [|apply startSession_quiet]. hush.
    + hush.
  - apply quiet_withinBudget. unfold newPromise.
    eapply quiet_trans; [|apply startSession_quiet]. hush.
  - apply quiet_withinBudget, endSession_quiet.
  - apply quiet_withinBudget, setResumptionToken_quiet.
  - apply quiet_withinBudget. hush.
  - apply quiet_withinBudget, onmessage_quiet.
  - unfold onerror.
    eapply withinBudget_trans; [apply (handleNetworkError_withinBudget e)|].
    apply quiet_withinBudget. hush.
  - apply quiet_withinBudget. unfold onclose, setActive. hush.
  - apply quiet_withinBudget. unfold onopen, setActive. hush.
  - apply timerFired_withinBudget.
  - by apply connectSettled_withinBudget.
  - apply quiet_withinBudget. hush.
Qed.

Lemma run_withinBudget acts : forall s,
  Forall (fun a => connectSucceeds a = false) acts ->
  withinBudget s (run acts s).
Proof.
  induction acts as [|a acts IH]; intros s H; [apply withinBudget_refl|].
  apply Forall_cons in H as [Ha H]. simpl.
  eapply withinBudget_trans; [by apply step_withinBudget|by apply IH].
Qed.

(** The failure of a reconnection that a GoAway scheduled starts the same
    chain as an error on the conduit. *)
Lemma scheduled_chain_bound errs tid t s st :
  sessionState s = Some st -> truthy_opt (resumptionToken st) = true ->
  timers s !! tid = Some t -> action t = ScheduledReconnect ->
  let sN := retriesFail errs (nextTimerId s) (step (ATimerFired tid) s) in
  (length (willRetryFlags (trace sN))
   <= length (willRetryFlags (trace s)) + 3)%nat
  /\ (length (connectCalls (trace sN))
      <= length (connectCalls (trace s)) + 3)%nat.
Proof.
  intros Hst Htok Ht Ha. cbv zeta. cbn [step].
  rewrite (scheduled_timer_reconnects s tid t Ht Ha).
  set (s0 := set_clock _ _).
  assert (H0 : sessionState s0 = Some st) by done.
  pose proof (attemptReconnection_delay s0 st H0 Htok) as Hd.
  change (nextTimerId s0) with (nextTimerId s) in Hd.
  assert (H1 : sessionState (attemptReconnection s0) = Some st
               /\ willRetryFlags (trace (attemptReconnection s0))
                  = willRetryFlags (trace s)
               /\ connectCalls (trace (attemptReconnection s0))
                  = connectCalls (trace s)).
  { unfold attemptReconnection, setTimeout. rewrite H0, Htok. simpl.
    rewrite willRetryFlags_app, connectCalls_app. simpl.
    rewrite !app_nil_r. by rewrite Hst. }
  destruct H1 as (H1 & H2 & H3).
  pose proof (retriesFail_bound errs (nextTimerId s) _ _ st H1 Hd eq_refl)
    as Hb.
  cbv zeta in Hb. rewrite H2, H3 in Hb. unfold MAX_RECONNECT_ATTEMPTS in Hb.
  lia.
Qed.

(** The ceiling is reached on the GoAway route: from a session without
    prior errors, three reconnections are attempted (connects 2, 3 and 4,
    connect 1 being the one that opened the session) and fail, with the
    flags true, true, false. *)
Lemma goAway_route_three_attempts :
  let s := handleGoAwayMessage 3000 textWithToken in
  let sN := retriesFail [mkError "e1"; mkError "e2"; mkError "e3"]
              (nextTimerId s) (step (ATimerFired 1) s) in
  connectCalls (trace sN) = [1; 2; 3; 4]%positive
  /\ willRetryFlags (trace sN) = [true; true; false]
  /\ sessionState sN = None.
Proof. vm_compute. done. Qed.

(** C1 as stated fails: starting from a session that holds a resumption
    token and has seen no error, the third consecutive network error
    already yields [willRetry = false] and ends the session; the fourth
    error finds no session state and emits no [network-error] event. *)
Lemma fourth_error_counterexample :
  let s3 := consecutiveErrors (mkError "e1") [mkError "e2"; mkError "e3"]
              textWithToken in
  let s4 := step (AOnError (mkError "e4")) s3 in
  ~ willRetryFlags (trace s4) = [true; true; true; false].
Proof. vm_compute. discriminate. Qed.

(** C1, amended.  On a live session every network error increments
    [connectionAttempts] and emits [network-error] with
    [willRetry = (connectionAttempts < 3) AND token present]; when
    [willRetry] is false the session is torn down by [endSession].  A
    rejected reconnection recurses into the same handler.  The ceiling
    bounds the attempts by three: a chain of failed reconnections that an
    error on the conduit starts emits at most three [network-error]
    events and attempts at most two reconnections; one that the failure
    of a GoAway-scheduled reconnection starts emits at most three events
    and attempts at most three reconnections; and whatever happens, as
    long as no connect succeeds, at most three [network-error] events are
    emitted.  From a session without prior errors that holds a token the
    flags are true, true, false: the third error ends the session, and a
    fourth one finds no session state and emits no [network-error]
    event. *)
Theorem network_errors_bounded (e : Error) (s : Sys) (st : SessionState) :
  sessionState s = Some st ->
  let a := S (connectionAttempts st) in
  let w := (a <? MAX_RECONNECT_ATTEMPTS)%nat
           && truthy_opt (resumptionToken st) in
  let s' := handleNetworkError e s in
  willRetryFlags (trace s') = willRetryFlags (trace s) ++ [w]
  /\ logs s' !! length (logs s)
     = Some (mkLog error "Network error occurred" (DNetwork (message e) a w))
  /\ sessionState s' = (if w then Some (withAttempts a st) else None)
  /\ (if w then True
      else last (trace s') = Some (Emitted (session_ended (sessionId st))))
  /\ (forall cid call e', connects s !! cid = Some call ->
        call_cont call = KReconnect ->
        connectSettled cid (ConnFail e') s
        = handleNetworkError e'
            (log error "Reconnection failed" (DError e')
               (set_connects (delete cid (connects s)) (nextConnectId s) s)))
  /\ (forall errs,
        let sN := consecutiveErrors e errs s in
        (length (willRetryFlags (trace sN))
         <= length (willRetryFlags (trace s)) + 3)%nat
        /\ (length (connectCalls (trace sN))
            <= length (connectCalls (trace s)) + 2)%nat)
  /\ (forall tid t errs,
        truthy_opt (resumptionToken st) = true ->
        timers s !! tid = Some t -> action t = ScheduledReconnect ->
        let sN := retriesFail errs (nextTimerId s)
                    (step (ATimerFired tid) s) in
        (length (willRetryFlags (trace sN))
         <= length (willRetryFlags (trace s)) + 3)%nat
        /\ (length (connectCalls (trace sN))
            <= length (connectCalls (trace s)) + 3)%nat)
  /\ (forall acts,
        Forall (fun a => connectSucceeds a = false) acts ->
        (length (willRetryFlags (trace (run acts s)))
         <= length (willRetryFlags (trace s)) + 3)%nat)
  /\ (connectionAttempts st = 0%nat ->
      truthy_opt (resumptionToken st) = true ->
      forall e2 e3 e4,
        let s3 := consecutiveErrors e [e2; e3] s in
        let s4 := onerror e4 s3 in
        willRetryFlags (trace s3)
        = willRetryFlags (trace s) ++ [true; true; false]
        /\ sessionState s3 = None
        /\ last (trace s3) = Some (Emitted (session_ended (sessionId st)))
        /\ willRetryFlags (trace s4) = willRetryFlags (trace s3)
        /\ sessionState s4 = None).
Proof.
  intros Hst. cbv zeta.
  pose proof (handleNetworkError_view e s st Hst) as Hv. cbv zeta in Hv.
  destruct Hv as (Hf & _ & Hl & Hw).
  split; [exact Hf|]. split; [exact Hl|].
  split; [|split; [|split; [|split; [|split; [|split]]]]].
  - destruct (_ && _); tauto.
  - destruct (_ && _); tauto.
  - intros cid call e' Hc Hk. unfold connectSettled. rewrite Hc, Hk.
    reflexivity.
  - intros errs. by apply (consecutiveErrors_bound e errs s st).
  - intros tid t errs Htok Ht Ha.
    by apply (scheduled_chain_bound errs tid t s st).
  - intros acts Hacts. pose proof (run_withinBudget acts s Hacts) as Hb.
    unfold withinBudget, errorBudget in Hb. rewrite Hst in Hb.
    unfold MAX_RECONNECT_ATTEMPTS in Hb. lia.
  - intros Ha Htok e2 e3 e4. by apply three_errors_exhaust.
Qed.

(** The witness of C1: a text session holding a token, no error so far. *)
Lemma network_errors_bounded_witness :
  let s3 := consecutiveErrors (mkError "e1") [mkError "e2"; mkError "e3"]
              textWithToken in
  willRetryFlags (trace s3)
  = willRetryFlags (trace textWithToken) ++ [true; true; false]
  /\ sessionState s3 = None.
Proof.
  pose proof (network_errors_bounded (mkError "e1") textWithToken
                (mkSessionState "text-session-1000" (Some "handle-1")
                   "text-tier-2" true 0) eq_refl)
    as (_ & _ & _ & _ & _ & _ & _ & _ & H).
  destruct (H eq_refl eq_refl (mkError "e2") (mkError "e3") (mkError "e4"))
    as (H1 & H2 & _).
  split; [exact H1|exact H2].
Defined.

(** ** The text adapter's request and reply *)

Lemma append_cons (a : ascii) (s t : string) :
  String a s +:+ t = String a (s +:+ t).
Proof. reflexivity. Qed.

Lemma append_nil_l (s : string) : "" +:+ s = s.
Proof. reflexivity. Qed.

Lemma append_nil_r (s : string) : s +:+ "" = s.
Proof. induction s as [|a s IH]; [done|]. by rewrite append_cons, IH. Qed.

Lemma append_assoc (a b c : string) : (a +:+ b) +:+ c = a +:+ (b +:+ c).
Proof.
  induction a as [|x a IH]; [done|]. by rewrite !append_cons, IH.
Qed.

Lemma settlements_app l1 l2 :
  settlements (l1 ++ l2) = settlements l1 ++ settlements l2.
Proof. apply omap_app. Qed.

Lemma sameText_refl s : sameText s s.
Proof. by repeat split. Qed.

Lemma sameText_trans s1 s2 s3 :
  sameText s1 s2 -> sameText s2 s3 -> sameText s1 s3.
Proof.
  intros (?&?&?&?&?&?&?) (?&?&?&?&?&?&?). repeat split; congruence.
Qed.

Lemma setResumptionToken_sameText token s :
  sameText s (setResumptionToken token s).
Proof.
  unfold setResumptionToken, storeResumptionToken.
  destruct (sessionState s); by repeat split.
Qed.

Lemma handleGoAwayMessage_sameText timeLeft s :
  sameText s (handleGoAwayMessage timeLeft s).
Proof.
  unfold handleGoAwayMessage, scheduleReconnection, setTimeout. simpl.
  destruct (sessionState s) as [st|];
    [destruct (truthy_opt _); [destruct (reconnectTimer s)|]|];
    unfold sameText; simpl; rewrite ?settlements_app; simpl;
    rewrite ?app_nil_r; by repeat split.
Qed.

Lemma handleRateLimitError_sameText e s :
  sameText s (handleRateLimitError e s).
Proof.
  unfold handleRateLimitError, sameText. simpl.
  rewrite settlements_app. simpl. rewrite app_nil_r. by repeat split.
Qed.

Lemma onmessage_common_sameText m s : sameText s (onmessage_common m s).
Proof.
  unfold onmessage_common.
  set (s1 := match orElse _ _ with Some _ => _ | None => s end).
  assert (H1 : sameText s s1).
  { unfold s1. cases; try apply sameText_refl.
    apply setResumptionToken_sameText. }
  set (s2 := match _ ≫= ga_timeLeft with Some _ => _ | None => s1 end).
  assert (H2 : sameText s s2).
  { unfold s2. cases; try exact H1.
    eapply sameText_trans; [exact H1|apply handleGoAwayMessage_sameText]. }
  cases; try exact H2.
  eapply sameText_trans; [exact H2|apply handleRateLimitError_sameText].
Qed.

Ltac finish :=
  repeat split; simpl; rewrite ?settlements_app; simpl;
  rewrite ?app_nil_r, ?append_nil_r, <- ?app_assoc; simpl;
  try congruence; try done.

(** A message that does not complete the generation appends its fragment
    to the stashed response text. *)
Lemma onmessage_streaming m s p acc :
  cls s = TextSessionManager ->
  _currentResolver s = Some p -> _responseText s = Some acc ->
  isComplete m = false ->
  let s' := onmessage m s in
  cls s' = TextSessionManager
  /\ messages s' = messages s
  /\ _currentResolver s' = Some p
  /\ _responseText s' = Some (acc +:+ fragment m)
  /\ settlements (trace s') = settlements (trace s).
Proof.
  intros Hc Hr Ht Hcomp. cbv zeta. unfold onmessage. rewrite Hc.
  unfold text_onmessage, fragment, isComplete in *.
  destruct (onmessage_common_sameText m s) as (H1&H2&H3&H4&H5&H6&H7).
  set (s1 := onmessage_common m s) in *.
  rewrite Hc in H1. rewrite Hr in H3. rewrite Ht in H5.
  destruct (serverContent m) as [sc|]; simpl in *.
  - rewrite Hcomp.
    destruct (modelTurn sc) as [turn|]; simpl.
    + destruct (turn ≫= last) as [[frag|]|]; simpl.
      * destruct (truthy frag); simpl; rewrite ?H5, ?H3; simpl;
          rewrite ?H3; finish.
      * rewrite H3. finish.
      * rewrite H3. finish.
    + rewrite H3. finish.
  - rewrite H3. finish.
Qed.

(** The message that completes the generation appends the model turn and
    resolves the promise with the accumulated text. *)
Lemma onmessage_complete m s p acc :
  cls s = TextSessionManager ->
  _currentResolver s = Some p -> _responseText s = Some acc ->
  isComplete m = true ->
  let s' := onmessage m s in
  let response := acc +:+ fragment m in
  messages s' = messages s ++ [mkChatTurn "model" [response]]
  /\ _currentResolver s' = None
  /\ settlements (trace s')
     = settlements (trace s) ++ [(p, Resolved response)].
Proof.
  intros Hc Hr Ht Hcomp. cbv zeta. unfold onmessage. rewrite Hc.
  unfold text_onmessage, fragment, isComplete in *.
  destruct (onmessage_common_sameText m s) as (H1&H2&H3&H4&H5&H6&H7).
  set (s1 := onmessage_common m s) in *.
  rewrite Hc in H1. rewrite Hr in H3. rewrite Ht in H5.
  destruct (serverContent m) as [sc|]; simpl in *; [|done].
  rewrite Hcomp.
  destruct (modelTurn sc) as [turn|]; simpl.
  - destruct (turn ≫= last) as [[frag|]|]; simpl.
    + destruct (truthy frag); simpl; rewrite ?H5, ?H3; simpl;
        rewrite ?H3, ?H5; finish.
    + rewrite H3, H5. finish.
    + rewrite H3, H5. finish.
  - rewrite H3, H5. finish.
Qed.

Lemma run_app acts1 acts2 s : run (acts1 ++ acts2) s = run acts2 (run acts1 s).
Proof. apply foldl_app. Qed.

Lemma onmessage_stream msgs : forall s p acc,
  cls s = TextSessionManager ->
  _currentResolver s = Some p -> _responseText s = Some acc ->
  Forall (fun m => isComplete m = false) msgs ->
  let s' := run (map AOnMessage msgs) s in
  cls s' = TextSessionManager
  /\ messages s' = messages s
  /\ _currentResolver s' = Some p
  /\ _responseText s' = Some (acc +:+ concatenation (map fragment msgs))
  /\ settlements (trace s') = settlements (trace s).
Proof.
  induction msgs as [|m msgs IH]; intros s p acc Hc Hr Ht Hall; cbv zeta.
  { simpl. rewrite append_nil_r. by repeat split. }
  inversion Hall as [|? ? Hm Hrest]; subst.
  destruct (onmessage_streaming m s p acc Hc Hr Ht Hm) as (H1&H2&H3&H4&H5).
  pose proof (IH _ p _ H1 H3 H4 Hrest) as (I1&I2&I3&I4&I5).
  change (run (map AOnMessage (m :: msgs)) s)
    with (run (map AOnMessage msgs) (onmessage m s)).
  cbv zeta in I1, I2, I3, I4, I5.
  rewrite I1, I2, I3, I4, I5, H2, H5, append_assoc. by repeat split.
Qed.

(** The lazy start of [sendMessage] on a fresh text adapter. *)
Lemma sendMessage_fresh text now store ledger prompt closeT sendT m :
  getCurrentModel ledger tts = Some m -> truthy m = true ->
  let s1 := sendMessage text
              (newManager TextSessionManager now store ledger prompt
                 closeT sendT) in
  trace s1 = [ConnectCalled 1 m (mkLiveConfig prompt false false)]
  /\ connects s1 !! 1%positive
     = Some (mkConnectCall (mkSessionConfig m None None None)
               (KStartSession (FromSendMessage text 1)))
  /\ cls s1 = TextSessionManager /\ session s1 = None /\ messages s1 = []
  /\ sendThrows s1 = sendT /\ clock s1 = now.
Proof.
  intros Hm Ht. cbv zeta.
  unfold sendMessage, newManager, newPromise, getModel. simpl.
  rewrite Hm, Ht.
  unfold startSession, getValidResumptionToken, componentName. simpl.
  destruct (store !! "TextSessionManager") as [[tok stamp]|];
    [destruct (_ <? _); [|destruct (truthy tok)]|]; simpl;
    rewrite ?lookup_insert_eq; by repeat split.
Qed.

(** The connect settles: the session opens, the user turn is appended and
    sent, and the promise waits for the reply. *)
Lemma sendMessage_connected s1 id config text p c :
  connects s1 !! id
  = Some (mkConnectCall config (KStartSession (FromSendMessage text p))) ->
  cls s1 = TextSessionManager -> sendThrows s1 c = None ->
  let s2 := connectSettled id (ConnOk c) s1 in
  let user := mkChatTurn "user" [text] in
  session s2 = Some c
  /\ isSessionActive s2 = true
  /\ messages s2 = messages s1 ++ [user]
  /\ trace s2
     = trace s1
       ++ [Emitted (session_started ("text-session-" +:+ pretty (clock s1)));
           SentClientContent c [user]]
  /\ cls s2 = TextSessionManager
  /\ _currentResolver s2 = Some p
  /\ _responseText s2 = Some "".
Proof.
  intros Hl Hc Hs. cbv zeta. unfold connectSettled. rewrite Hl. simpl.
  unfold createNewSession_resolved, startSession_resolved. simpl.
  rewrite Hc. simpl. unfold sendMessage_send. simpl. rewrite Hs. simpl.
  rewrite <- app_assoc. by repeat split.
Qed.

Lemma concatenation_snoc l x :
  concatenation (l ++ [x]) = concatenation l +:+ x.
Proof.
  induction l as [|y l IH]; simpl.
  - by rewrite append_nil_r.
  - by rewrite IH, append_assoc.
Qed.

Lemma truthy_false (t : string) : truthy t = false -> t = "".
Proof. by destruct t. Qed.

Lemma concatenation_app l1 l2 :
  concatenation (l1 ++ l2) = concatenation l1 +:+ concatenation l2.
Proof.
  induction l1 as [|x l1 IH]; simpl; [done|]. by rewrite IH, append_assoc.
Qed.

(** On a model turn of at most one part the fragment that the adapter
    accumulates is all the text of the message. *)
Lemma fragment_singlePart m :
  singlePart m -> fragment m = concatenation (spec_fragments m).
Proof.
  unfold singlePart, fragment, spec_fragments.
  destruct (serverContent m ≫= modelTurn) as [[parts|]|]; [|done..].
  destruct parts as [|[t|] [|p parts]]; simpl; intros H; try lia; try done.
  rewrite append_nil_r. destruct (truthy t) eqn:E; [done|].
  by rewrite (truthy_false _ E).
Qed.

Lemma fragments_singlePart msgs :
  Forall singlePart msgs ->
  concatenation (map fragment msgs) = spec_streamedText msgs.
Proof.
  unfold spec_streamedText.
  induction 1 as [|m msgs Hm _ IH]; [done|].
  simpl. by rewrite concatenation_app, IH, fragment_singlePart.
Qed.

(** A reply streamed in two messages of two parts each: the promise
    resolves to ["lold"], the texts of the last parts, while the streamed
    text is ["Helloworld"]. *)
Lemma multi_part_reply :
  let m1 := twoParts "Hel" "lo" false in
  let m2 := twoParts "wor" "ld" true in
  let s := run [ASendMessage "hi"; AConnectSettled 1 (ConnOk 7%positive);
                AOnMessage m1; AOnMessage m2] freshText in
  settlements (trace s) = [(1%positive, Resolved "lold")]
  /\ spec_streamedText [m1; m2] = "Helloworld".
Proof. vm_compute. done. Qed.

(** C8 as stated fails: the adapter accumulates the text of the last part
    of each model turn only, so that a reply streamed in messages of
    several parts does not resolve to the concatenation of the streamed
    fragments. *)
Lemma multi_part_counterexample :
  let m1 := twoParts "Hel" "lo" false in
  let m2 := twoParts "wor" "ld" true in
  let s := run [ASendMessage "hi"; AConnectSettled 1 (ConnOk 7%positive);
                AOnMessage m1; AOnMessage m2] freshText in
  ~ settlements (trace s)
    = [(1%positive, Resolved (spec_streamedText [m1; m2]))].
Proof. vm_compute. discriminate. Qed.

(** C8, amended.  [sendMessage] on a fresh text adapter lazily opens a
    session with the model of the current text level; when the connect
    resolves the user turn is appended to the history and sent; the
    message that signals generation-complete appends one model turn and
    resolves the promise with the concatenation, over the messages
    received since the send, of the text of the last part of each model
    turn.  This is the concatenation of all the streamed fragments when
    every model turn has at most one part. *)
Theorem sendMessage_roundtrip (text : string) (now : Z)
    (store : gmap string (string * Z)) (ledger : Ledger) (prompt : string)
    (closeT sendT : Session -> option Error) (m : string) (c : Session)
    (msgs : list LiveServerMessage) (fin : LiveServerMessage) :
  getCurrentModel ledger tts = Some m -> truthy m = true ->
  sendT c = None ->
  Forall (fun x => isComplete x = false) msgs -> isComplete fin = true ->
  let s0 := newManager TextSessionManager now store ledger prompt
              closeT sendT in
  let s1 := step (ASendMessage text) s0 in
  let s2 := step (AConnectSettled 1 (ConnOk c)) s1 in
  let s3 := run (map AOnMessage (msgs ++ [fin])) s2 in
  let user := mkChatTurn "user" [text] in
  let response := concatenation (map fragment (msgs ++ [fin])) in
  trace s1 = [ConnectCalled 1 m (mkLiveConfig prompt false false)]
  /\ session s1 = None /\ getMessages s1 = []
  /\ session s2 = Some c /\ isSessionActive s2 = true
  /\ getMessages s2 = [user]
  /\ trace s2
     = trace s1
       ++ [Emitted (session_started ("text-session-" +:+ pretty now));
           SentClientContent c [user]]
  /\ settlements (trace s2) = []
  /\ getMessages s3 = [user; mkChatTurn "model" [response]]
  /\ settlements (trace s3) = [(1%positive, Resolved response)]
  /\ (Forall singlePart (msgs ++ [fin]) ->
      response = spec_streamedText (msgs ++ [fin])).
Proof.
  intros Hm Ht Hs Hall Hfin. cbv zeta. cbn [step].
  change (cls (newManager TextSessionManager now store ledger prompt
                 closeT sendT)) with TextSessionManager. cbv iota.
  destruct (sendMessage_fresh text now store ledger prompt closeT sendT m
              Hm Ht) as (T1 & L1 & C1 & S1 & M1 & Th1 & K1).
  set (s1 := sendMessage text _) in *.
  assert (Hs1 : sendThrows s1 c = None) by (by rewrite Th1).
  destruct (sendMessage_connected s1 1 _ text 1 c L1 C1 Hs1)
    as (S2 & A2 & M2 & T2 & C2 & R2 & X2).
  set (s2 := connectSettled 1 (ConnOk c) s1) in *.
  rewrite K1 in T2. rewrite M1 in M2. simpl in M2.
  assert (Hset2 : settlements (trace s2) = []).
  { rewrite T2, T1. reflexivity. }
  rewrite !map_app, run_app.
  change (map fragment [fin]) with [fragment fin].
  destruct (onmessage_stream msgs s2 1 "" C2 R2 X2 Hall)
    as (I1 & I2 & I3 & I4 & I5).
  rewrite append_nil_l in I4.
  set (s2' := run (map AOnMessage msgs) s2) in *.
  destruct (onmessage_complete fin s2' 1 _ I1 I3 I4 Hfin) as (F1 & _ & F3).
  change (run (map AOnMessage [fin]) s2') with (onmessage fin s2').
  unfold getMessages.
  assert (Hspec : Forall singlePart (msgs ++ [fin]) ->
                  concatenation (map fragment msgs ++ [fragment fin])
                  = spec_streamedText (msgs ++ [fin])).
  { intros Hsp. rewrite <- (fragments_singlePart _ Hsp), map_app. done. }
  rewrite F1, F3, I2, I5, M2, Hset2.
  rewrite concatenation_snoc in *.
  by repeat split.
Qed.

(** The witness of C8: a reply streamed in three messages. *)
Lemma sendMessage_roundtrip_witness :
  let s := run [ASendMessage "hi"; AConnectSettled 1 (ConnOk 7%positive);
                AOnMessage (textPart "Hel" false);
                AOnMessage (textPart "lo" false);
                AOnMessage (textPart "!" true)] freshText in
  getMessages s = [mkChatTurn "user" ["hi"]; mkChatTurn "model" ["Hello!"]]
  /\ settlements (trace s) = [(1%positive, Resolved "Hello!")].
Proof.
  assert (Hall : Forall (fun x => isComplete x = false)
                   [textPart "Hel" false; textPart "lo" false]).
  { repeat constructor. }
  pose proof (sendMessage_roundtrip "hi" 1000 ∅ (sampleLedger 2 3) "persona"
                neverThrows neverThrows "text-tier-2" 7%positive
                [textPart "Hel" false; textPart "lo" false]
                (textPart "!" true) eq_refl eq_refl eq_refl Hall eq_refl)
    as (_ & _ & _ & _ & _ & _ & _ & _ & H1 & H2 & _).
  vm_compute in H1, H2. vm_compute. split; [exact H1|exact H2].
Defined.

(** ** Logs are write-only *)

Ltac split_match :=
  match goal with
  | |- context [match ?x with _ => _ end] =>
      lazymatch x with
      | context [match _ with _ => _ end] => fail
      | _ => destruct x
      end
  end.

Ltac brute := cbn; repeat (split_match; cbn); try reflexivity.

Lemma sameButLogs_refl s : sameButLogs s s.
Proof. reflexivity. Qed.

Lemma sameButLogs_trans s1 s2 s3 :
  sameButLogs s1 s2 -> sameButLogs s2 s3 -> sameButLogs s1 s3.
Proof. unfold sameButLogs. congruence. Qed.

Lemma sameButLogs_set l s : sameButLogs s (set_logs l s).
Proof. reflexivity. Qed.

Lemma sameButLogs_inv s s' : sameButLogs s s' -> s' = set_logs (logs s') s.
Proof.
  destruct s, s'. unfold sameButLogs. simpl. intros H.
  injection H as -> -> -> -> -> -> -> -> -> -> -> -> -> -> -> -> -> -> -> -> ->.
  reflexivity.
Qed.

(** A method that does not read the logs maps states that differ in their
    logs only to such states. *)
Lemma sameButLogs_step (f : Sys -> Sys) s s' :
  (forall l x, sameButLogs (f x) (f (set_logs l x))) ->
  sameButLogs s s' -> sameButLogs (f s) (f s').
Proof. intros Hf H. rewrite (sameButLogs_inv _ _ H). apply Hf. Qed.

Ltac through lem := apply sameButLogs_step; [intros; apply lem|].

Section LogsUnread.

#[local] Arguments endSession : simpl never.
#[local] Arguments setResumptionToken : simpl never.
#[local] Arguments handleGoAwayMessage : simpl never.
#[local] Arguments handleRateLimitError : simpl never.
#[local] Arguments attemptReconnection : simpl never.
#[local] Arguments handleNetworkError : simpl never.
#[local] Arguments createNewSession : simpl never.
#[local] Arguments createNewSession_resolved : simpl never.
#[local] Arguments startSession : simpl never.
#[local] Arguments resumeCaller : simpl never.
#[local] Arguments startSession_rejected : simpl never.
#[local] Arguments startSession_resolved : simpl never.
#[local] Arguments attemptReconnection_rejected : simpl never.
#[local] Arguments attemptReconnection_resolved : simpl never.
#[local] Arguments attemptReconnection_afterDelay : simpl never.
#[local] Arguments connectSettled : simpl never.
#[local] Arguments timerFired : simpl never.
#[local] Arguments onmessage_common : simpl never.
#[local] Arguments sendMessage_send : simpl never.
#[local] Arguments sendAudio_send : simpl never.

Lemma endSession_logs_unread l s :
  sameButLogs (endSession s) (endSession (set_logs l s)).
Proof.
  unfold sameButLogs, endSession, performSessionCleanup, closeSession,
    storeResumptionToken, componentName, clearTimeout, emitEvent, effect, log.
  brute.
Qed.

Lemma setResumptionToken_logs_unread token l s :
  sameButLogs (setResumptionToken token s)
              (setResumptionToken token (set_logs l s)).
Proof. unfold sameButLogs, setResumptionToken, storeResumptionToken. brute. Qed.

Lemma handleGoAwayMessage_logs_unread t l s :
  sameButLogs (handleGoAwayMessage t s) (handleGoAwayMessage t (set_logs l s)).
Proof.
  unfold sameButLogs, handleGoAwayMessage, scheduleReconnection, setTimeout.
  brute.
Qed.

Lemma attemptReconnection_logs_unread l s :
  sameButLogs (attemptReconnection s) (attemptReconnection (set_logs l s)).
Proof. unfold sameButLogs, attemptReconnection, setTimeout. brute. Qed.

Lemma handleNetworkError_logs_unread e l s :
  sameButLogs (handleNetworkError e s) (handleNetworkError e (set_logs l s)).
Proof.
  unfold handleNetworkError. cbn.
  destruct (sessionState s) as [st|]; [|reflexivity].
  destruct (_ && _).
  - through attemptReconnection_logs_unread. reflexivity.
  - through endSession_logs_unread. reflexivity.
Qed.

Lemma createNewSession_logs_unread config k l s :
  sameButLogs (createNewSession config k s)
              (createNewSession config k (set_logs l s)).
Proof. unfold sameButLogs, createNewSession, getConfig. brute. Qed.

Lemma createNewSession_resolved_logs_unread config c l s :
  sameButLogs (createNewSession_resolved config c s)
              (createNewSession_resolved config c (set_logs l s)).
Proof. unfold sameButLogs, createNewSession_resolved. brute. Qed.

Lemma startSession_logs_unread config caller l s :
  sameButLogs (startSession config caller s)
              (startSession config caller (set_logs l s)).
Proof.
  unfold sameButLogs, startSession, getValidResumptionToken, resumeSession,
    createNewSession, getConfig, componentName.
  brute.
Qed.

Lemma resumeCaller_logs_unread caller l s :
  sameButLogs (resumeCaller caller s) (resumeCaller caller (set_logs l s)).
Proof.
  unfold sameButLogs, resumeCaller, sendMessage_send, sendAudio_send. brute.
Qed.

Lemma startSession_rejected_logs_unread caller e l s :
  sameButLogs (startSession_rejected caller e s)
              (startSession_rejected caller e (set_logs l s)).
Proof. unfold sameButLogs, startSession_rejected, rejectCaller. brute. Qed.

Lemma startSession_resolved_logs_unread caller l s :
  sameButLogs (startSession_resolved caller s)
              (startSession_resolved caller (set_logs l s)).
Proof.
  unfold startSession_resolved. cbn.
  destruct (sessionState s).
  - through resumeCaller_logs_unread. reflexivity.
  - apply startSession_rejected_logs_unread.
Qed.

Lemma attemptReconnection_rejected_logs_unread e l s :
  sameButLogs (attemptReconnection_rejected e s)
              (attemptReconnection_rejected e (set_logs l s)).
Proof.
  unfold attemptReconnection_rejected.
  through handleNetworkError_logs_unread. reflexivity.
Qed.

Lemma attemptReconnection_resolved_logs_unread l s :
  sameButLogs (attemptReconnection_resolved s)
              (attemptReconnection_resolved (set_logs l s)).
Proof.
  unfold attemptReconnection_resolved. cbn.
  destruct (sessionState s); [reflexivity|].
  apply attemptReconnection_rejected_logs_unread.
Qed.

Lemma reconnectSession_logs_unread l s :
  sameButLogs (reconnectSession s).1 (reconnectSession (set_logs l s)).1
  /\ (reconnectSession s).2 = (reconnectSession (set_logs l s)).2.
Proof.
  unfold sameButLogs, reconnectSession, performSessionCleanup, closeSession,
    createNewSession, getConfig.
  brute; split; reflexivity.
Qed.

Lemma attemptReconnection_afterDelay_logs_unread l s :
  sameButLogs (attemptReconnection_afterDelay s)
              (attemptReconnection_afterDelay (set_logs l s)).
Proof.
  unfold attemptReconnection_afterDelay.
  destruct (reconnectSession_logs_unread l s) as [H1 H2].
  destruct (reconnectSession s) as [s1 b1],
           (reconnectSession (set_logs l s)) as [s2 b2].
  simpl in *. subst b2. destruct b1; [exact H1|].
  by apply sameButLogs_step;
    [intros; apply attemptReconnection_resolved_logs_unread|].
Qed.

Lemma connectSettled_logs_unread id o l s :
  sameButLogs (connectSettled id o s) (connectSettled id o (set_logs l s)).
Proof.
  unfold connectSettled. cbn.
  destruct (connects s !! id) as [call|]; [|reflexivity].
  destruct o as [c|e], (call_cont call) as [caller|].
  - through startSession_resolved_logs_unread.
    through createNewSession_resolved_logs_unread. reflexivity.
  - through attemptReconnection_resolved_logs_unread.
    through createNewSession_resolved_logs_unread. reflexivity.
  - through startSession_rejected_logs_unread. reflexivity.
  - through attemptReconnection_rejected_logs_unread. reflexivity.
Qed.

Lemma timerFired_logs_unread id l s :
  sameButLogs (timerFired id s) (timerFired id (set_logs l s)).
Proof.
  unfold timerFired. cbn.
  destruct (timers s !! id) as [t|]; [|reflexivity].
  destruct (action t).
  - through attemptReconnection_afterDelay_logs_unread. reflexivity.
  - through attemptReconnection_logs_unread. reflexivity.
Qed.

Lemma handleRateLimitError_logs_unread e l s :
  sameButLogs (handleRateLimitError e s)
              (handleRateLimitError e (set_logs l s)).
Proof. reflexivity. Qed.

Lemma onmessage_common_logs_unread m l s :
  sameButLogs (onmessage_common m s) (onmessage_common m (set_logs l s)).
Proof.
  unfold onmessage_common.
  set (s1 := match orElse _ _ with Some _ => _ | None => s end).
  set (s1' := match orElse _ _ with Some _ => _ | None => set_logs l s end).
  assert (H1 : sameButLogs s1 s1').
  { unfold s1, s1'. repeat (split_match; try reflexivity).
    apply setResumptionToken_logs_unread. }
  clearbody s1 s1'.
  set (s2 := match _ ≫= ga_timeLeft with Some _ => _ | None => s1 end).
  set (s2' := match _ ≫= ga_timeLeft with Some _ => _ | None => s1' end).
  assert (H2 : sameButLogs s2 s2').
  { unfold s2, s2'. destruct (_ ≫= ga_timeLeft); [|exact H1].
    by apply sameButLogs_step;
      [intros; apply handleGoAwayMessage_logs_unread|]. }
  clearbody s2 s2'.
  repeat (split_match; try exact H2).
  by apply sameButLogs_step;
    [intros; apply handleRateLimitError_logs_unread|].
Qed.

Lemma text_tail_logs_unread m l s :
  sameButLogs (text_onmessage m s) (text_onmessage m (set_logs l s)).
Proof.
  unfold text_onmessage.
  pose proof (onmessage_common_logs_unread m l s) as H.
  apply sameButLogs_inv in H. rewrite H.
  generalize (logs (onmessage_common m (set_logs l s))).
  generalize (onmessage_common m s). clear. intros s l.
  unfold sameButLogs. brute.
Qed.

Lemma call_tail_logs_unread m l s :
  sameButLogs (call_onmessage m s) (call_onmessage m (set_logs l s)).
Proof.
  unfold call_onmessage.
  pose proof (onmessage_common_logs_unread m l s) as H.
  apply sameButLogs_inv in H. rewrite H.
  generalize (logs (onmessage_common m (set_logs l s))).
  generalize (onmessage_common m s). clear. intros s l.
  unfold sameButLogs. brute.
Qed.

Lemma onerror_logs_unread e l s :
  sameButLogs (onerror e s) (onerror e (set_logs l s)).
Proof.
  unfold onerror.
  pose proof (handleNetworkError_logs_unread e l s) as H.
  apply sameButLogs_inv in H. rewrite H.
  generalize (logs (handleNetworkError e (set_logs l s))).
  generalize (handleNetworkError e s). clear. intros s l.
  unfold sameButLogs. brute.
Qed.

Lemma step_logs_unread a l s :
  sameButLogs (step a s) (step a (set_logs l s)).
Proof.
  destruct a; cbn [step].
  - change (cls (set_logs l s)) with (cls s).
    destruct (cls s); [|reflexivity].
    unfold sendMessage, newPromise, getModel. cbn.
    destruct (session s).
    + through (resumeCaller_logs_unread (FromSendMessage text (nextPromise s))).
      reflexivity.
    + destruct (getCurrentModel _ _) as [m|]; [destruct (truthy m)|];
        try reflexivity.
      through startSession_logs_unread. reflexivity.
  - change (cls (set_logs l s)) with (cls s).
    destruct (cls s); [reflexivity|].
    unfold sendAudio, newPromise, getModel. cbn.
    destruct (session s).
    + through (resumeCaller_logs_unread (FromSendAudio chunk (nextPromise s))).
      reflexivity.
    + destruct (getCurrentModel _ _) as [m|]; [destruct (truthy m)|];
        try reflexivity.
      through startSession_logs_unread. reflexivity.
  - unfold newPromise. cbn. through startSession_logs_unread. reflexivity.
  - apply endSession_logs_unread.
  - apply setResumptionToken_logs_unread.
  - change (cls (set_logs l s)) with (cls s). by destruct (cls s).
  - unfold onmessage. change (cls (set_logs l s)) with (cls s).
    destruct (cls s);
      [apply text_tail_logs_unread|apply call_tail_logs_unread].
  - apply onerror_logs_unread.
  - unfold onclose, setActive, sameButLogs. brute.
  - unfold onopen, setActive, sameButLogs. brute.
  - apply timerFired_logs_unread.
  - apply connectSettled_logs_unread.
  - reflexivity.
Qed.

End LogsUnread.

Lemma run_logs_unread acts : forall s s',
  sameButLogs s s' -> sameButLogs (run acts s) (run acts s').
Proof.
  induction acts as [|a acts IH]; intros s s' H; [exact H|].
  simpl. apply IH. apply sameButLogs_step; [|exact H].
  intros. apply step_logs_unread.
Qed.

(** ** Resumption is creation *)

(** C10.  For both adapters, [resumeSession(config, token)] behaves as
    [createNewSession(config)]: apart from one log line the resulting
    states are equal, the same connect call is issued, carrying the model
    and the configuration only, so that no resumption handshake takes
    place; and whatever happens next, the two runs keep differing in
    their logs only. *)
Theorem resumeSession_is_createNewSession (config : SessionConfig)
    (token : string) (k : ConnectCont) (s : Sys) :
  sameButLogs (resumeSession config token k s) (createNewSession config k s)
  /\ trace (resumeSession config token k s)
     = trace s ++ [ConnectCalled (nextConnectId s) (model config) (getConfig s)]
  /\ connects (resumeSession config token k s)
     = <[nextConnectId s := mkConnectCall config k]> (connects s)
  /\ forall acts,
       sameButLogs (run acts (resumeSession config token k s))
                   (run acts (createNewSession config k s)).
Proof.
  assert (H : sameButLogs (resumeSession config token k s)
                          (createNewSession config k s)).
  { unfold resumeSession.
    destruct (cls s); apply sameButLogs_step;
      try (intros; apply createNewSession_logs_unread); reflexivity. }
  split; [exact H|]. split; [|split].
  - unfold resumeSession, createNewSession, getConfig.
    destruct (cls s) eqn:Hc; repeat (cbn; rewrite ?Hc); reflexivity.
  - unfold resumeSession, createNewSession, getConfig.
    destruct (cls s) eqn:Hc; repeat (cbn; rewrite ?Hc); reflexivity.
  - intros acts. by apply run_logs_unread.
Qed.

(** * Further properties of the session managers *)

(** ** The resumption token store *)

(** X1.  A token set by [setResumptionToken] on a live session is stored
    with the current time: [getValidResumptionToken] returns it, leaving
    the manager unchanged, as long as at most two hours have passed (the
    test is strict: exactly two hours is still valid), and afterwards
    returns nothing and deletes the entry.  Without a session the store
    is left alone. *)
Theorem stored_token_expiry (token : string) (dt : Z) (s : Sys) :
  let s1 := step (ATick dt) (setResumptionToken token s) in
  let r := getValidResumptionToken s1 in
  match sessionState s with
  | None => resumptionTokenStore s1 = resumptionTokenStore s
  | Some _ =>
      if decide (Z.max 0 dt <= RESUMPTION_TOKEN_EXPIRY_MS)
      then r = (Some token, s1)
      else r.1 = None /\ resumptionTokenStore r.2 !! componentName s = None
  end.
Proof.
  cbv zeta. unfold setResumptionToken, storeResumptionToken.
  destruct (sessionState s) as [st|]; [|reflexivity].
  unfold getValidResumptionToken, componentName. cbn.
  rewrite lookup_insert_eq.
  replace (clock s + Z.max 0 dt - clock s) with (Z.max 0 dt) by lia.
  destruct (decide _) as [Hle|Hgt].
  - by assert ((RESUMPTION_TOKEN_EXPIRY_MS <? Z.max 0 dt) = false) as ->
      by (apply Z.ltb_ge; lia).
  - assert ((RESUMPTION_TOKEN_EXPIRY_MS <? Z.max 0 dt) = true) as ->
      by (apply Z.ltb_lt; lia).
    cbn. split; [done|]. apply lookup_delete_eq.
Qed.

Lemma endSession_store s st :
  sessionState s = Some st ->
  resumptionTokenStore (endSession s)
  = match resumptionToken st with
    | Some t =>
        if truthy t
        then <[componentName s := (t, clock s)]> (resumptionTokenStore s)
        else resumptionTokenStore s
    | None => resumptionTokenStore s
    end
  /\ clock (endSession s) = clock s.
Proof.
  intros Hst. rewrite (endSession_live _ _ Hst).
  set (s1 := cancelReconnect _).
  assert (H1 : resumptionTokenStore s1 = resumptionTokenStore s
               /\ clock s1 = clock s /\ cls s1 = cls s).
  { unfold s1, cancelReconnect. simpl. by destruct (reconnectTimer s). }
  destruct H1 as (Hs & Hc & Hk).
  pose proof (cleanup_store s1) as Hcs. pose proof (cleanup_clock s1) as Hcc.
  pose proof (cleanup_cls s1) as Hck.
  unfold keepToken, storeResumptionToken, componentName.
  destruct (resumptionToken st) as [t|]; [destruct (truthy t)|]; simpl;
    rewrite ?Hcs, ?Hcc, ?Hck, ?Hs, ?Hc, ?Hk; by split.
Qed.

(** X2.  A session that ends while holding a truthy resumption token
    stores it: a [startSession] that requests resumption within two hours
    of the end takes the resumption route, calling [resumeSession] with
    that token. *)
Theorem resumption_after_endSession (config : SessionConfig)
    (caller : Caller) (dt : Z) (s : Sys) (st : SessionState)
    (token : string) :
  sessionState s = Some st -> resumptionToken st = Some token ->
  truthy token = true -> enableResumption config = Some true ->
  Z.max 0 dt <= RESUMPTION_TOKEN_EXPIRY_MS ->
  let s1 := step (ATick dt) (endSession s) in
  startSession config caller s1
  = resumeSession config token (KStartSession caller)
      (log info "Attempting to resume session" (DToken token)
         (log info "Starting session" (DConfig config) s1)).
Proof.
  intros Hst Htok Ht Hen Hdt. cbv zeta.
  destruct (endSession_store s st Hst) as [Hstore Hclock].
  rewrite Htok, Ht in Hstore.
  unfold startSession, getValidResumptionToken, componentName. cbn.
  rewrite endSession_cls, Hstore, Hclock. unfold componentName.
  rewrite lookup_insert_eq.
  replace (clock s + Z.max 0 dt - clock s) with (Z.max 0 dt) by lia.
  assert ((RESUMPTION_TOKEN_EXPIRY_MS <? Z.max 0 dt) = false) as ->
    by (apply Z.ltb_ge; lia).
  by rewrite Ht, Hen.
Qed.

Lemma resumption_after_endSession_witness :
  let config := mkSessionConfig "text-tier-2" None (Some true) None in
  let s1 := step (ATick 60000) (endSession textWithToken) in
  map log_text (drop (length (logs s1))
                  (logs (startSession config (FromApi 9) s1)))
  = ["Starting session"; "Attempting to resume session";
     "Resuming text session"; "Creating new text session"].
Proof.
  cbv zeta.
  rewrite (resumption_after_endSession
             (mkSessionConfig "text-tier-2" None (Some true) None)
             (FromApi 9) 60000 textWithToken
             (mkSessionState "text-session-1000" (Some "handle-1")
                "text-tier-2" true 0) "handle-1").
  - by vm_compute.
  - by vm_compute.
  - reflexivity.
  - reflexivity.
  - reflexivity.
  - by vm_compute.
Defined.

(** ** Components only touch their own token *)

Lemma otherTokensKept_refl s : otherTokensKept s s.
Proof. by split. Qed.

Lemma otherTokensKept_trans s1 s2 s3 :
  otherTokensKept s1 s2 -> otherTokensKept s2 s3 -> otherTokensKept s1 s3.
Proof.
  intros [Hc1 H1] [Hc2 H2]. split; [congruence|].
  intros key Hk. rewrite H2, H1; [done..|].
  unfold componentName in *. by rewrite Hc1.
Qed.

(** A method that leaves class and store alone. *)
Lemma otherTokensKept_same s s' :
  cls s' = cls s -> resumptionTokenStore s' = resumptionTokenStore s ->
  otherTokensKept s s'.
Proof. intros Hc Hs. split; [done|]. intros. by rewrite Hs. Qed.

Ltac kept := apply otherTokensKept_same; cases; reflexivity.
Ltac after lem := eapply otherTokensKept_trans; [|apply lem].

Lemma storeResumptionToken_kept token s :
  otherTokensKept s (storeResumptionToken token s).
Proof.
  split; [done|]. intros key Hk. unfold storeResumptionToken. simpl.
  by rewrite lookup_insert_ne.
Qed.

Lemma getValidResumptionToken_kept s :
  otherTokensKept s (getValidResumptionToken s).2.
Proof.
  unfold getValidResumptionToken.
  destruct (resumptionTokenStore s !! componentName s) as [[tok stamp]|];
    [destruct (_ <? _)|]; try apply otherTokensKept_refl.
  split; [done|]. intros key Hk. simpl. by rewrite lookup_delete_ne.
Qed.

Lemma cleanup_kept s : otherTokensKept s (performSessionCleanup s).
Proof. unfold performSessionCleanup, closeSession. kept. Qed.

Lemma createNewSession_kept config k s :
  otherTokensKept s (createNewSession config k s).
Proof. unfold createNewSession. kept. Qed.

Lemma startSession_kept config caller s :
  otherTokensKept s (startSession config caller s).
Proof.
  unfold startSession.
  pose proof (getValidResumptionToken_kept
                (log info "Starting session" (DConfig config) s)) as H.
  destruct (getValidResumptionToken _) as [r s1]. simpl in H.
  assert (H1 : otherTokensKept s s1).
  { eapply otherTokensKept_trans; [|exact H]. kept. }
  destruct r as [token|]; [destruct (_ && _)|].
  - unfold resumeSession. after createNewSession_kept.
    eapply otherTokensKept_trans; [exact H1|]. kept.
  - by after createNewSession_kept.
  - by after createNewSession_kept.
Qed.

Lemma resumeCaller_kept caller s : otherTokensKept s (resumeCaller caller s).
Proof. unfold resumeCaller, sendMessage_send, sendAudio_send. kept. Qed.

Lemma startSession_rejected_kept caller e s :
  otherTokensKept s (startSession_rejected caller e s).
Proof. unfold startSession_rejected, rejectCaller. kept. Qed.

Lemma startSession_resolved_kept caller s :
  otherTokensKept s (startSession_resolved caller s).
Proof.
  unfold startSession_resolved. destruct (sessionState s).
  - after resumeCaller_kept. kept.
  - apply startSession_rejected_kept.
Qed.

Lemma setResumptionToken_kept token s :
  otherTokensKept s (setResumptionToken token s).
Proof.
  unfold setResumptionToken. destruct (sessionState s); [|kept].
  after storeResumptionToken_kept. kept.
Qed.

Lemma reconnectSession_kept s : otherTokensKept s (reconnectSession s).1.
Proof.
  unfold reconnectSession.
  set (s1 := performSessionCleanup _).
  assert (H1 : otherTokensKept s s1).
  { after cleanup_kept. kept. }
  destruct (sessionState s1); cbn [fst]; [|done].
  by after createNewSession_kept.
Qed.

Lemma endSession_kept s : otherTokensKept s (endSession s).
Proof.
  destruct (sessionState s) as [st|] eqn:Hst.
  - rewrite (endSession_live _ _ Hst).
    set (s1 := cancelReconnect _).
    assert (H1 : otherTokensKept s s1).
    { unfold s1, cancelReconnect. kept. }
    assert (H2 : otherTokensKept s
                   (set_sessionState None (performSessionCleanup s1))).
    { eapply otherTokensKept_trans; [exact H1|].
      eapply otherTokensKept_trans; [apply cleanup_kept|]. kept. }
    eapply otherTokensKept_trans; [exact H2|].
    unfold keepToken. destruct (resumptionToken st) as [t|];
      [destruct (truthy t)|]; try kept.
    eapply otherTokensKept_trans; [apply (storeResumptionToken_kept t)|].
    kept.
  - rewrite (endSession_idle _ Hst). kept.
Qed.

Lemma attemptReconnection_kept s : otherTokensKept s (attemptReconnection s).
Proof. unfold attemptReconnection, setTimeout. kept. Qed.

Lemma handleGoAwayMessage_kept timeLeft s :
  otherTokensKept s (handleGoAwayMessage timeLeft s).
Proof.
  unfold handleGoAwayMessage, scheduleReconnection, setTimeout. simpl.
  destruct (sessionState s) as [st|];
    [destruct (truthy_opt _); [destruct (reconnectTimer s)|]|];
    by apply otherTokensKept_same.
Qed.

Lemma handleNetworkError_kept e s :
  otherTokensKept s (handleNetworkError e s).
Proof.
  unfold handleNetworkError.
  destruct (sessionState s) as [st|]; [|kept].
  destruct (_ && _).
  - after attemptReconnection_kept. kept.
  - after endSession_kept. kept.
Qed.

Lemma attemptReconnection_rejected_kept e s :
  otherTokensKept s (attemptReconnection_rejected e s).
Proof.
  unfold attemptReconnection_rejected. after handleNetworkError_kept. kept.
Qed.

Lemma attemptReconnection_resolved_kept s :
  otherTokensKept s (attemptReconnection_resolved s).
Proof.
  unfold attemptReconnection_resolved.
  destruct (sessionState s); [kept|apply attemptReconnection_rejected_kept].
Qed.

Lemma timerFired_kept id s : otherTokensKept s (timerFired id s).
Proof.
  unfold timerFired.
  destruct (timers s !! id) as [t|]; [|apply otherTokensKept_refl].
  set (s1 := set_clock _ _).
  assert (H1 : otherTokensKept s s1) by (by apply otherTokensKept_same).
  destruct (action t).
  - unfold attemptReconnection_afterDelay.
    pose proof (reconnectSession_kept s1) as Hs.
    destruct (reconnectSession s1) as [s2 []]; cbn [fst] in Hs.
    + by eapply otherTokensKept_trans.
    + after attemptReconnection_resolved_kept.
      by eapply otherTokensKept_trans.
  - by after attemptReconnection_kept.
Qed.

Lemma connectSettled_kept id o s : otherTokensKept s (connectSettled id o s).
Proof.
  unfold connectSettled.
  destruct (connects s !! id) as [call|]; [|apply otherTokensKept_refl].
  set (s1 := set_connects _ _ _).
  assert (H1 : otherTokensKept s s1) by (by apply otherTokensKept_same).
  destruct o as [c|e], (call_cont call) as [caller|].
  - after startSession_resolved_kept.
    eapply otherTokensKept_trans; [exact H1|].
    unfold createNewSession_resolved. kept.
  - after attemptReconnection_resolved_kept.
    eapply otherTokensKept_trans; [exact H1|].
    unfold createNewSession_resolved. kept.
  - by after startSession_rejected_kept.
  - by after attemptReconnection_rejected_kept.
Qed.

Lemma onmessage_common_kept m s : otherTokensKept s (onmessage_common m s).
Proof.
  unfold onmessage_common.
  set (s1 := match orElse _ _ with Some _ => _ | None => s end).
  assert (H1 : otherTokensKept s s1).
  { unfold s1. cases; try apply otherTokensKept_refl.
    apply setResumptionToken_kept. }
  set (s2 := match _ ≫= ga_timeLeft with Some _ => _ | None => s1 end).
  assert (H2 : otherTokensKept s s2).
  { unfold s2. destruct (_ ≫= ga_timeLeft); [|exact H1].
    by after handleGoAwayMessage_kept. }
  destruct (_ ≫= sc_error) as [[text|]|]; try exact H2.
  destruct (includes _ _); [|exact H2].
  eapply otherTokensKept_trans; [exact H2|].
  unfold handleRateLimitError. kept.
Qed.

Lemma onmessage_kept m s : otherTokensKept s (onmessage m s).
Proof.
  pose proof (onmessage_common_kept m s) as H.
  unfold onmessage, text_onmessage, call_onmessage.
  destruct (cls s); (eapply otherTokensKept_trans; [exact H|]); kept.
Qed.

Lemma step_kept a s : otherTokensKept s (step a s).
Proof.
  destruct a; cbn [step].
  - destruct (cls s) eqn:Hc; [|apply otherTokensKept_refl].
    unfold sendMessage, newPromise. simpl.
    destruct (session s); [|destruct (getModel _)].
    + after (resumeCaller_kept (FromSendMessage text (nextPromise s))). kept.
    + after startSession_kept. kept.
    + kept.
  - destruct (cls s) eqn:Hc; [apply otherTokensKept_refl|].
    unfold sendAudio, newPromise. simpl.
    destruct (session s); [|destruct (getModel _)].
    + after (resumeCaller_kept (FromSendAudio chunk (nextPromise s))). kept.
    + after startSession_kept. kept.
    + kept.
  - unfold newPromise. simpl. after startSession_kept. kept.
  - apply endSession_kept.
  - apply setResumptionToken_kept.
  - kept.
  - apply onmessage_kept.
  - unfold onerror. pose proof (handleNetworkError_kept e s) as H.
    eapply otherTokensKept_trans; [exact H|]. kept.
  - unfold onclose, setActive. kept.
  - unfold onopen, setActive. kept.
  - apply timerFired_kept.
  - apply connectSettled_kept.
  - kept.
Qed.

(** X3.  The static token store is keyed by the component name: whatever
    a manager does, the entries of the other components are neither
    changed nor deleted. *)
Theorem store_isolation (acts : list Action) (s : Sys) (key : string) :
  key <> componentName s ->
  resumptionTokenStore (run acts s) !! key = resumptionTokenStore s !! key.
Proof.
  revert s. induction acts as [|a acts IH]; intros s Hk; [done|].
  simpl. destruct (step_kept a s) as [Hc Hs].
  rewrite IH, Hs; [done..|]. unfold componentName in *. by rewrite Hc.
Qed.

Lemma store_isolation_witness :
  let s := callAfterDowngrade in
  let acts := [ASendAudio []; AConnectSettled 1 (ConnOk 7%positive);
               ASetResumptionToken "handle-2"; AEndSession] in
  resumptionTokenStore (run acts (set_resumptionTokenStore
        (<["TextSessionManager" := ("text-handle", 5)]>
           (resumptionTokenStore s)) s)) !! "TextSessionManager"
  = Some ("text-handle", 5).
Proof.
  cbv zeta. rewrite store_isolation; [by vm_compute|by vm_compute].
Defined.

(** ** The audio adapter's transcript *)

Lemma transcriptUpdates_app l1 l2 :
  transcriptUpdates (l1 ++ l2) = transcriptUpdates l1 ++ transcriptUpdates l2.
Proof. apply omap_app. Qed.

Lemma sameCall_trans s1 s2 s3 :
  sameCall s1 s2 -> sameCall s2 s3 -> sameCall s1 s3.
Proof. intros (?&?&?) (?&?&?). repeat split; congruence. Qed.

Lemma onmessage_common_sameCall m s : sameCall s (onmessage_common m s).
Proof.
  unfold onmessage_common.
  set (s1 := match orElse _ _ with Some _ => _ | None => s end).
  assert (H1 : sameCall s s1).
  { unfold s1, setResumptionToken, storeResumptionToken.
    cases; by repeat split. }
  set (s2 := match _ ≫= ga_timeLeft with Some _ => _ | None => s1 end).
  assert (H2 : sameCall s s2).
  { unfold s2. destruct (_ ≫= ga_timeLeft); [|exact H1].
    eapply sameCall_trans; [exact H1|].
    unfold handleGoAwayMessage, scheduleReconnection, setTimeout. simpl.
    destruct (sessionState s1) as [st|];
      [destruct (truthy_opt _); [destruct (reconnectTimer s1)|]|];
      unfold sameCall; simpl; rewrite ?transcriptUpdates_app; simpl;
      rewrite ?app_nil_r; by repeat split. }
  destruct (_ ≫= sc_error) as [[text|]|]; try exact H2.
  destruct (includes _ _); [|exact H2].
  eapply sameCall_trans; [exact H2|].
  unfold handleRateLimitError, sameCall. simpl.
  rewrite transcriptUpdates_app. simpl. rewrite app_nil_r. by repeat split.
Qed.

(** One inbound message on the audio adapter. *)
Lemma call_onmessage_turns m s :
  cls s = CallSessionManager ->
  let s' := onmessage m s in
  cls s' = CallSessionManager
  /\ callTranscript s' = callTranscript s ++ turnsOf m
  /\ transcriptUpdates (trace s')
     = transcriptUpdates (trace s) ++ turnsOf m.
Proof.
  intros Hc. cbv zeta. unfold onmessage. rewrite Hc.
  unfold call_onmessage, turnsOf.
  destruct (onmessage_common_sameCall m s) as (H1 & H2 & H3).
  set (s1 := onmessage_common m s) in *. rewrite Hc in H1.
  destruct (serverContent m ≫= outputTranscription) as [out|];
    [destruct (truthy out)|];
    (destruct (serverContent m ≫= inputTranscription) as [inp|];
      [destruct (truthy inp)|]);
    simpl; rewrite ?transcriptUpdates_app; simpl;
    rewrite ?H2, ?H3, ?app_nil_r, <- ?app_assoc; by repeat split.
Qed.

(** X5.  The audio adapter appends to its call transcript, for every
    inbound message, the output transcription as a ["model"] turn and then
    the input transcription as a ["user"] turn, each when non-empty, and
    calls [updateCallTranscript] with exactly these turns in this order;
    nothing else in a message touches the transcript. *)
Theorem call_transcript_accumulates (msgs : list LiveServerMessage)
    (s : Sys) :
  cls s = CallSessionManager ->
  let s' := run (map AOnMessage msgs) s in
  getCallTranscript s' = getCallTranscript s ++ flat_map turnsOf msgs
  /\ transcriptUpdates (trace s')
     = transcriptUpdates (trace s) ++ flat_map turnsOf msgs.
Proof.
  revert s. induction msgs as [|m msgs IH]; intros s Hc; cbv zeta.
  { simpl. by rewrite !app_nil_r. }
  destruct (call_onmessage_turns m s Hc) as (H1 & H2 & H3).
  change (run (map AOnMessage (m :: msgs)) s)
    with (run (map AOnMessage msgs) (onmessage m s)).
  pose proof (IH _ H1) as [I1 I2]. cbv zeta in I1, I2.
  unfold getCallTranscript in *.
  rewrite I1, I2, H2, H3. simpl. by rewrite <- !app_assoc.
Qed.

Lemma call_transcript_accumulates_witness :
  let s := run [ASendAudio []; AConnectSettled 1 (ConnOk 7%positive)]
             (freshCall 3) in
  let msgs := [mkLiveServerMessage None None
                 (Some (mkServerContent None None None None false
                          (Some "hello there") (Some "hi")))] in
  getCallTranscript (run (map AOnMessage msgs) s)
  = getCallTranscript s ++ flat_map turnsOf msgs.
Proof.
  cbv zeta.
  exact (proj1 (call_transcript_accumulates
    [mkLiveServerMessage None None
       (Some (mkServerContent None None None None false
                (Some "hello there") (Some "hi")))]
    (run [ASendAudio []; AConnectSettled 1 (ConnOk 7%positive)] (freshCall 3))
    eq_refl)).
Defined.

(** ** Inbound messages never end a session *)

Lemma sessionEnds_app l1 l2 :
  sessionEnds (l1 ++ l2) = sessionEnds l1 ++ sessionEnds l2.
Proof. apply omap_app. Qed.

Lemma sameSessionState_refl a : sameSessionState a a.
Proof. by destruct a. Qed.

Lemma sameSessionState_trans a b c :
  sameSessionState a b -> sameSessionState b c -> sameSessionState a c.
Proof.
  destruct a, b, c; simpl; try done.
  intros (?&?&?&?) (?&?&?&?). repeat split; congruence.
Qed.

Lemma sessionKept_refl s : sessionKept s s.
Proof. repeat split. apply sameSessionState_refl. Qed.

Lemma sessionKept_trans s1 s2 s3 :
  sessionKept s1 s2 -> sessionKept s2 s3 -> sessionKept s1 s3.
Proof.
  intros (?&?&?&?) (?&?&?&?). repeat split; try congruence.
  by eapply sameSessionState_trans.
Qed.

Ltac keeps :=
  unfold sessionKept; simpl; rewrite ?sessionEnds_app; simpl;
  rewrite ?app_nil_r; repeat split; try apply sameSessionState_refl.

Lemma setResumptionToken_sessionKept token s :
  sessionKept s (setResumptionToken token s).
Proof.
  unfold setResumptionToken, storeResumptionToken.
  destruct (sessionState s) as [st|] eqn:Hst; keeps; by rewrite Hst.
Qed.

Lemma handleGoAwayMessage_sessionKept timeLeft s :
  sessionKept s (handleGoAwayMessage timeLeft s).
Proof.
  unfold handleGoAwayMessage, scheduleReconnection, setTimeout. simpl.
  destruct (sessionState s) as [st|] eqn:Hst;
    [destruct (truthy_opt _); [destruct (reconnectTimer s)|]|];
    keeps; by rewrite Hst.
Qed.

Lemma handleRateLimitError_sessionKept e s :
  sessionKept s (handleRateLimitError e s).
Proof. unfold handleRateLimitError. keeps. Qed.

Lemma onmessage_common_sessionKept m s : sessionKept s (onmessage_common m s).
Proof.
  unfold onmessage_common.
  set (s1 := match orElse _ _ with Some _ => _ | None => s end).
  assert (H1 : sessionKept s s1).
  { unfold s1. cases; try apply sessionKept_refl.
    apply setResumptionToken_sessionKept. }
  set (s2 := match _ ≫= ga_timeLeft with Some _ => _ | None => s1 end).
  assert (H2 : sessionKept s s2).
  { unfold s2. destruct (_ ≫= ga_timeLeft); [|exact H1].
    eapply sessionKept_trans; [exact H1|].
    apply handleGoAwayMessage_sessionKept. }
  destruct (_ ≫= sc_error) as [[text|]|]; try exact H2.
  destruct (includes _ _); [|exact H2].
  eapply sessionKept_trans; [exact H2|].
  apply handleRateLimitError_sessionKept.
Qed.

Lemma onmessage_sessionKept m s : sessionKept s (onmessage m s).
Proof.
  pose proof (onmessage_common_sessionKept m s) as H.
  unfold onmessage, text_onmessage, call_onmessage.
  set (s1 := onmessage_common m s) in *.
  destruct H as (H1 & H2 & H3 & H4). unfold sessionKept.
  destruct (cls s); cases; simpl; rewrite ?sessionEnds_app; simpl;
    rewrite ?sessionEnds_app; simpl; rewrite ?app_nil_r; by repeat split.
Qed.

(** X4.  Inbound messages never end or replace a session, whatever they
    carry (a resumption update, a GoAway, a rate-limit error, content):
    after any sequence of [onmessage] callbacks the conduit handle and the
    pending connects are the same, the session state is present exactly
    if it was and differs at most in its resumption token, and no
    [session-ended] event has been emitted. *)
Theorem onmessage_keeps_session (msgs : list LiveServerMessage) (s : Sys) :
  let s' := run (map AOnMessage msgs) s in
  session s' = session s
  /\ connects s' = connects s
  /\ sameSessionState (sessionState s) (sessionState s')
  /\ sessionEnds (trace s') = sessionEnds (trace s).
Proof.
  cbv zeta. change (sessionKept s (run (map AOnMessage msgs) s)).
  revert s. induction msgs as [|m msgs IH]; intros s.
  - apply sessionKept_refl.
  - change (run (map AOnMessage (m :: msgs)) s)
      with (run (map AOnMessage msgs) (onmessage m s)).
    eapply sessionKept_trans; [apply onmessage_sessionKept|apply IH].
Qed.

(** ** Failures of the lazy start and of the send *)

(** X6.  With no conduit and no model available at the current energy
    level, the first [sendMessage] / [sendAudio] rejects with the
    adapter's "Energy exhausted" error: [getModel] throws before
    [startSession] is reached, so nothing is connected, logged or added
    to the history. *)
Theorem energy_exhausted_rejects (text : string) (chunk : list Byte.byte)
    (s : Sys) :
  session s = None ->
  (forall m, getCurrentModel (energy s) (modeOf (cls s)) = Some m ->
             truthy m = false) ->
  let s' := step (firstUse (cls s) text chunk) s in
  trace s' = trace s ++ [Settled (nextPromise s) (Rejected (exhausted (cls s)))]
  /\ connects s' = connects s
  /\ session s' = None
  /\ sessionState s' = sessionState s
  /\ getMessages s' = getMessages s
  /\ logs s' = logs s.
Proof.
  intros Hs Hm. cbv zeta. unfold firstUse, exhausted.
  destruct (cls s) eqn:Hc; cbn [step]; rewrite Hc;
    unfold sendMessage, sendAudio, newPromise, getModel; simpl;
    rewrite Hs, Hc; simpl;
    (destruct (getCurrentModel _ _) as [m|] eqn:Hg;
      [rewrite (Hm m eq_refl)|]); by repeat split.
Qed.

Lemma energy_exhausted_rejects_witness :
  settlements (trace (step (ASendAudio []) (freshCall 0)))
  = [(1%positive, Rejected (exhausted CallSessionManager))].
Proof.
  pose proof (energy_exhausted_rejects "" [] (freshCall 0) eq_refl) as H.
  cbv zeta in H. destruct H as (H & _).
  - intros m Hm. vm_compute in Hm. discriminate.
  - change (firstUse (cls (freshCall 0)) "" []) with (ASendAudio []) in H.
    rewrite H. reflexivity.
Defined.

(** The state in which [startSession] leaves the manager while the connect
    is pending, whatever the token store holds. *)
Lemma startSession_pending config caller s :
  let s1 := startSession config caller s in
  connects s1 !! nextConnectId s
  = Some (mkConnectCall config (KStartSession caller))
  /\ cls s1 = cls s /\ session s1 = session s
  /\ sessionState s1 = sessionState s
  /\ messages s1 = messages s /\ callTranscript s1 = callTranscript s
  /\ sendThrows s1 = sendThrows s /\ nextPromise s1 = nextPromise s
  /\ _currentResolver s1 = _currentResolver s
  /\ trace s1 = trace s
       ++ [ConnectCalled (nextConnectId s) (model config) (getConfig s)].
Proof.
  cbv zeta. unfold startSession, getValidResumptionToken, componentName.
  simpl.
  destruct (resumptionTokenStore s !! _) as [[tok stamp]|];
    [destruct (_ <? _); [|destruct (_ && _)]|];
    unfold resumeSession, createNewSession, getConfig;
    destruct (cls s) eqn:Hc; repeat (cbn; rewrite ?Hc);
    rewrite ?lookup_insert_eq; by repeat split.
Qed.



(** ** Requests on an open text session *)

(** X8.  [sendMessage] on an open conduit makes no connect and always
    appends the user turn to the history.  If [sendClientContent]
    succeeds, the turn is sent and the resolver, the rejecter and an
    empty response text are stashed; if it throws, the promise rejects
    with the thrown error, nothing is stashed, and the user turn stays in
    the history. *)
Theorem sendMessage_on_open_session (text : string) (s : Sys) (c : Session) :
  cls s = TextSessionManager -> session s = Some c ->
  let s' := step (ASendMessage text) s in
  let p := nextPromise s in
  let user := mkChatTurn "user" [text] in
  getMessages s' = getMessages s ++ [user]
  /\ session s' = Some c /\ sessionState s' = sessionState s
  /\ connects s' = connects s
  /\ match sendThrows s c with
     | None =>
         trace s' = trace s ++ [SentClientContent c [user]]
         /\ _currentResolver s' = Some p /\ _currentRejecter s' = Some p
         /\ _responseText s' = Some ""
     | Some e =>
         trace s' = trace s ++ [Settled p (Rejected e)]
         /\ _currentResolver s' = _currentResolver s
         /\ _currentRejecter s' = _currentRejecter s
         /\ _responseText s' = _responseText s
     end.
Proof.
  intros Hc Hs. cbv zeta. cbn [step]. rewrite Hc.
  unfold sendMessage, newPromise, sendMessage_send. simpl. rewrite Hs. simpl.
  rewrite ?Hs. simpl. destruct (sendThrows s c); by repeat split.
Qed.

Lemma sendMessage_on_open_session_witness :
  let s := run [ASendMessage "hi"; AConnectSettled 1 (ConnOk 7%positive);
                AOnMessage (textPart "Hello!" true)] freshText in
  getMessages (step (ASendMessage "again") s)
  = getMessages s ++ [mkChatTurn "user" ["again"]].
Proof.
  cbv zeta.
  set (s := run _ freshText).
  assert (Hc : cls s = TextSessionManager) by reflexivity.
  assert (Hs : session s = Some 7%positive) by reflexivity.
  clearbody s.
  exact (proj1 (sendMessage_on_open_session "again" s 7%positive Hc Hs)).
Defined.

Lemma handleNetworkError_stash e s :
  let s' := handleNetworkError e s in
  cls s' = cls s
  /\ _currentResolver s' = _currentResolver s
  /\ _currentRejecter s' = _currentRejecter s
  /\ _responseText s' = _responseText s
  /\ settlements (trace s') = settlements (trace s).
Proof.
  cbv zeta. unfold handleNetworkError.
  destruct (sessionState s) as [st|]; [|by repeat split].
  destruct (_ && _).
  - unfold attemptReconnection, setTimeout. simpl.
    destruct (truthy_opt _); simpl; rewrite ?settlements_app; simpl;
      rewrite ?app_nil_r; by repeat split.
  - set (s1 := emitEvent _ _).
    assert (H1 : cls s1 = cls s /\ _currentResolver s1 = _currentResolver s
                 /\ _currentRejecter s1 = _currentRejecter s
                 /\ _responseText s1 = _responseText s
                 /\ settlements (trace s1) = settlements (trace s)).
    { unfold s1. simpl. rewrite settlements_app. simpl.
      rewrite app_nil_r. by repeat split. }
    destruct H1 as (<- & <- & <- & <- & <-).
    assert (Hst : sessionState s1
                  = Some (withAttempts (S (connectionAttempts st)) st))
      by done.
    rewrite (endSession_live _ _ Hst). clearbody s1.
    unfold keepToken, storeResumptionToken, cancelReconnect,
      performSessionCleanup, closeSession.
    cases; rewrite ?settlements_app; simpl; rewrite ?app_nil_r;
      by repeat split.
Qed.

(** An inbound message with no pending request neither settles a promise
    nor extends the message list. *)
Lemma onmessage_no_request m s :
  cls s = TextSessionManager -> _currentResolver s = None ->
  let s' := onmessage m s in
  cls s' = TextSessionManager /\ _currentResolver s' = None
  /\ messages s' = messages s
  /\ settlements (trace s') = settlements (trace s).
Proof.
  intros Hc Hr. cbv zeta. unfold onmessage. rewrite Hc.
  unfold text_onmessage.
  destruct (onmessage_common_sameText m s) as (H1&H2&H3&H4&H5&H6&H7).
  set (s1 := onmessage_common m s) in *.
  rewrite Hc in H1. rewrite Hr in H3.
  cases; rewrite ?H3 in *; simplify_eq; simpl;
    rewrite ?settlements_app; simpl; rewrite ?settlements_app; simpl;
    rewrite ?app_nil_r; repeat split; congruence.
Qed.

(** X9.  [onerror] on the text adapter rejects the pending [sendMessage]
    with the error and deletes the stash, whether or not the session
    survives the error; messages that arrive afterwards, complete or not,
    settle no promise and add nothing to the history. *)
Theorem onerror_rejects_pending_request (e : Error) (p : positive)
    (msgs : list LiveServerMessage) (s : Sys) :
  cls s = TextSessionManager -> _currentRejecter s = Some p ->
  let s1 := step (AOnError e) s in
  let s2 := run (map AOnMessage msgs) s1 in
  settlements (trace s1) = settlements (trace s) ++ [(p, Rejected e)]
  /\ _currentResolver s1 = None /\ _currentRejecter s1 = None
  /\ _responseText s1 = None
  /\ settlements (trace s2) = settlements (trace s1)
  /\ getMessages s2 = getMessages s1.
Proof.
  intros Hc Hr. cbv zeta. cbn [step]. unfold onerror.
  destruct (handleNetworkError_stash e s) as (H1 & H2 & H3 & H4 & H5).
  set (s0 := handleNetworkError e s) in *.
  rewrite H1, Hc, H3, Hr.
  set (s1 := set_stash None None None _).
  assert (Hs1 : cls s1 = TextSessionManager /\ _currentResolver s1 = None)
    by (by rewrite <- Hc, <- H1).
  split; [|split; [done|split; [done|split; [done|]]]].
  { unfold s1. simpl. by rewrite settlements_app, H5. }
  destruct Hs1 as [Hc1 Hr1]. clearbody s1. revert s1 Hc1 Hr1.
  induction msgs as [|m msgs IH]; intros s1 Hc1 Hr1; [done|].
  change (run (map AOnMessage (m :: msgs)) s1)
    with (run (map AOnMessage msgs) (onmessage m s1)).
  destruct (onmessage_no_request m s1 Hc1 Hr1) as (I1 & I2 & I3 & I4).
  destruct (IH _ I1 I2) as [J1 J2]. unfold getMessages in *.
  rewrite J1, J2, I3, I4. done.
Qed.

Lemma onerror_rejects_pending_request_witness :
  let s := run [ASendMessage "hi"; AConnectSettled 1 (ConnOk 7%positive)]
             freshText in
  let e := mkError "socket closed" in
  let s1 := step (AOnError e) s in
  _currentRejecter s = Some 1%positive
  /\ settlements (trace s1)
     = settlements (trace s) ++ [(1%positive, Rejected e)]
  /\ settlements (trace (run (map AOnMessage [textPart "late" true]) s1))
     = settlements (trace s1).
Proof.
  cbv zeta. split; [reflexivity|].
  pose proof (onerror_rejects_pending_request (mkError "socket closed") 1
                [textPart "late" true]
                (run [ASendMessage "hi"; AConnectSettled 1 (ConnOk 7%positive)]
                   freshText) eq_refl eq_refl) as (H1 & _ & _ & _ & H2 & _).
  split; [exact H1|exact H2].
Defined.

(** An inbound message leaves the conduits' behaviour and the promise
    counter alone. *)
Lemma onmessage_common_world m s :
  sendThrows (onmessage_common m s) = sendThrows s
  /\ nextPromise (onmessage_common m s) = nextPromise s.
Proof.
  unfold onmessage_common.
  set (s1 := match orElse _ _ with Some _ => _ | None => s end).
  assert (H1 : sendThrows s1 = sendThrows s
               /\ nextPromise s1 = nextPromise s).
  { unfold s1, setResumptionToken, storeResumptionToken. cases; by split. }
  clearbody s1. destruct H1 as [<- <-].
  set (s2 := match _ ≫= ga_timeLeft with Some _ => _ | None => s1 end).
  assert (H2 : sendThrows s2 = sendThrows s1
               /\ nextPromise s2 = nextPromise s1).
  { unfold s2, handleGoAwayMessage, scheduleReconnection, setTimeout,
      clearTimeout.
    cases; by split. }
  clearbody s2. destruct H2 as [<- <-].
  unfold handleRateLimitError. cases; by split.
Qed.

Lemma onmessage_world m s :
  sendThrows (onmessage m s) = sendThrows s
  /\ nextPromise (onmessage m s) = nextPromise s.
Proof.
  destruct (onmessage_common_world m s) as [H1 H2].
  unfold onmessage, text_onmessage, call_onmessage.
  set (s1 := onmessage_common m s) in *. clearbody s1.
  cases; by split.
Qed.

Lemma onmessages_world msgs : forall s,
  sendThrows (run (map AOnMessage msgs) s) = sendThrows s
  /\ nextPromise (run (map AOnMessage msgs) s) = nextPromise s
  /\ session (run (map AOnMessage msgs) s) = session s.
Proof.
  induction msgs as [|m msgs IH]; intros s; [done|].
  change (run (map AOnMessage (m :: msgs)) s)
    with (run (map AOnMessage msgs) (onmessage m s)).
  destruct (IH (onmessage m s)) as (-> & -> & ->).
  destruct (onmessage_world m s) as [-> ->].
  by destruct (onmessage_sessionKept m s) as [-> _].
Qed.

(** X10.  A second [sendMessage] issued before the first has completed
    overwrites the stash: the fragments received so far are dropped, the
    next generation-complete resolves the second promise with the
    fragments received after the second send, and the first promise is
    never settled.  The history holds both user turns and one model
    turn. *)
Theorem overlapping_sendMessage (t1 t2 : string) (c : Session)
    (early msgs : list LiveServerMessage) (fin : LiveServerMessage)
    (s : Sys) :
  cls s = TextSessionManager -> session s = Some c ->
  sendThrows s c = None ->
  Forall (fun m => isComplete m = false) early ->
  Forall (fun m => isComplete m = false) msgs ->
  isComplete fin = true ->
  let p1 := nextPromise s in
  let p2 := Pos.succ p1 in
  let s1 := run (map AOnMessage early) (step (ASendMessage t1) s) in
  let s2 := run (map AOnMessage (msgs ++ [fin])) (step (ASendMessage t2) s1) in
  let response := concatenation (map fragment (msgs ++ [fin])) in
  settlements (trace s2) = settlements (trace s) ++ [(p2, Resolved response)]
  /\ getMessages s2
     = getMessages s ++ [mkChatTurn "user" [t1]; mkChatTurn "user" [t2];
                         mkChatTurn "model" [response]]
  /\ _currentResolver s2 = None.
Proof.
  intros Hc Hs Ht Hearly Hmsgs Hfin. cbv zeta.
  (* first request *)
  set (a := step (ASendMessage t1) s).
  assert (Ha : cls a = TextSessionManager /\ session a = Some c
               /\ sendThrows a = sendThrows s
               /\ nextPromise a = Pos.succ (nextPromise s)
               /\ messages a = messages s ++ [mkChatTurn "user" [t1]]
               /\ _currentResolver a = Some (nextPromise s)
               /\ _responseText a = Some ""
               /\ settlements (trace a) = settlements (trace s)).
  { unfold a. cbn [step]. rewrite Hc.
    unfold sendMessage, newPromise, sendMessage_send. simpl. rewrite Hs.
    simpl. rewrite ?Hs. simpl. rewrite Ht. simpl.
    rewrite settlements_app. simpl. rewrite app_nil_r. by repeat split. }
  clearbody a. destruct Ha as (A1 & A2 & A3 & A4 & A5 & A6 & A7 & A8).
  (* fragments of the first response *)
  destruct (onmessage_stream early a _ _ A1 A6 A7 Hearly)
    as (B1 & B2 & B3 & B4 & B5).
  destruct (onmessages_world early a) as (B6 & B7 & B8).
  set (b := run (map AOnMessage early) a) in *. clearbody b.
  (* second request *)
  set (d := step (ASendMessage t2) b).
  assert (Hd : cls d = TextSessionManager
               /\ messages d = messages b ++ [mkChatTurn "user" [t2]]
               /\ _currentResolver d = Some (nextPromise b)
               /\ _responseText d = Some ""
               /\ settlements (trace d) = settlements (trace b)).
  { unfold d. cbn [step]. rewrite B1.
    unfold sendMessage, newPromise, sendMessage_send. simpl. rewrite B8, A2.
    simpl. rewrite ?B8, ?A2. simpl. rewrite B6, A3, Ht. simpl.
    rewrite settlements_app. simpl. rewrite app_nil_r. by repeat split. }
  clearbody d. destruct Hd as (D1 & D2 & D3 & D4 & D5).
  (* its response *)
  rewrite !map_app. cbn [map]. rewrite concatenation_snoc.
  unfold run. rewrite foldl_app. fold (run (map AOnMessage msgs) d).
  destruct (onmessage_stream msgs d _ _ D1 D3 D4 Hmsgs)
    as (E1 & E2 & E3 & E4 & E5).
  set (f := run (map AOnMessage msgs) d) in *. clearbody f.
  simpl.
  destruct (onmessage_complete fin f _ _ E1 E3 E4 Hfin) as (F1 & F2 & F3).
  unfold getMessages.
  rewrite F1, F2, F3, E2, E5, D2, D5, B2, B5, A5, A8, B7, A4.
  rewrite append_nil_l. rewrite <- !app_assoc. done.
Qed.

Lemma overlapping_sendMessage_witness :
  let s := run [ASendMessage "hi"; AConnectSettled 1 (ConnOk 7%positive);
                AOnMessage (textPart "Hello!" true)] freshText in
  let early := [textPart "par" false] in
  let late := [textPart "an" false] ++ [textPart "swer" true] in
  let s1 := run (map AOnMessage early) (step (ASendMessage "one") s) in
  let s2 := run (map AOnMessage late) (step (ASendMessage "two") s1) in
  session s = Some 7%positive
  /\ settlements (trace s2)
     = settlements (trace s)
       ++ [(Pos.succ (nextPromise s),
            Resolved (concatenation (map fragment late)))].
Proof.
  cbv zeta. split; [reflexivity|].
  exact (proj1 (overlapping_sendMessage "one" "two" 7%positive
                  [textPart "par" false] [textPart "an" false]
                  (textPart "swer" true)
                  (run [ASendMessage "hi";
                        AConnectSettled 1 (ConnOk 7%positive);
                        AOnMessage (textPart "Hello!" true)] freshText)
                  eq_refl eq_refl eq_refl
                  ltac:(repeat constructor) ltac:(repeat constructor)
                  eq_refl)).
Defined.

(** ** Audio on an open conduit *)

Lemma sendAudio_open chunk s c :
  cls s = CallSessionManager -> session s = Some c ->
  sendThrows s c = None ->
  let s' := step (ASendAudio chunk) s in
  trace s' = trace s ++ [SentRealtimeInput c chunk;
                         Settled (nextPromise s) ResolvedVoid]
  /\ set_trace [] (set_nextPromise 1 s') = set_trace [] (set_nextPromise 1 s).
Proof.
  intros Hc Hs Ht. cbv zeta. cbn [step]. rewrite Hc.
  unfold sendAudio, newPromise, sendAudio_send. simpl. rewrite Hs. simpl.
  rewrite ?Hs. simpl. rewrite Ht. simpl. by rewrite <- app_assoc.
Qed.

(** X11.  On an open conduit every [sendAudio] forwards its chunk with
    [sendRealtimeInput] and resolves: the chunks reach the conduit in the
    order of the calls, no connect is made, and session state, transcript
    and logs are untouched. *)
Theorem audio_chunks_forwarded (chunks : list (list Byte.byte))
    (c : Session) (s : Sys) :
  cls s = CallSessionManager -> session s = Some c ->
  sendThrows s c = None ->
  let s' := run (map ASendAudio chunks) s in
  chunksSent (trace s') = chunksSent (trace s) ++ map (pair c) chunks
  /\ map snd (settlements (trace s'))
     = map snd (settlements (trace s)) ++ map (fun _ => ResolvedVoid) chunks
  /\ connectCalls (trace s') = connectCalls (trace s)
  /\ session s' = Some c /\ sessionState s' = sessionState s
  /\ getCallTranscript s' = getCallTranscript s
  /\ logs s' = logs s.
Proof.
  revert s. induction chunks as [|chunk chunks IH]; intros s Hc Hs Ht.
  { cbv zeta. simpl. rewrite !app_nil_r. by repeat split. }
  cbv zeta.
  change (run (map ASendAudio (chunk :: chunks)) s)
    with (run (map ASendAudio chunks) (step (ASendAudio chunk) s)).
  destruct (sendAudio_open chunk s c Hc Hs Ht) as [H1 H2].
  set (s1 := step (ASendAudio chunk) s) in *. clearbody s1.
  assert (H : cls s1 = cls s /\ session s1 = session s
              /\ sendThrows s1 = sendThrows s
              /\ sessionState s1 = sessionState s
              /\ callTranscript s1 = callTranscript s /\ logs s1 = logs s).
  { repeat split.
    - exact (f_equal cls H2).
    - exact (f_equal session H2).
    - exact (f_equal sendThrows H2).
    - exact (f_equal sessionState H2).
    - exact (f_equal callTranscript H2).
    - exact (f_equal logs H2). }
  destruct H as (G1 & G2 & G3 & G4 & G5 & G6).
  destruct (IH s1) as (I1 & I2 & I3 & I4 & I5 & I6 & I7);
    [congruence|congruence|congruence|].
  unfold getCallTranscript in *.
  rewrite I1, I2, I3, I4, I5, I6, I7, H1, G4, G5, G6.
  unfold chunksSent, connectCalls. rewrite settlements_app, !omap_app.
  simpl. rewrite map_app, <- !app_assoc, app_nil_r. done.
Qed.

Lemma audio_chunks_forwarded_witness :
  let s := run [ASendAudio []; AConnectSettled 1 (ConnOk 7%positive)]
             (freshCall 3) in
  let a := [Byte.x01] in
  let b := [Byte.x02; Byte.x03] in
  chunksSent (trace (run [ASendAudio a; ASendAudio b] s))
  = [(7%positive, []); (7%positive, a); (7%positive, b)].
Proof.
  pose proof (audio_chunks_forwarded [[Byte.x01]; [Byte.x02; Byte.x03]]
                7%positive
                (run [ASendAudio []; AConnectSettled 1 (ConnOk 7%positive)]
                   (freshCall 3)) eq_refl eq_refl eq_refl) as [H _].
  vm_compute in H. vm_compute. exact H.
Defined.

(** ** After a reconnection *)

(** X12.  A reconnection that succeeds replaces the session state by a
    fresh one: new identifier, the model of the connect, attempt counter
    0 and no resumption token, so that [session-resumed] carries a null
    token while the store keeps the old one.  Hence the next network
    error, if no resumption update arrived in between, is not retried
    and ends the session. *)
Theorem reconnection_forgets_token (cid : positive) (call : ConnectCall)
    (c : Session) (e : Error) (s : Sys) :
  connects s !! cid = Some call -> call_cont call = KReconnect ->
  let s1 := step (AConnectSettled cid (ConnOk c)) s in
  let s2 := step (AOnError e) s1 in
  let sid := newSessionId s in
  sessionState s1
  = Some (mkSessionState sid None (model (call_config call)) true 0)
  /\ session s1 = Some c
  /\ trace s1 = trace s ++ [Emitted (session_resumed sid None)]
  /\ resumptionTokenStore s1 = resumptionTokenStore s
  /\ willRetryFlags (trace s2) = willRetryFlags (trace s) ++ [false]
  /\ connectCalls (trace s2) = connectCalls (trace s)
  /\ sessionState s2 = None.
Proof.
  intros Hcall Hk. cbv zeta. cbn [step].
  set (s1 := connectSettled cid (ConnOk c) s).
  assert (H1 : sessionState s1
               = Some (mkSessionState (newSessionId s) None
                         (model (call_config call)) true 0)
               /\ session s1 = Some c
               /\ trace s1 = trace s ++ [Emitted (session_resumed (newSessionId s) None)]
               /\ resumptionTokenStore s1 = resumptionTokenStore s).
  { unfold s1, connectSettled. rewrite Hcall, Hk.
    unfold createNewSession_resolved, attemptReconnection_resolved,
      newSessionId. simpl. by destruct (cls s). }
  clearbody s1. destruct H1 as (A1 & A2 & A3 & A4).
  repeat split; try assumption.
  all: destruct (onerror_view e s1) as (B1 & _ & _ & _ & _ & B2 & B3);
    destruct (handleNetworkError_view e s1 _ A1) as (C1 & C2 & _ & C3);
    simpl in C1, C3; rewrite ?andb_false_r in C1, C3.
  - rewrite B2, C1, A3. unfold willRetryFlags. rewrite omap_app. simpl.
    by rewrite app_nil_r.
  - rewrite B3, C2, A3. unfold connectCalls. rewrite omap_app. simpl.
    by rewrite app_nil_r.
  - rewrite B1. apply C3.
Qed.

Lemma reconnection_forgets_token_witness :
  let s := run [ATimerFired 1] textRetrying in
  let s2 := run [AConnectSettled 2 (ConnOk 8%positive);
                 AOnError (mkError "socket closed")] s in
  willRetryFlags (trace s2) = [true; false] /\ sessionState s2 = None.
Proof.
  pose proof (reconnection_forgets_token 2
                (mkConnectCall (mkSessionConfig "text-tier-2" None None None)
                   KReconnect)
                8%positive (mkError "socket closed")
                (run [ATimerFired 1] textRetrying) eq_refl eq_refl)
    as (_ & _ & _ & _ & H1 & _ & H2).
  vm_compute in H1, H2. vm_compute. split; [exact H1|exact H2].
Defined.

(** ** A retry delay that outlives its session *)

(** X13.  [endSession] cancels the scheduled GoAway reconnection only:
    the retry delay of [attemptReconnection] stays pending.  When it
    elapses after the session has ended, [reconnectSession] finds no
    session state: no connect is made and no event is emitted. *)
Theorem endSession_keeps_retry_delay (e : Error) (s : Sys)
    (st : SessionState) :
  sessionState s = Some st ->
  (S (connectionAttempts st) <? MAX_RECONNECT_ATTEMPTS)%nat = true ->
  truthy_opt (resumptionToken st) = true ->
  timers s !! nextTimerId s = None ->
  reconnectTimer s <> Some (nextTimerId s) ->
  let tid := nextTimerId s in
  let s1 := step AEndSession (step (AOnError e) s) in
  let s2 := step (ATimerFired tid) s1 in
  timers s1 !! tid
  = Some (mkTimer ReconnectDelay RECONNECT_DELAY_MS
            (clock s + RECONNECT_DELAY_MS))
  /\ sessionState s1 = None
  /\ trace s2 = trace s1 /\ connects s2 = connects s1
  /\ sessionState s2 = None /\ session s2 = None
  /\ timers s2 = delete tid (timers s1)
  /\ historyEmpty s2.
Proof.
  intros Hst Hlt Htok Hfree Hrt. cbv zeta. cbn [step].
  destruct (onerror_view e s) as (A1 & A2 & _ & _ & A5 & _ & _).
  destruct (handleNetworkError_view e s st Hst) as (_ & _ & _ & B).
  simpl in B. rewrite Hlt, Htok in B. simpl in B.
  destruct B as (B1 & B2 & _ & _ & B5).
  rewrite <- A1 in B1. rewrite <- A2 in B2. rewrite <- A5 in B5.
  assert (Hrt1 : reconnectTimer (onerror e s) = reconnectTimer s).
  { unfold onerror, handleNetworkError, attemptReconnection, setTimeout.
    rewrite Hst. simpl. rewrite Hlt, Htok. simpl. by cases. }
  set (a := onerror e s) in *. clearbody a.
  rewrite (endSession_live _ _ B1).
  set (b := emitEvent _ _).
  assert (Hb : timers b !! nextTimerId s
               = Some (mkTimer ReconnectDelay RECONNECT_DELAY_MS
                         (clock s + RECONNECT_DELAY_MS))
               /\ sessionState b = None /\ session b = None
               /\ cls b = cls s).
  { unfold b, keepToken, storeResumptionToken, cancelReconnect,
      performSessionCleanup, closeSession, clearTimeout.
    simpl. rewrite Hrt1.
    destruct (reconnectTimer s) as [id|] eqn:Hr; cases;
      rewrite ?lookup_delete_ne by congruence; by repeat split. }
  clearbody b. destruct Hb as (D1 & D2 & D3 & D4).
  split; [exact D1|]. split; [exact D2|].
  unfold timerFired. rewrite D1. simpl.
  unfold attemptReconnection_afterDelay, reconnectSession,
    performSessionCleanup, clearTimeout, historyEmpty.
  unfold attemptReconnection_resolved, attemptReconnection_rejected,
    handleNetworkError.
  simpl. rewrite !D4.
  destruct (cls s); repeat (simpl; rewrite ?D4, ?D3, ?D2); by repeat split.
Qed.

Lemma endSession_keeps_retry_delay_witness :
  let s1 := run [AOnError (mkError "socket closed"); AEndSession]
              textWithToken in
  let s2 := run [ATimerFired 1] s1 in
  trace s2 = trace s1 /\ connects s2 = connects s1.
Proof.
  pose proof (endSession_keeps_retry_delay (mkError "socket closed")
                textWithToken
                (mkSessionState "text-session-1000" (Some "handle-1")
                   "text-tier-2" true 0)
                eq_refl eq_refl eq_refl eq_refl ltac:(discriminate))
    as (_ & _ & H1 & H2 & _).
  vm_compute in H1, H2. vm_compute. split; [exact H1|exact H2].
Defined.

(** ** A closed conduit *)

(** X14.  [onclose] only clears the [isActive] flag, which [onopen] sets
    again: the conduit handle is kept, so the next [sendMessage] /
    [sendAudio] uses the closed conduit and starts no new session, and
    the session stays inactive. *)
Theorem onclose_keeps_conduit (text : string) (chunk : list Byte.byte)
    (c : Session) (st : SessionState) (s : Sys) :
  session s = Some c -> sessionState s = Some st ->
  let s1 := step AOnClose s in
  let s2 := step (firstUse (cls s) text chunk) s1 in
  isSessionActive s1 = false
  /\ isSessionActive (step AOnOpen s1) = true
  /\ session s1 = Some c /\ trace s1 = trace s /\ timers s1 = timers s
  /\ connectCalls (trace s2) = connectCalls (trace s)
  /\ session s2 = Some c
  /\ isSessionActive s2 = false.
Proof.
  intros Hs Hst. cbv zeta. cbn [step]. unfold onclose, onopen, setActive.
  rewrite Hst. simpl. unfold isSessionActive. simpl.
  do 5 (split; [done|]).
  unfold firstUse, connectCalls.
  destruct (cls s) eqn:Hc; cbn [step]; simpl; rewrite Hc;
    unfold sendMessage, sendAudio, newPromise, sendMessage_send,
      sendAudio_send; simpl; rewrite Hs; simpl; rewrite ?Hs; simpl;
    destruct (sendThrows s c); simpl; rewrite ?omap_app; simpl;
    rewrite ?app_nil_r; by repeat split.
Qed.

Lemma onclose_keeps_conduit_witness :
  let s := run [ASendAudio []; AConnectSettled 1 (ConnOk 7%positive)]
             (freshCall 3) in
  let s2 := run [AOnClose; ASendAudio [Byte.x01]] s in
  chunksSent (trace s2) = [(7%positive, []); (7%positive, [Byte.x01])]
  /\ isSessionActive s2 = false.
Proof.
  pose proof (onclose_keeps_conduit "" [Byte.x01] 7%positive
                (mkSessionState "sts-session-1000" None
                   "gemini-2.5-flash-exp-native-audio-thinking-dialog"
                   true 0)
                (run [ASendAudio []; AConnectSettled 1 (ConnOk 7%positive)]
                   (freshCall 3)) eq_refl eq_refl)
    as (_ & _ & _ & _ & _ & _ & _ & H).
  vm_compute in H. vm_compute. split; [reflexivity|exact H].
Defined.

(** ** The orchestrator and its audio manager *)

Lemma endSession_world s :
  energy (endSession s) = energy s
  /\ connectCalls (trace (endSession s)) = connectCalls (trace s).
Proof.
  destruct (sessionState s) as [st|] eqn:Hst.
  - split; [|by destruct (endSession_view s st Hst) as (_ & -> & _)].
    rewrite (endSession_live _ _ Hst).
    unfold keepToken, storeResumptionToken, performSessionCleanup,
      closeSession, cancelReconnect.
    cases; reflexivity.
  - by rewrite (endSession_idle _ Hst).
Qed.

(** X15.  [startCallSession] ends the session of the audio manager,
    drops the orchestrator's reference to the manager and dispatches
    [call-session-ready]; no manager is created in its place, so that the
    orchestrator's [sendAudio] rejects with "No active call session", its
    transcript is empty, and no connect is made. *)
Theorem startCallSession_drops_manager (chunk : list Byte.byte) (a : App) :
  let r := startCallSession a in
  r.2 = [call_session_ready]
  /\ callSessionManager r.1 = false
  /\ callObject r.1
     = (if callSessionManager a then endSession (callObject a)
        else callObject a)
  /\ im_sendAudio chunk r.1
     = (r.1, RejectedNow (mkError "No active call session"))
  /\ im_getCallTranscript r.1 = []
  /\ connectCalls (trace (callObject r.1))
     = connectCalls (trace (callObject a)).
Proof.
  cbv zeta. unfold startCallSession, endCallSession, im_sendAudio,
    im_getCallTranscript.
  simpl. destruct (callSessionManager a) eqn:Href; simpl; rewrite ?Href;
    simpl; repeat split; try done.
  apply endSession_world.
Qed.

Lemma startCallSession_drops_manager_witness :
  isSessionActive (callObject appInCall) = true
  /\ (im_sendAudio [Byte.x01] (startCallSession appInCall).1).2
     = RejectedNow (mkError "No active call session").
Proof.
  split; [reflexivity|].
  pose proof (startCallSession_drops_manager [Byte.x01] appInCall)
    as (_ & _ & _ & H & _).
  cbv zeta in H. by rewrite H.
Defined.

(** X16.  [onRateLimitError] ends the call, dropping the reference to
    the audio manager, exactly when the mode is ["sts"] and the manager's
    session is active; in every other case it only logs.  It never
    changes the energy ledger, connects or dispatches an event. *)
Theorem onRateLimitError_spec (mode : EnergyMode) (textActive : bool)
    (a : App) :
  let a' := onRateLimitError mode textActive a in
  let ends := match mode with
              | sts => callSessionManager a && isSessionActive (callObject a)
              | tts => false
              end in
  (if ends then
     callSessionManager a' = false
     /\ sessionState (callObject a') = None
     /\ exists st, sessionState (callObject a) = Some st
          /\ last (trace (callObject a'))
             = Some (Emitted (session_ended (sessionId st)))
   else
     callSessionManager a' = callSessionManager a
     /\ callObject a' = callObject a)
  /\ energy (callObject a') = energy (callObject a)
  /\ connectCalls (trace (callObject a'))
     = connectCalls (trace (callObject a))
  /\ dispatched a' = dispatched a.
Proof.
  cbv zeta. unfold onRateLimitError, endCallSession. simpl.
  destruct mode; simpl.
  { destruct textActive; by repeat split. }
  destruct (callSessionManager a) eqn:Href; simpl; [|by repeat split].
  destruct (isSessionActive (callObject a)) eqn:Hact; simpl;
    [|by repeat split].
  rewrite ?Href. simpl.
  destruct (endSession_world (callObject a)) as [H1 H2].
  repeat split; try done.
  - apply endSession_sessionState.
  - unfold isSessionActive in Hact.
    destruct (sessionState (callObject a)) as [st|] eqn:Hst; [|done].
    exists st. split; [done|].
    by destruct (endSession_view _ _ Hst) as (_ & _ & ->).
Qed.

Lemma onRateLimitError_spec_witness :
  callSessionManager (onRateLimitError sts false appInCall) = false
  /\ callSessionManager (onRateLimitError tts true appInCall) = true.
Proof.
  split.
  - exact (proj1 (proj1 (onRateLimitError_spec sts false appInCall))).
  - exact (proj1 (proj1 (onRateLimitError_spec tts true appInCall))).
Defined.

(** ** Summaries *)

(** X17.  The summary step of the orchestrator never rejects.
    [summarize] is invoked exactly when the service is present and the
    transcript is non-empty; then one [generateContent] call is made with
    the prompt of the transcript, the result (or the placeholder
    "Summary unavailable" on failure) is logged, dispatched as
    [call-summary] and returned; otherwise the result is the empty string
    and nothing is dispatched.  The orchestrator's "Failed to generate
    summary" branch is never taken. *)
Theorem summarizeTranscript_never_rejects (transcript : list Message)
    (gen : GenOutcome) (a : App) :
  let r := summarizeTranscript transcript gen a in
  let called := summarizationService a && bool_decide (transcript <> []) in
  let summary := if called then
                   match gen with
                   | GenOk text => text
                   | GenFail _ => "Summary unavailable"
                   end
                 else "" in
  r.2 = Resolved summary
  /\ summarizeCalls r.1
     = summarizeCalls a ++ (if called then [transcript] else [])
  /\ generateCalls r.1
     = generateCalls a
       ++ (if called then [(MODEL_NAME, createPrompt transcript)] else [])
  /\ dispatched r.1
     = dispatched a
       ++ (if called then [call_summary summary transcript] else [])
  /\ im_logs r.1
     = im_logs a
       ++ (if called then [mkLog info "Summary generated" (DText summary)]
           else [])
  /\ callObject r.1 = callObject a.
Proof.
  cbv zeta. unfold summarizeTranscript.
  destruct (summarizationService a) eqn:Hsvc; simpl.
  - destruct transcript as [|m rest]; simpl.
    + rewrite !app_nil_r. by repeat split.
    + destruct gen; simpl; by repeat split.
  - rewrite !app_nil_r. by repeat split.
Qed.

Lemma append_inj (p a b : string) : p +:+ a = p +:+ b -> a = b.
Proof.
  induction p as [|c p IH]; intros H; [exact H|].
  rewrite !append_cons in H. injection H as H. auto.
Qed.

Lemma toMessages_lookup now turns : forall i turn,
  turns !! i = Some turn ->
  toMessages now turns !! i
  = Some (mkMessage ("turn-" +:+ pretty (Z.of_nat i)) (speaker turn)
            (turn_text turn) now).
Proof.
  intros i turn H. unfold toMessages. rewrite list_lookup_imap, H. done.
Qed.

(** X18.  The conversion of the call transcript to [Message]s keeps
    length, order, speakers and texts; the message at index [i] has the
    identifier ["turn-i"]; the identifiers are pairwise distinct. *)
Theorem toMessages_spec (now : Z) (turns : list Turn) :
  let ms := toMessages now turns in
  length ms = length turns
  /\ map sender ms = map speaker turns
  /\ map msg_text ms = map turn_text turns
  /\ (forall i turn, turns !! i = Some turn ->
        ms !! i = Some (mkMessage ("turn-" +:+ pretty (Z.of_nat i))
                          (speaker turn) (turn_text turn) now))
  /\ NoDup (map msg_id ms).
Proof.
  cbv zeta. split; [apply length_imap|].
  split; [|split; [|split; [apply toMessages_lookup|]]].
  - apply list_eq. intros i. rewrite !list_lookup_fmap.
    unfold toMessages. rewrite list_lookup_imap.
    by destruct (turns !! i).
  - apply list_eq. intros i. rewrite !list_lookup_fmap.
    unfold toMessages. rewrite list_lookup_imap.
    by destruct (turns !! i).
  - apply NoDup_alt. intros i j x Hi Hj.
    rewrite list_lookup_fmap in Hi, Hj.
    unfold toMessages in Hi, Hj. rewrite list_lookup_imap in Hi, Hj.
    destruct (turns !! i); [|done]. destruct (turns !! j); [|done].
    simpl in Hi, Hj.
    assert (H' : pretty (Z.of_nat i) = pretty (Z.of_nat j))
      by (apply (append_inj "turn-"); congruence).
    apply (inj pretty) in H'. lia.
Qed.

Lemma toMessages_spec_witness :
  toMessages 1000 [mkTurn "model" "hello there"; mkTurn "user" "hi"] !! 1%nat
  = Some (mkMessage "turn-1" "user" "hi" 1000).
Proof.
  exact (proj1 (proj2 (proj2 (proj2
           (toMessages_spec 1000
              [mkTurn "model" "hello there"; mkTurn "user" "hi"]))))
           1%nat (mkTurn "user" "hi") eq_refl).
Defined.

(** ** From GoAway to the resumed session *)

(** X19.  From GoAway to the resumed session.  For a session with a
    resumption token and an open conduit: the GoAway emits [go-away];
    when its timer fires, [reconnecting] is emitted with the current
    attempt counter; two seconds later the conduit is closed and a
    connect is made with the model of the session (not the model of the
    current energy level); when it resolves, [session-resumed] is emitted
    for a fresh session state without a token, the history is empty and
    the token store is unchanged. *)
Theorem goAway_reconnection_cycle (timeLeft : Z) (c c' : Session)
    (st : SessionState) (s : Sys) :
  sessionState s = Some st -> truthy_opt (resumptionToken st) = true ->
  session s = Some c -> closeThrows s c = None ->
  let t1 := nextTimerId s in
  let cid := nextConnectId s in
  let s1 := handleGoAwayMessage timeLeft s in
  let s4 := run [ATimerFired t1; ATimerFired (Pos.succ t1);
                 AConnectSettled cid (ConnOk c')] s1 in
  clock s4 = clock s + Z.max 0 (timeLeft - 500) + RECONNECT_DELAY_MS
  /\ trace s4
     = trace s
       ++ [Emitted (go_away timeLeft);
           Emitted (reconnecting (connectionAttempts st));
           Closed c;
           ConnectCalled cid (currentModel st) (getConfig s);
           Emitted (session_resumed (newSessionId s4) None)]
  /\ sessionState s4
     = Some (mkSessionState (newSessionId s4) None (currentModel st) true 0)
  /\ session s4 = Some c'
  /\ historyEmpty s4
  /\ resumptionTokenStore s4 = resumptionTokenStore s.
Proof.
  intros Hst Htok Hs Hclose. cbv zeta.
  unfold run. cbn [foldl step].
  set (d := 0 `max` (timeLeft - 500)).
  (* the GoAway message *)
  set (s1 := handleGoAwayMessage timeLeft s).
  assert (A : sessionState s1 = Some st /\ session s1 = Some c
              /\ closeThrows s1 = closeThrows s /\ clock s1 = clock s
              /\ trace s1 = trace s ++ [Emitted (go_away timeLeft)]
              /\ cls s1 = cls s /\ nextConnectId s1 = nextConnectId s
              /\ systemPrompt s1 = systemPrompt s /\ energy s1 = energy s
              /\ resumptionTokenStore s1 = resumptionTokenStore s
              /\ timers s1 !! nextTimerId s
                 = Some (mkTimer ScheduledReconnect d (clock s + d))
              /\ nextTimerId s1 = Pos.succ (nextTimerId s)).
  { unfold s1, handleGoAwayMessage. simpl. rewrite Hst, Htok.
    unfold scheduleReconnection, setTimeout, clearTimeout. simpl.
    destruct (reconnectTimer s); simpl; rewrite lookup_insert_eq;
      repeat split; try done; unfold d; do 3 f_equal; lia. }
  clearbody s1.
  destruct A as (A1 & A2 & A3 & A4 & A5 & A6 & A7 & A8 & A9 & A10 & A11 & A12).
  (* the scheduled reconnection fires *)
  set (s2 := timerFired (nextTimerId s) s1).
  assert (B : sessionState s2 = Some st /\ session s2 = Some c
              /\ closeThrows s2 = closeThrows s /\ clock s2 = clock s + d
              /\ trace s2 = trace s1
                            ++ [Emitted (reconnecting (connectionAttempts st))]
              /\ cls s2 = cls s /\ nextConnectId s2 = nextConnectId s
              /\ systemPrompt s2 = systemPrompt s /\ energy s2 = energy s
              /\ resumptionTokenStore s2 = resumptionTokenStore s
              /\ timers s2 !! Pos.succ (nextTimerId s)
                 = Some (mkTimer ReconnectDelay RECONNECT_DELAY_MS
                           (clock s + d + RECONNECT_DELAY_MS))).
  { unfold s2, timerFired. rewrite A11. simpl.
    unfold attemptReconnection, setTimeout, clearTimeout. simpl.
    rewrite A1, Htok. simpl. rewrite A12, lookup_insert_eq, A4.
    repeat split; try done; unfold d, RECONNECT_DELAY_MS;
      repeat f_equal; lia. }
  clearbody s2. clear A1 A2 A3 A4 A6 A7 A8 A9 A10 A11 A12.
  destruct B as (B1 & B2 & B3 & B4 & B5 & B6 & B7 & B8 & B9 & B10 & B11).
  (* the retry delay elapses *)
  set (s3 := timerFired (Pos.succ (nextTimerId s)) s2).
  assert (C : sessionState s3 = Some st
              /\ clock s3 = clock s + d + RECONNECT_DELAY_MS
              /\ trace s3 = trace s2
                   ++ [Closed c;
                       ConnectCalled (nextConnectId s) (currentModel st)
                         (getConfig s)]
              /\ cls s3 = cls s
              /\ resumptionTokenStore s3 = resumptionTokenStore s
              /\ connects s3 !! nextConnectId s
                 = Some (mkConnectCall
                           (mkSessionConfig (currentModel st) None None None)
                           KReconnect)
              /\ match cls s with
                 | TextSessionManager => messages s3 = []
                 | CallSessionManager => callTranscript s3 = []
                 end).
  { unfold s3, timerFired. rewrite B11. cbn [action due].
    unfold attemptReconnection_afterDelay, reconnectSession.
    set (a := match cls _ with
              | TextSessionManager => _ | CallSessionManager => _ end).
    assert (Ha : sessionState a = Some st /\ session a = Some c
                 /\ closeThrows a = closeThrows s
                 /\ clock a = clock s + d + RECONNECT_DELAY_MS
                 /\ trace a = trace s2 /\ cls a = cls s
                 /\ nextConnectId a = nextConnectId s
                 /\ systemPrompt a = systemPrompt s /\ energy a = energy s
                 /\ resumptionTokenStore a = resumptionTokenStore s).
    { unfold a, clearTimeout. simpl. rewrite B6, B4.
      destruct (cls s); simpl; repeat split; try done;
        unfold d, RECONNECT_DELAY_MS; lia. }
    clearbody a.
    destruct Ha as (E1 & E2 & E3 & E4 & E5 & E6 & E7 & E8 & E9 & E10).
    set (b := performSessionCleanup a).
    assert (Hb : sessionState b = Some st /\ clock b = clock a
                 /\ trace b = trace a ++ [Closed c] /\ cls b = cls s
                 /\ nextConnectId b = nextConnectId s
                 /\ systemPrompt b = systemPrompt s /\ energy b = energy s
                 /\ resumptionTokenStore b = resumptionTokenStore s
                 /\ match cls s with
                    | TextSessionManager => messages b = []
                    | CallSessionManager => callTranscript b = []
                    end).
    { unfold b, performSessionCleanup, closeSession. rewrite E6.
      destruct (cls s); simpl; rewrite E2; simpl; rewrite E3, Hclose;
        simpl; by repeat split. }
    clearbody b.
    destruct Hb as (G1 & G2 & G3 & G4 & G5 & G6 & G7 & G8 & G9).
    rewrite G1. cbn [fst snd]. unfold createNewSession, getConfig.
    destruct (cls s) eqn:Hc;
      repeat (simpl; rewrite ?G4, ?lookup_insert_eq, ?G1, ?G2, ?G3, ?G5,
                ?G6, ?G7, ?G8, ?E4, ?E5, <- ?app_assoc);
      by repeat split. }
  clearbody s3. clear B1 B2 B3 B4 B6 B7 B8 B9 B10 B11.
  destruct C as (C1 & C2 & C3 & C4 & C5 & C6 & C7).
  (* the connect resolves *)
  unfold connectSettled. rewrite C6. simpl.
  unfold createNewSession_resolved, attemptReconnection_resolved,
    historyEmpty, newSessionId.
  simpl. rewrite C4, C3, B5, A5, C5.
  rewrite <- !app_assoc. simpl.
  unfold getMessages, getCallTranscript.
  destruct (cls s); by repeat split.
Qed.

Lemma goAway_reconnection_cycle_witness :
  let s4 := run [AOnMessage (mkLiveServerMessage None
                               (Some (mkGoAway (Some 3000))) None);
                 ATimerFired 1; ATimerFired 2;
                 AConnectSettled 2 (ConnOk 8%positive)] textWithToken in
  clock s4 = 5500 /\ session s4 = Some 8%positive /\ getMessages s4 = [].
Proof.
  pose proof (goAway_reconnection_cycle 3000 7%positive 8%positive
                (mkSessionState "text-session-1000" (Some "handle-1")
                   "text-tier-2" true 0)
                textWithToken eq_refl eq_refl eq_refl eq_refl)
    as (H1 & _ & _ & H2 & H3 & _).
  vm_compute in H1, H2, H3. vm_compute.
  split; [exact H1|]. split; [exact H2|exact H3].
Defined.

(** ** [startSession] called directly *)

Lemma startSession_clock config caller s :
  clock (startSession config caller s) = clock s.
Proof.
  unfold startSession, getValidResumptionToken, resumeSession,
    createNewSession.
  cases; reflexivity.
Qed.

(** X20.  [startSession] called directly: once the connect resolves,
    the session state is fresh (no token, attempt counter 0, the model of
    the config), [session-started] is emitted and the promise resolves.
    An open conduit is replaced without being closed, and the history is
    kept. *)
Theorem startSession_replaces_conduit (config : SessionConfig)
    (c' : Session) (s : Sys) :
  let p := nextPromise s in
  let cid := nextConnectId s in
  let sid := newSessionId s in
  let s2 := run [AStartSession config; AConnectSettled cid (ConnOk c')] s in
  trace s2
  = trace s ++ [ConnectCalled cid (model config) (getConfig s);
                Emitted (session_started sid);
                Settled p ResolvedVoid]
  /\ session s2 = Some c'
  /\ sessionState s2 = Some (mkSessionState sid None (model config) true 0)
  /\ getMessages s2 = getMessages s
  /\ getCallTranscript s2 = getCallTranscript s.
Proof.
  cbv zeta. unfold run. cbn [foldl step]. unfold newPromise.
  set (s0 := set_nextPromise _ s).
  destruct (startSession_pending config (FromApi (nextPromise s)) s0)
    as (A1 & A2 & _ & _ & A5 & A6 & _ & _ & _ & A10).
  pose proof (startSession_clock config (FromApi (nextPromise s)) s0) as A11.
  set (s1 := startSession _ _ s0) in *. clearbody s1.
  change (nextConnectId s0) with (nextConnectId s) in *.
  change (cls s0) with (cls s) in *. change (clock s0) with (clock s) in *.
  change (messages s0) with (messages s) in *.
  change (callTranscript s0) with (callTranscript s) in *.
  change (trace s0) with (trace s) in *.
  change (getConfig s0) with (getConfig s) in *.
  unfold connectSettled. rewrite A1. simpl.
  unfold startSession_resolved, createNewSession_resolved, newSessionId.
  simpl. rewrite A2, A11, A10, <- app_assoc.
  unfold getMessages, getCallTranscript. simpl. rewrite ?A5, ?A6.
  rewrite <- ?app_assoc. by repeat split.
Qed.

(** ** Clearing the chat during a request *)

(** X21.  [clearMessages] empties the history only: conduit, session
    state and the stash of a pending request stay.  A request pending at
    that moment still resolves with its full response, and the history
    then holds the model turn alone. *)
Theorem clearMessages_mid_request (p : positive) (acc : string)
    (fin : LiveServerMessage) (s : Sys) :
  cls s = TextSessionManager ->
  _currentResolver s = Some p -> _responseText s = Some acc ->
  isComplete fin = true ->
  let s1 := step AClearMessages s in
  let s2 := step (AOnMessage fin) s1 in
  let response := acc +:+ fragment fin in
  getMessages s1 = []
  /\ session s1 = session s /\ sessionState s1 = sessionState s
  /\ trace s1 = trace s
  /\ getMessages s2 = [mkChatTurn "model" [response]]
  /\ settlements (trace s2) = settlements (trace s) ++ [(p, Resolved response)].
Proof.
  intros Hc Hr Ha Hfin. cbv zeta. cbn [step]. rewrite Hc.
  do 4 (split; [done|]).
  destruct (onmessage_complete fin (set_messages [] s) p acc Hc Hr Ha Hfin)
    as (H1 & _ & H2).
  unfold getMessages. by rewrite H1, H2.
Qed.

Lemma clearMessages_mid_request_witness :
  let s := run [ASendMessage "hi"; AConnectSettled 1 (ConnOk 7%positive);
                AOnMessage (textPart "Hel" false)] freshText in
  getMessages s = [mkChatTurn "user" ["hi"]]
  /\ getMessages (run [AClearMessages; AOnMessage (textPart "lo" true)] s)
     = [mkChatTurn "model" ["Hello"]].
Proof.
  split; [reflexivity|].
  pose proof (clearMessages_mid_request 1 "Hel" (textPart "lo" true)
                (run [ASendMessage "hi"; AConnectSettled 1 (ConnOk 7%positive);
                      AOnMessage (textPart "Hel" false)] freshText)
                eq_refl eq_refl eq_refl eq_refl) as (_ & _ & _ & _ & H & _).
  vm_compute in H. vm_compute. exact H.
Defined.

(** ** Requests made while the first connect is pending *)

Lemma startSession_ids config caller s :
  let s1 := startSession config caller s in
  nextConnectId s1 = Pos.succ (nextConnectId s)
  /\ energy s1 = energy s
  /\ settlements (trace s1) = settlements (trace s)
  /\ chunksSent (trace s1) = chunksSent (trace s)
  /\ connectCalls (trace s1) = connectCalls (trace s) ++ [nextConnectId s].
Proof.
  cbv zeta.
  destruct (startSession_pending config caller s)
    as (_ & _ & _ & _ & _ & _ & _ & _ & _ & ->).
  unfold chunksSent, connectCalls. rewrite settlements_app, !omap_app.
  simpl. rewrite !app_nil_r. repeat split.
  all: unfold startSession, getValidResumptionToken, resumeSession,
    createNewSession.
  all: cases; reflexivity.
Qed.

(** X22.  While the first connect is pending the adapter has no
    conduit, so every further [sendMessage] / [sendAudio] starts a
    session of its own: [n] requests make [n] connect calls with
    consecutive handles; until a connect settles no promise is settled,
    no audio is sent and no turn is added to the history. *)
Theorem requests_while_connecting
    (inputs : list (string * list Byte.byte)) (m : string) (s : Sys) :
  session s = None ->
  getCurrentModel (energy s) (modeOf (cls s)) = Some m -> truthy m = true ->
  let s' := run (map (fun i => firstUse (cls s) i.1 i.2) inputs) s in
  connectCalls (trace s')
  = connectCalls (trace s) ++ idsFrom (nextConnectId s) (length inputs)
  /\ settlements (trace s') = settlements (trace s)
  /\ chunksSent (trace s') = chunksSent (trace s)
  /\ session s' = None /\ sessionState s' = sessionState s
  /\ getMessages s' = getMessages s.
Proof.
  cbv zeta. revert s.
  induction inputs as [|[text chunk] inputs IH]; intros s Hs Hm Ht.
  { simpl. rewrite app_nil_r. by repeat split. }
  set (f := fun i : string * list Byte.byte => firstUse (cls s) i.1 i.2).
  change (run (map f ((text, chunk) :: inputs)) s)
    with (run (map f inputs) (step (firstUse (cls s) text chunk) s)).
  set (s1 := step (firstUse (cls s) text chunk) s).
  assert (H1 : exists config caller,
             s1 = startSession config caller
                    (set_nextPromise (Pos.succ (nextPromise s)) s)).
  { unfold s1, firstUse.
    destruct (cls s) eqn:Hc; cbn [step]; rewrite Hc;
      unfold sendMessage, sendAudio, newPromise, getModel; simpl;
      rewrite Hs, Hc; simpl in *; rewrite Hm, Ht; eauto. }
  destruct H1 as (config & caller & H1).
  set (s0 := set_nextPromise _ s) in H1.
  destruct (startSession_pending config caller s0)
    as (_ & A2 & A3 & A4 & A5 & _ & _ & _ & _ & _).
  destruct (startSession_ids config caller s0) as (B1 & B2 & B3 & B4 & B5).
  rewrite <- H1 in *. clearbody s1.
  change (cls s0) with (cls s) in *. change (session s0) with (session s) in *.
  change (sessionState s0) with (sessionState s) in *.
  change (messages s0) with (messages s) in *.
  change (nextConnectId s0) with (nextConnectId s) in *.
  change (energy s0) with (energy s) in *.
  change (trace s0) with (trace s) in *.
  unfold f. rewrite <- A2.
  destruct (IH s1) as (I1 & I2 & I3 & I4 & I5 & I6);
    [congruence|by rewrite A2, B2|done|].
  unfold getMessages in *.
  rewrite I1, I2, I3, I4, I5, I6, B1, B3, B4, B5, A4, A5, <- app_assoc.
  done.
Qed.

Lemma requests_while_connecting_witness :
  let s' := run [ASendAudio [Byte.x01]; ASendAudio [Byte.x02]] (freshCall 3) in
  connectCalls (trace s') = [1%positive; 2%positive]
  /\ session s' = None.
Proof.
  pose proof (requests_while_connecting
                [("", [Byte.x01]); ("", [Byte.x02])]
                "gemini-2.5-flash-exp-native-audio-thinking-dialog"
                (freshCall 3) eq_refl eq_refl eq_refl)
    as (H1 & _ & _ & H2 & _).
  vm_compute in H1, H2. vm_compute. split; [exact H1|exact H2].
Defined.

(** ** Event listeners *)

Lemma deliveries_listeners reg ev :
  deliveries reg ev = map (fun l => (l, ev)) (listeners (eventType ev) reg).
Proof. unfold deliveries, listeners. by destruct (reg !! _). Qed.

Lemma listeners_add ty ty' l reg :
  listeners ty' (addEventListener ty l reg)
  = if decide (ty' = ty) then setAdd l (listeners ty reg)
    else listeners ty' reg.
Proof.
  unfold listeners, addEventListener.
  destruct (reg !! ty) as [ls|] eqn:Hty; cbv beta iota zeta.
  - rewrite Hty. cbv beta iota. destruct (decide (ty' = ty)) as [->|Hne].
    + by rewrite lookup_insert_eq.
    + by rewrite lookup_insert_ne.
  - rewrite lookup_insert_eq. destruct (decide (ty' = ty)) as [->|Hne].
    + by rewrite lookup_insert_eq.
    + by rewrite !lookup_insert_ne.
Qed.

Lemma listeners_remove ty ty' l reg :
  listeners ty' (removeEventListener ty l reg)
  = if decide (ty' = ty) then setDelete l (listeners ty reg)
    else listeners ty' reg.
Proof.
  unfold listeners, removeEventListener.
  destruct (reg !! ty) as [ls|] eqn:Hty; cbv beta iota zeta.
  - destruct (decide (ty' = ty)) as [->|Hne].
    + by rewrite lookup_insert_eq.
    + by rewrite lookup_insert_ne.
  - destruct (decide (ty' = ty)) as [->|Hne]; [by rewrite Hty|done].
Qed.

Lemma setAdd_NoDup l ls : NoDup ls -> NoDup (setAdd l ls).
Proof.
  intros H. unfold setAdd. destruct (decide _) as [|Hn]; [done|].
  apply NoDup_app. repeat split; [done| |apply NoDup_singleton].
  intros x Hx Hx'. apply list_elem_of_singleton in Hx'. by subst.
Qed.

Lemma listeners_NoDup ops : forall reg,
  (forall ty, NoDup (listeners ty reg)) ->
  forall ty, NoDup (listeners ty (foldl applyOp reg ops)).
Proof.
  induction ops as [|op ops IH]; intros reg H; [done|].
  simpl. apply IH. intros ty. destruct op as [ty0 l|ty0 l]; simpl.
  - rewrite listeners_add. destruct (decide _); [|done].
    by apply setAdd_NoDup.
  - rewrite listeners_remove. destruct (decide _); [|done].
    by apply NoDup_filter.
Qed.

(** X23.  Listener registry.  For a registry built by any sequence of
    [addEventListener] / [removeEventListener] calls: [emitEvent] calls
    each listener at most once per event; adding a listener twice is the
    same as adding it once; a listener added for the type of the event is
    called, last if it is new and in its old place otherwise; a removed
    listener is not called, the others keeping their order; listeners of
    the other types are not affected. *)
Theorem listener_registry (ops : list RegistryOp) (ty : string)
    (l : Listener) (ev : SessionEvent) :
  let reg := foldl applyOp ∅ ops in
  let added := addEventListener ty l reg in
  let removed := removeEventListener ty l reg in
  NoDup (deliveries reg ev)
  /\ addEventListener ty l added = added
  /\ (eventType ev = ty ->
        ((l, ev) ∈ deliveries added ev)
        /\ ((l, ev) ∉ deliveries removed ev)
        /\ deliveries added ev
           = (if decide (l ∈ listeners ty reg) then deliveries reg ev
              else deliveries reg ev ++ [(l, ev)])
        /\ deliveries removed ev
           = filter (fun d => d.1 <> l) (deliveries reg ev))
  /\ (eventType ev <> ty ->
        deliveries added ev = deliveries reg ev
        /\ deliveries removed ev = deliveries reg ev).
Proof.
  cbv zeta. set (reg := foldl applyOp ∅ ops).
  assert (Hnd : forall ty, NoDup (listeners ty reg)).
  { apply listeners_NoDup. intros ty0. unfold listeners.
    rewrite lookup_empty. apply NoDup_nil_2. }
  clearbody reg. rewrite !deliveries_listeners.
  split; [|split; [|split]].
  - apply NoDup_fmap_2; [|apply Hnd]. intros a b Hab. congruence.
  - apply map_eq. intros ty'.
    pose proof (listeners_add ty ty' l (addEventListener ty l reg)) as H1.
    pose proof (listeners_add ty ty' l reg) as H2.
    assert (Hsome : forall r : gmap string (list Listener),
               is_Some (addEventListener ty l r !! ty)).
    { intros r. unfold addEventListener.
      destruct (r !! ty) eqn:Hr; cbv beta iota zeta.
      - rewrite Hr. cbv beta iota. rewrite lookup_insert_eq. eauto.
      - rewrite !lookup_insert_eq. eauto. }
    unfold listeners in H1, H2.
    destruct (decide (ty' = ty)) as [->|Hne].
    + destruct (Hsome (addEventListener ty l reg)) as [x Hx].
      destruct (Hsome reg) as [y Hy].
      rewrite Hx, Hy in H1. rewrite Hy in H2. simpl in H1, H2.
      rewrite Hx, Hy.
      f_equal. rewrite H1. unfold setAdd at 1.
      destruct (decide (l ∈ y)) as [|Hn]; [done|].
      exfalso. apply Hn. rewrite H2. unfold setAdd.
      destruct (decide _); [done|]. apply elem_of_app. right.
      by apply list_elem_of_singleton.
    + unfold addEventListener at 1.
      destruct (Hsome reg) as [y Hy]. rewrite Hy. cbv beta iota zeta. rewrite Hy.
      cbv beta iota. by rewrite lookup_insert_ne.
  - intros <-. rewrite listeners_add, listeners_remove.
    rewrite !decide_True by done.
    split; [|split; [|split]].
    + apply list_elem_of_fmap. exists l. split; [done|]. unfold setAdd.
      destruct (decide _); [done|]. apply elem_of_app. right.
      by apply list_elem_of_singleton.
    + intros H. apply list_elem_of_fmap in H as (l' & Hl' & Hin).
      unfold setDelete in Hin. apply list_elem_of_filter in Hin as [Hne _].
      congruence.
    + unfold setAdd. destruct (decide _); [done|].
      by rewrite map_app.
    + unfold setDelete. generalize (listeners (eventType ev) reg).
      intros ls. induction ls as [|x ls IH]; [done|].
      simpl. rewrite !filter_cons. simpl.
      destruct (decide (x <> l)); simpl; by rewrite IH.
  - intros Hne. rewrite listeners_add, listeners_remove.
    by rewrite !decide_False by done.
Qed.

Lemma listener_registry_witness :
  let reg := foldl applyOp ∅
               [Add "go-away" 1%positive; Add "go-away" 2%positive;
                Add "go-away" 1%positive; Remove "go-away" 2%positive] in
  deliveries (addEventListener "go-away" 2%positive reg) (go_away 3000)
  = [(1%positive, go_away 3000); (2%positive, go_away 3000)].
Proof.
  pose proof (proj1 (proj2 (proj2
                (listener_registry
                   [Add "go-away" 1%positive; Add "go-away" 2%positive;
                    Add "go-away" 1%positive; Remove "go-away" 2%positive]
                   "go-away" 2%positive (go_away 3000)))) eq_refl)
    as (_ & _ & H & _).
  vm_compute in H. vm_compute. exact H.
Defined.
